(** * Data-quality analysis engine: dataAnalyzer.ts and aiAnalyzer.ts

    A shallow embedding of the analysis core of the repository
    (src/lib/dataAnalyzer.ts, src/lib/aiAnalyzer.ts) together with the
    properties its specification states about it.

    Layout:
    - [JSNumber]: the ECMAScript Number type (IEEE-754 binary64) as exact
      rationals with round-to-nearest-even, [Math.round], [Math.max];
    - [JSValue]: the raw cell values a decoded CSV/JSON record can hold, with
      [String(v)], [Number(v)], [parseFloat] and the [Set] equality;
    - [DataAnalyzer]: the class of dataAnalyzer.ts;
    - [AIAnalyzer]: the class of aiAnalyzer.ts;
    - [DataAnalyzerJSON], [Pages]: the JSON entry point, and the upload
      form, the analysis page and the dashboard that use the analysis;
    - the theorems. *)

From Stdlib Require Import ZArith QArith Qround Qpower Qreduction Lqa Lia.
From Stdlib Require Import List String Ascii Bool DecimalString.
From Stdlib Require Import Permutation Sorted.
From Stdlib Require Floats.SpecFloat.
Import ListNotations.


(* ================================================================== *)
(** ** ECMAScript numbers *)
(* ================================================================== *)

Module JSNumber.

Local Open Scope Q_scope.

(** A Number is NaN, an infinity, or a finite binary64 value, kept as the
    rational it denotes.  The two zeros are identified: nothing in the
    analyzer observes the sign of a zero (every divisor is an array length
    or the literal 4). *)
Inductive number : Type :=
| NaN : number
| Infty (neg : bool) : number
| Fin (q : Q) : number.

Definition pow2 (z : Z) : Q := 2 ^ z.

(** [ilog2 q] is the binade of a positive rational:
    2^(ilog2 q) <= q < 2^(ilog2 q + 1). *)
Definition ilog2 (q : Q) : Z :=
  let e0 := (Z.log2 (Qnum q) - Z.log2 (Zpos (Qden q)))%Z in
  if Qle_bool (pow2 e0) q then e0 else (e0 - 1)%Z.

(** Nearest integer, ties to even. *)
Definition round_half_even (x : Q) : Z :=
  let f := Qfloor x in
  match Qcompare (x - inject_Z f) (1 # 2) with
  | Lt => f
  | Gt => (f + 1)%Z
  | Eq => if Z.even f then f else (f + 1)%Z
  end.

(** Exponent of the unit in the last place: 53 significant bits, and the
    subnormal grid 2^-1074 at the bottom. *)
Definition ulp_exp (q : Q) : Z := Z.max (ilog2 q - 52) (-1074).

(** binary64 rounding of a positive rational, before the overflow test. *)
Definition RN_pos (q : Q) : Q :=
  let u := ulp_exp q in
  inject_Z (round_half_even (q / pow2 u)) * pow2 u.

(** roundTiesToEven of an exact result into the Number type. *)
Definition RN (q : Q) : number :=
  match Qcompare q 0 with
  | Eq => Fin 0
  | Gt => let r := RN_pos q in
          if Qle_bool (pow2 1024) r then Infty false else Fin (Qred r)
  | Lt => let r := RN_pos (- q) in
          if Qle_bool (pow2 1024) r then Infty true else Fin (Qred (- r))
  end.

Definition is_neg (q : Q) : bool := negb (Qle_bool 0 q).

Definition fneg (x : number) : number :=
  match x with
  | NaN => NaN
  | Infty s => Infty (negb s)
  | Fin q => Fin (- q)
  end.

(** [x + y] *)
Definition fadd (x y : number) : number :=
  match x, y with
  | NaN, _ | _, NaN => NaN
  | Infty a, Infty b => if Bool.eqb a b then Infty a else NaN
  | Infty a, Fin _ => Infty a
  | Fin _, Infty b => Infty b
  | Fin p, Fin q => RN (p + q)
  end.

(** [x - y] *)
Definition fsub (x y : number) : number := fadd x (fneg y).

(** [x * y] *)
Definition fmul (x y : number) : number :=
  match x, y with
  | NaN, _ | _, NaN => NaN
  | Infty a, Infty b => Infty (xorb a b)
  | Infty a, Fin q => if Qeq_bool q 0 then NaN else Infty (xorb a (is_neg q))
  | Fin p, Infty b => if Qeq_bool p 0 then NaN else Infty (xorb (is_neg p) b)
  | Fin p, Fin q => RN (p * q)
  end.

(** [x / y]; a zero divisor is the positive zero. *)
Definition fdiv (x y : number) : number :=
  match x, y with
  | NaN, _ | _, NaN => NaN
  | Infty _, Infty _ => NaN
  | Infty a, Fin q => Infty (xorb a (is_neg q))
  | Fin _, Infty _ => Fin 0
  | Fin p, Fin q =>
      if Qeq_bool q 0
      then (if Qeq_bool p 0 then NaN else Infty (is_neg p))
      else RN (p / q)
  end.

(** [Math.round]: the integer closest to [x], ties towards +infinity. *)
Definition Math_round (x : number) : number :=
  match x with
  | Fin q => Fin (inject_Z (Qfloor (q + (1 # 2))))
  | _ => x
  end.

(** [Math.max(x, y)] *)
Definition Math_max (x y : number) : number :=
  match x, y with
  | NaN, _ | _, NaN => NaN
  | Infty false, _ | _, Infty false => Infty false
  | Infty true, _ => y
  | _, Infty true => x
  | Fin p, Fin q => if Qle_bool p q then y else x
  end.

(** [x < y] *)
Definition ltb (x y : number) : bool :=
  match x, y with
  | NaN, _ | _, NaN => false
  | Infty a, Infty b => a && negb b
  | Infty a, Fin _ => a
  | Fin _, Infty b => negb b
  | Fin p, Fin q => negb (Qle_bool q p)
  end.

(** SameValueZero on numbers (the equality of [Set]). *)
Definition same (x y : number) : bool :=
  match x, y with
  | NaN, NaN => true
  | Infty a, Infty b => Bool.eqb a b
  | Fin p, Fin q => Qeq_bool p q
  | _, _ => false
  end.

(** [Number.isInteger] *)
Definition isInteger (x : number) : bool :=
  match x with
  | Fin q => Qeq_bool q (inject_Z (Qfloor q))
  | _ => false
  end.

(** [Number.isNaN] / the global [isNaN] on a Number. *)
Definition isNaN (x : number) : bool :=
  match x with NaN => true | _ => false end.

(** An integer as a Number (array lengths, integer literals). *)
Definition of_Z (z : Z) : number := Fin (inject_Z z).
Definition of_nat (n : nat) : number := of_Z (Z.of_nat n).

End JSNumber.

Import JSNumber.

(** The binary64 operations of the Standard Library's IEEE-754
    specification (SpecFloat), to compare the model above with. *)
Module SpecFloatCheck.
Import Floats.SpecFloat.

Definition SF2Q (f : spec_float) : option Q :=
  match f with
  | S754_zero _ => Some 0%Q
  | S754_finite s m e =>
      Some ((if s then -1 else 1) * inject_Z (Zpos m) * pow2 e)%Q
  | _ => None
  end.

Definition sf_of_nat (n : nat) : spec_float :=
  match n with
  | O => S754_zero false
  | S _ => S754_finite false (Pos.of_nat n) 0
  end.

Definition agree (x : number) (f : spec_float) : bool :=
  match x, SF2Q f with
  | Fin q, Some r => Qeq_bool q r
  | _, _ => false
  end.

(** [(k / n) * 100] *)
Definition percent_agrees (k n : nat) : bool :=
  agree (fmul (fdiv (of_nat k) (of_nat n)) (of_Z 100))
        (SFmul 53 1024 (SFdiv 53 1024 (sf_of_nat k) (sf_of_nat n)) (sf_of_nat 100)).

(** [100 - s / n] *)
Definition complement_agrees (s n : nat) : bool :=
  agree (fsub (of_Z 100) (fdiv (of_nat s) (of_nat n)))
        (SFsub 53 1024 (sf_of_nat 100) (SFdiv 53 1024 (sf_of_nat s) (sf_of_nat n))).

(** [(a + b) / 4] *)
Definition mean_agrees (a b : nat) : bool :=
  agree (fdiv (fadd (of_nat a) (of_nat b)) (of_Z 4))
        (SFdiv 53 1024 (SFadd 53 1024 (sf_of_nat a) (sf_of_nat b)) (sf_of_nat 4)).

End SpecFloatCheck.



(* ================================================================== *)
(** ** Strings and raw cell values *)
(* ================================================================== *)

(** Strings are sequences of code units below 256; every string the
    analyzer builds itself is ASCII. *)
Module JSString.

Local Open Scope string_scope.

Definition code (c : ascii) : N := N_of_ascii c.

Definition is_digit (c : ascii) : bool := ((48 <=? code c) && (code c <=? 57))%N.

(** StrWhiteSpaceChar below 256: TAB, LF, VT, FF, CR, SP, NBSP. *)
Definition is_space (c : ascii) : bool :=
  (((9 <=? code c) && (code c <=? 13)) || (code c =? 32) || (code c =? 160))%N.

Definition lower_char (c : ascii) : ascii :=
  let n := code c in
  if (((65 <=? n) && (n <=? 90))
      || ((192 <=? n) && (n <=? 222) && negb (n =? 215)))%N
  then ascii_of_N (n + 32) else c.

(** [s.toLowerCase()] *)
Fixpoint toLowerCase (s : string) : string :=
  match s with
  | EmptyString => EmptyString
  | String c r => String (lower_char c) (toLowerCase r)
  end.

(** [s.includes(p)] *)
Fixpoint includes (s p : string) : bool :=
  prefix p s ||
  match s with
  | EmptyString => false
  | String _ r => includes r p
  end.

(** [s.endsWith(p)] *)
Fixpoint endsWith (s p : string) : bool :=
  String.eqb s p ||
  match s with
  | EmptyString => false
  | String _ r => endsWith r p
  end.

(** [parts.join(sep)] on an array of strings. *)
Fixpoint join (sep : string) (parts : list string) : string :=
  match parts with
  | [] => ""
  | [x] => x
  | x :: rest => x ++ sep ++ join sep rest
  end.

(** Decimal digits of a non-negative integer. *)
Definition digits_of_N (n : N) : string := NilZero.string_of_uint (N.to_uint n).
Definition digits_of_nat (n : nat) : string := digits_of_N (N.of_nat n).

Fixpoint zeros (n : nat) : string :=
  match n with O => "" | S k => String "0" (zeros k) end.

End JSString.

Import JSString.

Module JSValue.

Local Open Scope string_scope.

(** What a cell of a decoded record holds: JSON.parse gives null, booleans,
    numbers and strings; PapaParse gives strings; a key absent from a row
    reads as undefined.  Records are flat (no nested arrays or objects). *)
Inductive raw : Type :=
| VNull : raw
| VUndefined : raw
| VBool (b : bool) : raw
| VNum (x : number) : raw
| VStr (s : string) : raw.

(** *** Number::toString *)

Definition pow10 (z : Z) : Q := (10 ^ z)%Q.

(** floor(log10 q) for a positive rational, from the binary logarithm. *)
Definition ilog10 (q : Q) : Z :=
  let g := (ilog2 q * 30103 / 100000)%Z in
  let ok e := Qle_bool (pow10 e) q && negb (Qle_bool (pow10 (e + 1)) q) in
  if ok g then g
  else if ok (g + 1)%Z then (g + 1)%Z
  else if ok (g - 1)%Z then (g - 1)%Z
  else g.

(** The digit string [s] and decimal exponent [n] of Number::toString for
    [k] significant digits, when some [s * 10^(n-k)] rounds to [q]. *)
Definition digits_at (q : Q) (k : nat) : option (string * Z) :=
  let e := ilog10 q in
  let scale := pow10 (e + 1 - Z.of_nat k) in
  let lo := Qfloor (q / scale) in
  let hi := (lo + 1)%Z in
  let hits z := same (RN (inject_Z z * scale)) (Fin q) in
  let out z :=
    if (z =? 10 ^ Z.of_nat k)%Z then ("1", (e + 2)%Z)
    else (digits_of_N (Z.to_N z), (e + 1)%Z) in
  let closer_lo :=
    Qle_bool (q - inject_Z lo * scale) (inject_Z hi * scale - q) in
  match hits lo, hits hi with
  | true, true => Some (out (if closer_lo then lo else hi))
  | true, false => Some (out lo)
  | false, true => Some (out hi)
  | false, false => None
  end.

Fixpoint shortest_digits (q : Q) (k fuel : nat) : string * Z :=
  match fuel with
  | O => (digits_of_N (Z.to_N (Qfloor (q / pow10 (ilog10 q + 1 - Z.of_nat k)))),
          (ilog10 q + 1)%Z)
  | S fuel' =>
      match digits_at q k with
      | Some r => r
      | None => shortest_digits q (S k) fuel'
      end
  end.

Fixpoint drop_zeros (l : list ascii) : list ascii :=
  match l with
  | c :: r => if Ascii.eqb c "0" then drop_zeros r else l
  | [] => l
  end.

Definition strip_trailing_zeros (s : string) : string :=
  string_of_list_ascii (rev (drop_zeros (rev (list_ascii_of_string s)))).

(** Layout of the digits [ds] with decimal point position [n]. *)
Definition layout (ds : string) (n : Z) : string :=
  let k := Z.of_nat (String.length ds) in
  if ((k <=? n) && (n <=? 21))%Z then ds ++ zeros (Z.to_nat (n - k))
  else if ((0 <? n) && (n <=? 21))%Z then
    substring 0 (Z.to_nat n) ds ++ "." ++
    substring (Z.to_nat n) (String.length ds - Z.to_nat n) ds
  else if ((-6 <? n) && (n <=? 0))%Z then
    "0." ++ zeros (Z.to_nat (- n)) ++ ds
  else
    let e := (n - 1)%Z in
    let sgn := if (e <? 0)%Z then "-" else "+" in
    let ex := digits_of_N (Z.to_N (Z.abs e)) in
    match ds with
    | String d EmptyString => String d ("e" ++ sgn ++ ex)
    | String d rest => String d ("." ++ rest ++ "e" ++ sgn ++ ex)
    | EmptyString => "0"
    end.

(** Number::toString of a positive finite value.  Below 2^53 an integer
    prints as its decimal expansion (it is its own shortest form). *)
Definition pos_to_string (q : Q) : string :=
  if Qeq_bool q (inject_Z (Qfloor q)) && Qle_bool q (pow2 53 - 1)
  then digits_of_N (Z.to_N (Qfloor q))
  else
    let '(ds, n) := shortest_digits q 1 17 in
    let ds' := strip_trailing_zeros ds in
    layout (if String.eqb ds' "" then "0" else ds') n.

Definition number_to_string (x : number) : string :=
  match x with
  | NaN => "NaN"
  | Infty false => "Infinity"
  | Infty true => "-Infinity"
  | Fin q =>
      match Qcompare q 0 with
      | Eq => "0"
      | Gt => pos_to_string q
      | Lt => "-" ++ pos_to_string (- q)
      end
  end.

(** [String(v)], also the conversion of a template literal. *)
Definition String_ (v : raw) : string :=
  match v with
  | VNull => "null"
  | VUndefined => "undefined"
  | VBool true => "true"
  | VBool false => "false"
  | VNum x => number_to_string x
  | VStr s => s
  end.

(** *** StringToNumber and parseFloat *)

Fixpoint span_digits (l : list ascii) : list ascii * list ascii :=
  match l with
  | c :: r => if is_digit c
              then let (ds, rest) := span_digits r in (c :: ds, rest)
              else ([], l)
  | [] => ([], [])
  end.

Definition digit_value (c : ascii) : Z := (Z.of_N (code c) - 48)%Z.

Definition digits_value (ds : list ascii) : Z :=
  fold_left (fun acc c => (acc * 10 + digit_value c)%Z) ds 0%Z.

(** An optional sign. *)
Definition split_sign (l : list ascii) : bool * list ascii :=
  match l with
  | c :: r => if Ascii.eqb c "-" then (true, r)
              else if Ascii.eqb c "+" then (false, r)
              else (false, l)
  | [] => (false, l)
  end.

(** ExponentPart: [e] or [E], an optional sign, at least one digit.  A
    malformed exponent is not consumed. *)
Definition scan_exponent (l : list ascii) : Z * list ascii :=
  match l with
  | c :: r =>
      if (Ascii.eqb c "e" || Ascii.eqb c "E")%bool then
        let '(neg, r1) := split_sign r in
        let (ds, r2) := span_digits r1 in
        match ds with
        | [] => (0%Z, l)
        | _ => ((if neg then - digits_value ds else digits_value ds)%Z, r2)
        end
      else (0%Z, l)
  | [] => (0%Z, l)
  end.

(** The longest prefix that is a StrUnsignedDecimalLiteral other than
    Infinity: its exact value and what follows it. *)
Definition scan_unsigned (l : list ascii) : option (Q * list ascii) :=
  let (ip, r1) := span_digits l in
  let '(fp, r2) :=
    match r1 with
    | c :: r =>
        if Ascii.eqb c "." then
          let (f, r') := span_digits r in
          match ip, f with
          | [], [] => ([], r1)
          | _, _ => (f, r')
          end
        else ([], r1)
    | [] => ([], r1)
    end in
  match ip, fp with
  | [], [] => None
  | _, _ =>
      let (ex, r3) := scan_exponent r2 in
      Some ((inject_Z (digits_value (ip ++ fp))
             * pow10 (ex - Z.of_nat (List.length fp)))%Q, r3)
  end.

Fixpoint trim_start (l : list ascii) : list ascii :=
  match l with
  | c :: r => if is_space c then trim_start r else l
  | [] => []
  end.

Definition trim (l : list ascii) : list ascii :=
  rev (trim_start (rev (trim_start l))).


Definition Infinity_chars : list ascii := list_ascii_of_string "Infinity".

Fixpoint is_prefix (p l : list ascii) : bool :=
  match p, l with
  | [], _ => true
  | a :: p', b :: l' => Ascii.eqb a b && is_prefix p' l'
  | _ :: _, [] => false
  end.

Definition signed (neg : bool) (q : Q) : Q := if neg then (- q)%Q else q.

(** Value of a digit in the given radix (2, 8 or 16), if it is one. *)
Definition radix_digit (radix : Z) (c : ascii) : option Z :=
  let n := Z.of_N (code c) in
  let v :=
    if ((48 <=? n) && (n <=? 57))%Z then Some (n - 48)%Z
    else if ((97 <=? n) && (n <=? 102))%Z then Some (n - 87)%Z
    else if ((65 <=? n) && (n <=? 70))%Z then Some (n - 55)%Z
    else None in
  match v with
  | Some d => if (d <? radix)%Z then Some d else None
  | None => None
  end.

Fixpoint radix_value (radix : Z) (acc : Z) (l : list ascii) : option Z :=
  match l with
  | [] => Some acc
  | c :: r =>
      match radix_digit radix c with
      | Some d => radix_value radix (acc * radix + d)%Z r
      | None => None
      end
  end.

(** NonDecimalIntegerLiteral: 0x, 0o, 0b and at least one digit. *)
Definition scan_radix (l : list ascii) : option (option Z) :=
  match l with
  | z :: c :: r =>
      let radix :=
        if negb (Ascii.eqb z "0") then None
        else if (Ascii.eqb c "x" || Ascii.eqb c "X")%bool then Some 16%Z
        else if (Ascii.eqb c "o" || Ascii.eqb c "O")%bool then Some 8%Z
        else if (Ascii.eqb c "b" || Ascii.eqb c "B")%bool then Some 2%Z
        else None in
      match radix, r with
      | Some _, [] => Some None
      | Some b, _ => Some (radix_value b 0 r)
      | None, _ => None
      end
  | _ => None
  end.

(** [Number(s)] on a string (StringToNumber). *)
Definition string_to_number (s : string) : number :=
  let t := trim (list_ascii_of_string s) in
  match t with
  | [] => Fin 0
  | _ =>
      match scan_radix t with
      | Some (Some z) => RN (inject_Z z)
      | Some None => NaN
      | None =>
          let (neg, body) := split_sign t in
          if list_eq_dec ascii_dec body Infinity_chars then Infty neg
          else match scan_unsigned body with
               | Some (q, []) => RN (signed neg q)
               | _ => NaN
               end
      end
  end.

(** [Number(v)] *)
Definition Number_ (v : raw) : number :=
  match v with
  | VNull => Fin 0
  | VUndefined => NaN
  | VBool true => Fin 1
  | VBool false => Fin 0
  | VNum x => x
  | VStr s => string_to_number s
  end.

(** [parseFloat(s)]: leading white space is skipped, the longest numeric
    prefix is converted, NaN when there is none. *)
Definition parseFloat (s : string) : number :=
  let t := trim_start (list_ascii_of_string s) in
  let (neg, body) := split_sign t in
  if is_prefix Infinity_chars body then Infty neg
  else match scan_unsigned body with
       | Some (q, _) => RN (signed neg q)
       | None => NaN
       end.

(** *** The equality of [Set] (SameValueZero) and the missing markers *)

Definition same_value_zero (a b : raw) : bool :=
  match a, b with
  | VNull, VNull => true
  | VUndefined, VUndefined => true
  | VBool x, VBool y => Bool.eqb x y
  | VNum x, VNum y => JSNumber.same x y
  | VStr x, VStr y => String.eqb x y
  | _, _ => false
  end.

(** [v === null || v === undefined || v === ""] *)
Definition is_missing (v : raw) : bool :=
  match v with
  | VNull | VUndefined => true
  | VStr s => String.eqb s ""
  | _ => false
  end.

(** [v != null && v !== ""] *)
Definition non_missing (v : raw) : bool :=
  match v with
  | VNull | VUndefined => false
  | VStr s => negb (String.eqb s "")
  | _ => true
  end.

(** [new Set(values)] as the list of its elements in insertion order. *)
Definition Set_add (seen : list raw) (v : raw) : list raw :=
  if existsb (same_value_zero v) seen then seen else seen ++ [v].

Definition Set_of (values : list raw) : list raw :=
  fold_left Set_add values [].

(** *** Records *)

(** An object as the list of its own enumerable properties in
    [Object.keys] order. *)
Definition record : Type := list (string * raw).

Definition Object_keys (r : record) : list string := map fst r.

(** [row[key]]: undefined when the key is absent. *)
Fixpoint get (r : record) (key : string) : raw :=
  match r with
  | [] => VUndefined
  | (k, v) :: rest => if String.eqb k key then v else get rest key
  end.

(** [arr.slice(0, n)] *)
Definition slice0 {A : Type} (n : nat) (arr : list A) : list A := firstn n arr.

End JSValue.

Import JSValue.

(* ================================================================== *)
(** ** Exceptions *)
(* ================================================================== *)

(** A computation that returns a value or throws an [Error] with a
    message; a rejected promise is a [Throw] as well. *)
Inductive outcome (A : Type) : Type :=
| Return (a : A) : outcome A
| Throw (message : string) : outcome A.

Arguments Return {A} a.
Arguments Throw {A} message.

Definition bind {A B : Type} (m : outcome A) (k : A -> outcome B) : outcome B :=
  match m with
  | Return a => k a
  | Throw e => Throw e
  end.

(** [try { body } catch (error) { handler }] *)
Definition try_catch {A : Type} (body : outcome A) (handler : string -> outcome A)
  : outcome A :=
  match body with
  | Return a => Return a
  | Throw e => handler e
  end.

(** [arr.push(x)] on an array threaded as a value. *)
Definition push {A : Type} (arr : list A) (x : A) : list A := (arr ++ [x])%list.

Definition throws {A : Type} (m : outcome A) : Prop :=
  match m with Throw _ => True | Return _ => False end.

(* ================================================================== *)
(** ** dataAnalyzer.ts *)
(* ================================================================== *)

Inductive DataType : Type := Text | Integer | Float | Boolean | Date.

Definition DataType_eqb (a b : DataType) : bool :=
  match a, b with
  | Text, Text | Integer, Integer | Float, Float
  | Boolean, Boolean | Date, Date => true
  | _, _ => false
  end.

Definition DataType_name (t : DataType) : string :=
  match t with
  | Text => "text" | Integer => "integer" | Float => "float"
  | Boolean => "boolean" | Date => "date"
  end.

Module ColumnStats.
Record t : Type := Build
  { name : string;
    type : DataType;
    totalRows : nat;
    nullCount : nat;
    nullPercentage : number;
    uniqueCount : nat;
    uniquePercentage : number;
    sampleValues : list raw;
    issues : list string }.
End ColumnStats.

Module DataAnalysisResult.
Record t : Type := Build
  { fileName : string;
    totalRows : nat;
    totalColumns : nat;
    columns : list ColumnStats.t;
    dataPreview : list record;
    completeness : number;
    consistency : number;
    accuracy : number;
    validity : number;
    overallScore : number;
    summary : string }.
End DataAnalysisResult.

Module DataAnalyzer.

Local Open Scope string_scope.

Section WithHost.

(** [Date.parse] belongs to the host: outside the ISO format its result is
    implementation-defined.  It yields a time value, or NaN. *)
Variable Date_parse : string -> number.

Definition boolean_tokens : list string :=
  ["true"; "false"; "yes"; "no"; "1"; "0"].

(** [tokens.includes(s)] on an array of strings. *)
Definition Array_includes (tokens : list string) (s : string) : bool :=
  existsb (String.eqb s) tokens.

Definition is_boolean_like (v : raw) : bool :=
  Array_includes boolean_tokens (toLowerCase (String_ v)).

Definition is_date_like (v : raw) : bool :=
  negb (isNaN (Date_parse (String_ v))).

Definition is_integer_like (v : raw) : bool :=
  isInteger (Number_ v).

Definition is_float_like (v : raw) : bool :=
  negb (isNaN (parseFloat (String_ v))).

(** [inferDataType], lines 233-267. *)
Definition inferDataType (values : list raw) : DataType :=
  let nonNullValues := filter non_missing values in
  if (List.length nonNullValues =? 0)%nat then Text
  else if forallb is_boolean_like nonNullValues then Boolean
  else if forallb is_date_like nonNullValues then Date
  else if forallb is_integer_like nonNullValues then Integer
  else if forallb is_float_like nonNullValues then Float
  else Text.

(** [Math.round((count / values.length) * 100)] *)
Definition percentage (count total : nat) : number :=
  Math_round (fmul (fdiv (of_nat count) (of_nat total)) (of_Z 100)).

(** The number of values the type-mismatch filter of [detectIssues] keeps. *)
Definition typeMismatches (values : list raw) : nat :=
  List.length
    (filter (fun v => non_missing v && isNaN (parseFloat (String_ v))) values).

(** [detectIssues], lines 278-309; the array [issues] is threaded through
    the three pushes. *)
Definition detectIssues (columnName : string) (values : list raw)
           (dataType : DataType) : list string :=
  let issues : list string := [] in
  let nullCount := List.length (filter is_missing values) in
  let issues :=
    if (0 <? nullCount)%nat
    then push issues (digits_of_nat nullCount ++ " missing values ("
                         ++ number_to_string (percentage nullCount (List.length values))
                         ++ "%)")
    else issues in
  let issues :=
    if DataType_eqb dataType Integer || DataType_eqb dataType Float then
      let typeMismatches := typeMismatches values in
      if (0 <? typeMismatches)%nat
      then push issues (digits_of_nat typeMismatches ++ " non-numeric values found")
      else issues
    else issues in
  let uniqueCount := List.length (Set_of (filter non_missing values)) in
  let duplicateCount :=
    fsub (fsub (of_nat (List.length values)) (of_nat nullCount)) (of_nat uniqueCount) in
  let issues :=
    if JSNumber.ltb (of_Z 0) duplicateCount
    then push issues (number_to_string duplicateCount ++ " duplicate values")
    else issues in
  issues.

(** [analyzeColumn], lines 199-224. *)
Definition analyzeColumn (columnName : string) (values : list raw) : ColumnStats.t :=
  let nullCount := List.length (filter is_missing values) in
  let nullPercentage := percentage nullCount (List.length values) in
  let uniqueValues := Set_of (filter non_missing values) in
  let uniqueCount := List.length uniqueValues in
  let uniquePercentage := percentage uniqueCount (List.length values) in
  let dataType := inferDataType values in
  let issues := detectIssues columnName values dataType in
  let sampleValues := slice0 5 uniqueValues in
  {| ColumnStats.name := columnName;
     ColumnStats.type := dataType;
     ColumnStats.totalRows := List.length values;
     ColumnStats.nullCount := nullCount;
     ColumnStats.nullPercentage := nullPercentage;
     ColumnStats.uniqueCount := uniqueCount;
     ColumnStats.uniquePercentage := uniquePercentage;
     ColumnStats.sampleValues := sampleValues;
     ColumnStats.issues := issues |}.

End WithHost.

(** [calculateCompleteness], lines 318-322. *)
Definition calculateCompleteness (stats : list ColumnStats.t) : number :=
  let totalNullPercentage :=
    fdiv (fold_left (fun sum col => fadd sum (ColumnStats.nullPercentage col))
                    stats (of_Z 0))
         (of_nat (List.length stats)) in
  Math_max (of_Z 0) (Math_round (fsub (of_Z 100) totalNullPercentage)).

(** [calculateConsistency], lines 331-341. *)
Definition calculateConsistency (stats : list ColumnStats.t) : number :=
  let score :=
    fold_left (fun score col =>
                 if DataType_eqb (ColumnStats.type col) Text
                 then fsub score (of_Z 5) else score)
              stats (of_Z 100) in
  Math_max (of_Z 0)
    (fsub score
       (fmul (of_nat (List.length
                        (filter (fun c => (0 <? List.length (ColumnStats.issues c))%nat)
                                stats)))
             (of_Z 5))).

(** [calculateAccuracy], lines 350-357. *)
Definition calculateAccuracy (stats : list ColumnStats.t) : number :=
  let score :=
    fold_left (fun score col =>
                 fsub score
                   (fmul (of_nat (List.length
                                    (filter (fun i => includes i "non-numeric")
                                            (ColumnStats.issues col))))
                         (of_Z 10)))
              stats (of_Z 100) in
  Math_max (of_Z 0) score.

(** [calculateValidity], lines 366-375. *)
Definition calculateValidity (stats : list ColumnStats.t) : number :=
  let score :=
    fold_left (fun score col =>
                 if DataType_eqb (ColumnStats.type col) Text
                    && JSNumber.ltb (ColumnStats.uniquePercentage col) (of_Z 80)
                 then fsub score (of_Z 10) else score)
              stats (of_Z 100) in
  Math_max (of_Z 0) score.

(** [generateSummary], lines 386-393. *)
Definition generateSummary (rows columns : nat) (stats : list ColumnStats.t) : string :=
  let issueCount :=
    fold_left (fun sum col => (sum + List.length (ColumnStats.issues col))%nat) stats 0%nat in
  "Dataset with " ++ digits_of_nat rows ++ " rows and " ++ digits_of_nat columns
  ++ " columns. Found " ++ digits_of_nat issueCount ++ " data quality issues.".

(** The message of the error thrown for an empty dataset. *)
Definition EmptyDataset : string := "No data found in file".

(** [analyzeData], lines 146-189. *)
Definition analyzeData (Date_parse : string -> number)
           (data : list record) (fileName : string)
  : outcome DataAnalysisResult.t :=
  match data with
  | [] => Throw EmptyDataset
  | first :: _ =>
      let columns := Object_keys first in
      let totalRows := List.length data in
      let totalColumns := List.length columns in
      let columnStats :=
        map (fun colName =>
               let values := map (fun row => get row colName) data in
               analyzeColumn Date_parse colName values)
            columns in
      let completeness := calculateCompleteness columnStats in
      let consistency := calculateConsistency columnStats in
      let accuracy := calculateAccuracy columnStats in
      let validity := calculateValidity columnStats in
      let overallScore :=
        Math_round
          (fdiv (fadd (fadd (fadd completeness consistency) accuracy) validity)
                (of_Z 4)) in
      let dataPreview := slice0 5 data in
      Return
        {| DataAnalysisResult.fileName := fileName;
           DataAnalysisResult.totalRows := totalRows;
           DataAnalysisResult.totalColumns := totalColumns;
           DataAnalysisResult.columns := columnStats;
           DataAnalysisResult.dataPreview := dataPreview;
           DataAnalysisResult.completeness := completeness;
           DataAnalysisResult.consistency := consistency;
           DataAnalysisResult.accuracy := accuracy;
           DataAnalysisResult.validity := validity;
           DataAnalysisResult.overallScore := overallScore;
           DataAnalysisResult.summary :=
             generateSummary totalRows totalColumns columnStats |}
  end.

End DataAnalyzer.

(** A host whose [Date.parse] accepts the date-only forms of the ECMAScript
    date-time string format (YYYY, YYYY-MM, YYYY-MM-DD) and nothing else. *)
Module IsoHost.

Local Open Scope Z_scope.

Definition days_from_civil (y m d : Z) : Z :=
  let y' := if m <=? 2 then y - 1 else y in
  let era := y' / 400 in
  let yoe := y' - era * 400 in
  let mp := (m + 9) mod 12 in
  let doy := (153 * mp + 2) / 5 + d - 1 in
  let doe := yoe * 365 + yoe / 4 - yoe / 100 + doy in
  era * 146097 + doe - 719468.

Definition field (l : list ascii) : Z := digits_value l.

Definition all_digits (l : list ascii) : bool := forallb is_digit l.

Definition Date_parse (s : string) : number :=
  let l := list_ascii_of_string s in
  let year := firstn 4 l in
  let ok_year := (List.length year =? 4)%nat && all_digits year in
  let time y m d :=
    if ok_year && (1 <=? m) && (m <=? 12) && (1 <=? d) && (d <=? 31)
    then of_Z (days_from_civil y m d * 86400000) else NaN in
  match skipn 4 l with
  | [] => time (field year) 1 1
  | ["-"%char; m1; m2] =>
      if all_digits [m1; m2] then time (field year) (field [m1; m2]) 1 else NaN
  | ["-"%char; m1; m2; "-"%char; d1; d2] =>
      if all_digits [m1; m2; d1; d2]
      then time (field year) (field [m1; m2]) (field [d1; d2]) else NaN
  | _ => NaN
  end.

End IsoHost.

(* ================================================================== *)
(** ** aiAnalyzer.ts *)
(* ================================================================== *)

Inductive Priority : Type := High | Medium | Low.

Module AIInsight.
Record t : Type := Build
  { priority : Priority;
    issue : string;
    suggestion : string;
    sqlFix : option string;
    userId : option raw;
    affectedColumns : option (list string) }.
End AIInsight.

(** The element type of the array [extractUserSpecificIssues] returns. *)
Module UserIssue.
Record t : Type := Build
  { userId : raw;
    insight : AIInsight.t }.
End UserIssue.

(** The part of a chat completion that [generateInsights] reads:
    [response.choices[0]?.message?.content]. *)
Module ChatCompletion.
Record Choice : Type := BuildChoice { message : option (option string) }.
Record t : Type := Build { choices : list Choice }.
End ChatCompletion.

Module AIAnalyzer.

Local Open Scope string_scope.

(** [col.name.toLowerCase() === "id" || col.name.toLowerCase().endsWith("_id")] *)
Definition is_id_column (col : ColumnStats.t) : bool :=
  String.eqb (toLowerCase (ColumnStats.name col)) "id"
  || endsWith (toLowerCase (ColumnStats.name col)) "_id".

(** [value === null || value === undefined || value === "" || value === "-"] *)
Definition is_missing_marker (value : raw) : bool :=
  match value with
  | VNull | VUndefined => true
  | VStr s => String.eqb s "" || String.eqb s "-"
  | _ => false
  end.

(** One step of the inner [Object.keys(row).forEach]: the arrays
    [affectedColumns] and [issues] are the loop state. *)
Definition scan_field (idName : string) (row : record)
           (st : list string * list string) (colName : string)
  : list string * list string :=
  let (affectedColumns, issues) := st in
  if String.eqb colName idName then st
  else
    let value := get row colName in
    if is_missing_marker value
    then (push affectedColumns colName, push issues ("Missing " ++ colName))
    else st.

(** One step of [analysis.dataPreview.forEach]: [userIssues] is the state. *)
Definition scan_row (idName : string) (userIssues : list UserIssue.t) (row : record)
  : list UserIssue.t :=
  let userId := get row idName in
  let '(affectedColumns, issues) :=
    fold_left (scan_field idName row) (Object_keys row) ([], []) in
  if (0 <? List.length issues)%nat then
    push userIssues
      {| UserIssue.userId := userId;
         UserIssue.insight :=
           {| AIInsight.priority :=
                if (1 <? List.length issues)%nat then High else Medium;
              AIInsight.issue :=
                "ID " ++ String_ userId ++ ": " ++ join ", " issues;
              AIInsight.suggestion :=
                "Add/update the missing fields (" ++ join ", " affectedColumns
                ++ ") for user ID " ++ String_ userId;
              AIInsight.sqlFix := None;
              AIInsight.userId := Some userId;
              AIInsight.affectedColumns := Some affectedColumns |} |}
  else userIssues.

(** [extractUserSpecificIssues], lines 135-185. *)
Definition extractUserSpecificIssues (analysis : DataAnalysisResult.t)
  : list UserIssue.t :=
  let userIssues : list UserIssue.t := [] in
  match find is_id_column (DataAnalysisResult.columns analysis) with
  | None => userIssues
  | Some idColumn =>
      if (List.length (DataAnalysisResult.dataPreview analysis) =? 0)%nat
      then userIssues
      else fold_left (scan_row (ColumnStats.name idColumn))
                     (DataAnalysisResult.dataPreview analysis) userIssues
  end.

(** [defaultInsights], lines 196-249. *)
Definition defaultInsights (analysis : DataAnalysisResult.t) : list AIInsight.t :=
  let insights : list AIInsight.t := [] in
  let insights :=
    if JSNumber.ltb (DataAnalysisResult.completeness analysis) (of_Z 95) then
      push insights
        {| AIInsight.priority := High;
           AIInsight.issue :=
             "Data completeness is "
             ++ number_to_string (DataAnalysisResult.completeness analysis)
             ++ "% with missing values detected";
           AIInsight.suggestion :=
             "Remove rows with missing values or impute using mean/median/mode depending on the column type";
           AIInsight.sqlFix := Some "-- Remove rows with NULL values
DELETE FROM table_name WHERE column_name IS NULL;

-- Or impute with a default value
UPDATE table_name SET column_name = 'Unknown' WHERE column_name IS NULL;";
           AIInsight.userId := None;
           AIInsight.affectedColumns := None |}
    else insights in
  let insights :=
    if JSNumber.ltb (DataAnalysisResult.consistency analysis) (of_Z 85) then
      push insights
        {| AIInsight.priority := Medium;
           AIInsight.issue :=
             "Data consistency issues detected - format variations found";
           AIInsight.suggestion :=
             "Standardize data formats across columns. Use TRIM, LOWER/UPPER functions";
           AIInsight.sqlFix := Some "-- Standardize text formatting
UPDATE table_name SET column_name = LOWER(TRIM(column_name));";
           AIInsight.userId := None;
           AIInsight.affectedColumns := None |}
    else insights in
  let insights :=
    if JSNumber.ltb (DataAnalysisResult.accuracy analysis) (of_Z 80) then
      push insights
        {| AIInsight.priority := High;
           AIInsight.issue :=
             "Accuracy score is low - potential outliers or data entry errors detected";
           AIInsight.suggestion :=
             "Review and correct data type mismatches and outliers";
           AIInsight.sqlFix := Some "-- Find potential outliers in numeric columns
SELECT column_name, COUNT(*) FROM table_name 
WHERE column_name > (SELECT AVG(column_name) + 2*STDDEV(column_name))
GROUP BY column_name;";
           AIInsight.userId := None;
           AIInsight.affectedColumns := None |}
    else insights in
  let insights :=
    if JSNumber.ltb (DataAnalysisResult.validity analysis) (of_Z 90) then
      push insights
        {| AIInsight.priority := Medium;
           AIInsight.issue :=
             "Some data values do not match expected types or formats";
           AIInsight.suggestion :=
             "Validate data against expected schemas and data types";
           AIInsight.sqlFix := Some "-- Check for invalid data types
SELECT * FROM table_name WHERE column_name NOT LIKE '%valid_pattern%';";
           AIInsight.userId := None;
           AIInsight.affectedColumns := None |}
    else insights in
  insights.

(** [responseText.match(/\[[\s\S]*\]/)]: from the first opening bracket to
    the last closing bracket after it. *)
Fixpoint from_first_open (l : list ascii) : option (list ascii) :=
  match l with
  | [] => None
  | c :: r => if Ascii.eqb c "[" then Some r else from_first_open r
  end.

Fixpoint upto_last_close (l : list ascii) : option (list ascii) :=
  match l with
  | [] => None
  | c :: r =>
      match upto_last_close r with
      | Some m => Some (c :: m)
      | None => if Ascii.eqb c "]" then Some [c] else None
      end
  end.

Definition match_json_array (responseText : string) : option string :=
  match from_first_open (list_ascii_of_string responseText) with
  | None => None
  | Some after =>
      match upto_last_close after with
      | Some m => Some (String "[" (string_of_list_ascii m))
      | None => None
      end
  end.

(** The text of the request, lines 65-96. *)
Definition columnSummary (analysis : DataAnalysisResult.t) : string :=
  join "
" (map (fun col =>
          let issuesText :=
            if (0 <? List.length (ColumnStats.issues col))%nat
            then join ", " (ColumnStats.issues col) else "No issues" in
          "- Column: " ++ ColumnStats.name col ++ " ("
          ++ DataType_name (ColumnStats.type col) ++ "): " ++ issuesText)
       (DataAnalysisResult.columns analysis)).

Definition prompt_of (analysis : DataAnalysisResult.t) (userIssues : list UserIssue.t)
  : string :=
  "You are a data quality expert. Analyze this dataset quality assessment and provide 3-5 actionable recommendations.

Dataset: " ++ DataAnalysisResult.fileName analysis ++ "
Rows: " ++ digits_of_nat (DataAnalysisResult.totalRows analysis) ++ "
Columns: " ++ digits_of_nat (DataAnalysisResult.totalColumns analysis) ++ "
Overall Quality Score: " ++ number_to_string (DataAnalysisResult.overallScore analysis) ++ "/100

Quality Metrics:
- Completeness: " ++ number_to_string (DataAnalysisResult.completeness analysis) ++ "%
- Consistency: " ++ number_to_string (DataAnalysisResult.consistency analysis) ++ "%
- Accuracy: " ++ number_to_string (DataAnalysisResult.accuracy analysis) ++ "%
- Validity: " ++ number_to_string (DataAnalysisResult.validity analysis) ++ "%

Column Details:
" ++ columnSummary analysis ++ "

User-Specific Issues Found:
" ++ join "," (map (fun _ => "[object Object]") userIssues) ++ "

Please provide recommendations in JSON format as an array of objects with: priority (High/Medium/Low), issue (string describing what needs to be fixed), suggestion (string), and optionally sqlFix (string for SQL cleanup commands).

Return ONLY valid JSON array, no other text.".

Section WithService.

(** The awaited call [openai.chat.completions.create] with the request text
    as its one varying input: it resolves to a completion or rejects. *)
Variable chat_completions_create : string -> outcome ChatCompletion.t.

(** [JSON.parse] of the matched text, read as [AIInsight[]]; it throws a
    SyntaxError on text that is not JSON. *)
Variable JSON_parse : string -> outcome (list AIInsight.t).

(** [response.choices[0]?.message?.content || ""] *)
Definition responseText_of (response : ChatCompletion.t) : string :=
  match ChatCompletion.choices response with
  | {| ChatCompletion.message := Some (Some content) |} :: _ => content
  | _ => ""
  end.

(** [generateInsights], lines 64-126. *)
Definition generateInsights (analysis : DataAnalysisResult.t)
  : outcome (list AIInsight.t) :=
  let userIssues := extractUserSpecificIssues analysis in
  let prompt := prompt_of analysis userIssues in
  try_catch
    (bind (chat_completions_create prompt) (fun response =>
       let responseText := responseText_of response in
       match match_json_array responseText with
       | Some jsonMatch =>
           bind (JSON_parse jsonMatch) (fun insights =>
             Return (map UserIssue.insight userIssues ++ insights)%list)
       | None =>
           Return (map UserIssue.insight userIssues ++ defaultInsights analysis)%list
       end))
    (fun error =>
       Return (map UserIssue.insight userIssues ++ defaultInsights analysis)%list).

End WithService.

End AIAnalyzer.

(* ================================================================== *)
(** ** The entry points and their callers *)
(* ================================================================== *)

(** [analyzeJSON] of dataAnalyzer.ts. *)
Module DataAnalyzerJSON.

Local Open Scope string_scope.

(** What [JSON.parse] yields on the documents [analyzeData] is typed for:
    an array of flat objects, or one flat object. *)
Inductive document : Type :=
| Rows (data : list record)
| Single (data : record).

Section WithHost.

Variable Date_parse : string -> number.

(** [JSON.parse]: the decoded document, or a SyntaxError. *)
Variable JSON_parse : string -> outcome document.

(** [Array.isArray(data) ? data : [data]] *)
Definition dataArray_of (data : document) : list record :=
  match data with
  | Rows rows => rows
  | Single row => [row]
  end.

(** [analyzeJSON], lines 112-120. *)
Definition analyzeJSON (jsonContent fileName : string)
  : outcome DataAnalysisResult.t :=
  try_catch
    (bind (JSON_parse jsonContent) (fun data =>
       let dataArray := dataArray_of data in
       DataAnalyzer.analyzeData Date_parse dataArray fileName))
    (fun message => Throw ("JSON parsing error: " ++ message)).

End WithHost.

End DataAnalyzerJSON.

(** The upload form (src/app/page.tsx) and the analysis page that receives
    the uploaded file. *)
Module Pages.

Local Open Scope string_scope.

Definition ALLOWED_TYPES : list string := [".csv"; ".json"].

Definition MAX_FILE_SIZE : Z := (50 * 1024 * 1024)%Z.

(** [ALLOWED_TYPES.some((ext) => fileName.endsWith(ext))] with
    [fileName = file.name.toLowerCase()]. *)
Definition hasValidExtension (name : string) : bool :=
  let fileName := toLowerCase name in
  existsb (fun ext => endsWith fileName ext) ALLOWED_TYPES.

(** What [handleFile] ends in: an error message on the form, or the
    redirection to the analysis page with the content and the name. *)
Inductive upload : Type :=
| Rejected (error : string)
| Redirected (fileContent name : string).

Section Upload.

(** Whether [JSON.parse] accepts the text. *)
Variable JSON_valid : string -> bool.

(** [handleFile], lines 15-59 of page.tsx, on a file with the given name,
    size and text. *)
Definition handleFile (name : string) (size : Z) (fileContent : string) : upload :=
  let fileName := toLowerCase name in
  if negb (hasValidExtension name) then Rejected "Only CSV and JSON files are supported"
  else if (MAX_FILE_SIZE <? size)%Z then Rejected "File size exceeds 50MB limit"
  else if endsWith fileName ".json" && negb (JSON_valid fileContent)
       then Rejected "Invalid JSON file format"
       else Redirected fileContent name.

End Upload.

(** [s.split(sep)] for a one-character separator. *)
Fixpoint split (sep : ascii) (s : string) : list string :=
  match s with
  | EmptyString => [EmptyString]
  | String c r =>
      if Ascii.eqb c sep then EmptyString :: split sep r
      else match split sep r with
           | seg :: segs => String c seg :: segs
           | [] => [String c EmptyString]
           end
  end.

(** [arr.pop()]: the last element, undefined on the empty array. *)
Fixpoint pop (arr : list string) : option string :=
  match arr with
  | [] => None
  | [x] => Some x
  | _ :: rest => pop rest
  end.

(** [fileName.split(".").pop()?.toLowerCase()] *)
Definition extension_of (fileName : string) : option string :=
  option_map toLowerCase (pop (split "." fileName)).

Section Analysis.

(** The two analyzers the page calls. *)
Variable analyzeCSV : string -> string -> outcome DataAnalysisResult.t.
Variable analyzeJSON : string -> string -> outcome DataAnalysisResult.t.

(** The choice of the analyzer in [analyzeFile]. *)
Definition analyzeFile (decodedData fileName : string)
  : outcome DataAnalysisResult.t :=
  let extension := extension_of fileName in
  match extension with
  | Some ext =>
      if String.eqb ext "csv" then analyzeCSV decodedData fileName
      else if String.eqb ext "json" then analyzeJSON decodedData fileName
      else Throw "Unsupported file format"
  | None => Throw "Unsupported file format"
  end.

End Analysis.

(** [arr.sort(compareFn)].  The sort of an array is stable, which fixes
    its result for a comparator that orders by a key: it is the result of
    any stable sort, here of insertion from the right. *)
Fixpoint sort_insert {A : Type} (compareFn : A -> A -> Z) (x : A) (sorted : list A)
  : list A :=
  match sorted with
  | [] => [x]
  | y :: rest =>
      if (compareFn x y <=? 0)%Z then x :: sorted
      else y :: sort_insert compareFn x rest
  end.

Definition Array_sort {A : Type} (compareFn : A -> A -> Z) (arr : list A) : list A :=
  fold_right (sort_insert compareFn) [] arr.

(** The comparator of the recommendation lists:
    [priorityOrder[a.priority] - priorityOrder[b.priority]]. *)
Definition priorityOrder (p : Priority) : Z :=
  match p with High => 0 | Medium => 1 | Low => 2 end%Z.

Definition byPriority (a b : AIInsight.t) : Z :=
  (priorityOrder (AIInsight.priority a) - priorityOrder (AIInsight.priority b))%Z.

(** The insights as the analysis page lists them: [[...insights].sort(...)]. *)
Definition listedInsights (insights : list AIInsight.t) : list AIInsight.t :=
  Array_sort byPriority insights.

(** The recommendations of the dashboard:
    [[...insights].slice(0, 5).sort(...)]. *)
Definition dashboardRecommendations (insights : list AIInsight.t) : list AIInsight.t :=
  Array_sort byPriority (slice0 5 insights).

(** [analysis.columns.sort((a, b) => b.nullCount - a.nullCount).slice(0, 10)] *)
Definition top10Columns (columns : list ColumnStats.t) : list ColumnStats.t :=
  slice0 10
    (Array_sort (fun a b => (Z.of_nat (ColumnStats.nullCount b)
                             - Z.of_nat (ColumnStats.nullCount a))%Z)
                columns).

(** [acc[key] = (acc[key] || 0) + 1] on an object kept as the list of its
    properties in the order of their creation. *)
Fixpoint bump (key : string) (acc : list (string * nat)) : list (string * nat) :=
  match acc with
  | [] => [(key, 1%nat)]
  | (k, n) :: rest =>
      if String.eqb k key then (k, S n) :: rest
      else (k, n) :: bump key rest
  end.

(** The [typeCounts] of the dashboard: a [reduce] over the columns. *)
Definition typeCounts (columns : list ColumnStats.t) : list (string * nat) :=
  fold_left (fun acc col => bump (DataType_name (ColumnStats.type col)) acc) columns [].

End Pages.

(* ================================================================== *)
(** ** Vocabulary of the properties *)
(* ================================================================== *)

Section Vocabulary.
Local Open Scope string_scope.

(** [q] is an integer multiple of 2^j. *)
Definition dyadic (q : Q) (j : Z) : Prop :=
  exists m : Z, (q == inject_Z m * pow2 j)%Q.

(** Array lengths are below 2^32. *)
Definition array_length_ok {A : Type} (l : list A) : Prop :=
  (Z.of_nat (List.length l) < 2 ^ 32)%Z.

Definition count {A : Type} (f : A -> bool) (l : list A) : Z :=
  Z.of_nat (List.length (filter f l)).

(** The tests of the three penalty loops. *)
Definition is_text (c : ColumnStats.t) : bool :=
  DataType_eqb (ColumnStats.type c) Text.

Definition has_issues (c : ColumnStats.t) : bool :=
  (0 <? List.length (ColumnStats.issues c))%nat.

Definition low_unique_text (c : ColumnStats.t) : bool :=
  DataType_eqb (ColumnStats.type c) Text
  && JSNumber.ltb (ColumnStats.uniquePercentage c) (of_Z 80).

(** How many issue strings of a column mention a type mismatch. *)
Definition non_numeric_issues (c : ColumnStats.t) : Z :=
  count (fun i => includes i "non-numeric") (ColumnStats.issues c).

Fixpoint total_non_numeric (stats : list ColumnStats.t) : Z :=
  match stats with
  | [] => 0%Z
  | c :: rest => (non_numeric_issues c + total_non_numeric rest)%Z
  end.

Definition few_issues (c : ColumnStats.t) : Prop :=
  (List.length (ColumnStats.issues c) <= 3)%nat.

(** Round half up of the fraction a/b, on integers. *)
Definition round_half_up_div (a b : Z) : Z := ((2 * a + b) / (2 * b))%Z.

(** [a/b] lies exactly halfway between two integers. *)
Definition is_tie (a b : Z) : Prop := ((2 * a + b) mod (2 * b) = 0)%Z.

(** The integer a Number holds (0 for a non-finite one). *)
Definition to_Z (x : number) : Z :=
  match x with Fin q => Qfloor q | _ => 0%Z end.

(** A Number that is an integer between 0 and 100. *)
Definition is_score (x : number) : Prop :=
  exists z, x = of_Z z /\ (0 <= z <= 100)%Z.

Fixpoint sum_rates (stats : list ColumnStats.t) : Z :=
  match stats with
  | [] => 0%Z
  | c :: rest => (to_Z (ColumnStats.nullPercentage c) + sum_rates rest)%Z
  end.

Definition rate_ok (c : ColumnStats.t) : Prop := is_score (ColumnStats.nullPercentage c).

(** No two elements are the same value. *)
Fixpoint pairwise_distinct (l : list raw) : Prop :=
  match l with
  | [] => True
  | x :: r => existsb (same_value_zero x) r = false /\ pairwise_distinct r
  end.

Definition chars (s : string) : list ascii := list_ascii_of_string s.

Definition digit_string (s : string) : Prop :=
  s <> "" /\ forallb is_digit (chars s) = true.

Definition has_hyphen (s : string) : bool := existsb (Ascii.eqb "-") (chars s).

Definition digit_first (l : list ascii) : bool :=
  match l with c :: _ => is_digit c | [] => false end.

(** The text starts a StrUnsignedDecimalLiteral other than Infinity. *)
Definition numeric_start (l : list ascii) : bool :=
  match l with
  | c :: r => is_digit c || (Ascii.eqb c "." && digit_first r)
  | [] => false
  end.

(** The text of [parseFloat]'s argument after the white space and sign. *)
Definition float_body (s : string) : list ascii :=
  snd (split_sign (trim_start (chars s))).

(** A boolean, or a string of white space only. *)
Definition boolean_or_blank (v : raw) : bool :=
  match v with
  | VBool _ => true
  | VStr s => forallb is_space (chars s)
  | _ => false
  end.

Definition is_numeric_type (t : DataType) : bool :=
  DataType_eqb t Integer || DataType_eqb t Float.

Definition missing_issue (values : list raw) : string :=
  digits_of_nat (List.length (filter is_missing values)) ++ " missing values ("
  ++ number_to_string (DataAnalyzer.percentage (List.length (filter is_missing values))
                                               (List.length values))
  ++ "%)".

Definition mismatch_issue (values : list raw) : string :=
  digits_of_nat (DataAnalyzer.typeMismatches values) ++ " non-numeric values found".

Definition duplicateCount (values : list raw) : number :=
  fsub (fsub (of_nat (List.length values))
             (of_nat (List.length (filter is_missing values))))
       (of_nat (List.length (Set_of (filter non_missing values)))).

Definition duplicate_issue (values : list raw) : string :=
  number_to_string (duplicateCount values) ++ " duplicate values".

(** The column has a type-mismatch issue. *)
Definition has_mismatch (Date_parse : string -> number) (values : list raw) : bool :=
  is_numeric_type (DataAnalyzer.inferDataType Date_parse values)
  && (0 <? DataAnalyzer.typeMismatches values)%nat.

Definition column_values (data : list record) (colName : string) : list raw :=
  map (fun row => get row colName) data.

Definition dataset_columns (Date_parse : string -> number) (data : list record)
  : list ColumnStats.t :=
  match data with
  | [] => []
  | first :: _ =>
      map (fun colName => DataAnalyzer.analyzeColumn Date_parse colName
                            (column_values data colName))
          (Object_keys first)
  end.

(** The fields of a record, other than the id column, that hold a missing
    marker. *)
Definition missing_fields (idName : string) (row : record) : list string :=
  filter (fun colName => negb (String.eqb colName idName)
                         && AIAnalyzer.is_missing_marker (get row colName))
         (Object_keys row).

(** The recommendation for a record with the missing fields [missing]. *)
Definition recommendation_for (idName : string) (row : record) (missing : list string)
  : UserIssue.t :=
  {| UserIssue.userId := get row idName;
     UserIssue.insight :=
       {| AIInsight.priority := if (2 <=? List.length missing)%nat then High else Medium;
          AIInsight.issue :=
            "ID " ++ String_ (get row idName) ++ ": "
            ++ join ", " (map (fun colName => "Missing " ++ colName) missing);
          AIInsight.suggestion :=
            "Add/update the missing fields (" ++ join ", " missing
            ++ ") for user ID " ++ String_ (get row idName);
          AIInsight.sqlFix := None;
          AIInsight.userId := Some (get row idName);
          AIInsight.affectedColumns := Some missing |} |}.

(** One recommendation for a record with a missing field, none otherwise. *)
Definition per_record (idName : string) (row : record) : list UserIssue.t :=
  match missing_fields idName row with
  | [] => []
  | missing => [recommendation_for idName row missing]
  end.

(** Scenario C of the specification. *)
Definition scenario_C_row : record :=
  [("id", VNum (of_Z 4)); ("name", VStr "Alice"); ("email", VStr ""); ("age", VNum (of_Z 45))].

(** A preview with the record of scenario C and an id column. *)
Definition scenario_C_analysis : DataAnalysisResult.t :=
  match DataAnalyzer.analyzeData IsoHost.Date_parse [scenario_C_row] "users.json" with
  | Return r => r
  | Throw _ =>
      DataAnalysisResult.Build "" 0 0 [] [] NaN NaN NaN NaN NaN ""
  end.

Definition priority_order : list DataType := [Boolean; Date; Integer; Float; Text].

(** The predicate of each candidate type. *)
Definition holds_for (Date_parse : string -> number) (t : DataType) (v : raw) : bool :=
  match t with
  | Boolean => DataAnalyzer.is_boolean_like v
  | Date => DataAnalyzer.is_date_like Date_parse v
  | Integer => DataAnalyzer.is_integer_like v
  | Float => DataAnalyzer.is_float_like v
  | Text => true
  end.

(** The algorithm in the specification's words: drop the missing values;
    [text] if none remain; otherwise the first type, in priority order,
    whose predicate holds for every remaining value. *)
Definition infer_spec (Date_parse : string -> number) (values : list raw) : DataType :=
  let remaining := filter non_missing values in
  match remaining with
  | [] => Text
  | _ :: _ =>
      match find (fun t => forallb (holds_for Date_parse t) remaining) priority_order with
      | Some t => t
      | None => Text
      end
  end.

(** A column holding only the numbers 0 and 1. *)
Definition zero_one_column : list raw :=
  [VNum (of_Z 0); VNum (of_Z 1); VNum (of_Z 1); VNum (of_Z 0)].

(** The call rejects, or the text of its response holds no bracketed span,
    or [JSON.parse] throws on that span. *)
Definition service_failed
           (chat_completions_create : string -> outcome ChatCompletion.t)
           (JSON_parse : string -> outcome (list AIInsight.t))
           (analysis : DataAnalysisResult.t) : Prop :=
  match chat_completions_create
          (AIAnalyzer.prompt_of analysis (AIAnalyzer.extractUserSpecificIssues analysis)) with
  | Throw _ => True
  | Return response =>
      match AIAnalyzer.match_json_array (AIAnalyzer.responseText_of response) with
      | None => True
      | Some jsonMatch => throws (JSON_parse jsonMatch)
      end
  end.

(** A service that is down, and one that answers in prose. *)
Definition service_down : string -> outcome ChatCompletion.t :=
  fun _ => Throw "connect ETIMEDOUT".

Definition service_prose : string -> outcome ChatCompletion.t :=
  fun _ => Return (ChatCompletion.Build
                     [ChatCompletion.BuildChoice (Some (Some "I cannot help with that."))]).

Definition JSON_parse_strict : string -> outcome (list AIInsight.t) :=
  fun _ => Throw "Unexpected token".

(** Completeness as the specification words it: the mean of the column
    rates is rounded first and the result subtracted from 100, clamped
    below at 0. *)
Definition completeness_round_first (stats : list ColumnStats.t) : number :=
  let mean :=
    fdiv (fold_left (fun sum col => fadd sum (ColumnStats.nullPercentage col))
                    stats (of_Z 0))
         (of_nat (List.length stats)) in
  Math_max (of_Z 0) (fsub (of_Z 100) (Math_round mean)).

(** Four rows, two columns; three of the four values of [a] are empty. *)
Definition three_of_four_missing : list record :=
  [ [("a", VStr "x"); ("b", VStr "p")];
    [("a", VStr "");  ("b", VStr "q")];
    [("a", VStr "");  ("b", VStr "r")];
    [("a", VStr "");  ("b", VStr "s")] ].

(** [u] is the number of distinct values of [values]: the size of any
    duplicate-free list of representatives. *)
Definition counts_distinct (u : nat) (values : list raw) : Prop :=
  exists reps,
    List.length reps = u
    /\ pairwise_distinct reps
    /\ (forall r, In r reps -> In r values)
    /\ (forall v, In v values -> existsb (same_value_zero v) reps = true).

(** The rate [x] is the percentage [100 * k / n] rounded half up, except
    that exactly halfway between two integers it may be the lower one. *)
Definition rate_matches (x : number) (k n : Z) : Prop :=
  (~ is_tie (100 * k)%Z n -> x = of_Z (round_half_up_div (100 * k)%Z n))
  /\ (is_tie (100 * k)%Z n ->
      x = of_Z (round_half_up_div (100 * k)%Z n)
      \/ x = of_Z (round_half_up_div (100 * k) n - 1)%Z).

(** Forty values, twenty-three of them null. *)
Definition twenty_three_of_forty : list raw :=
  (repeat VNull 23 ++ repeat (VStr "a") 17)%list.

(** A column with the boolean true and the number 5. *)
Definition true_and_five : list record :=
  [ [("a", VBool true)]; [("a", VNum (of_Z 5))] ].

(** The number of columns of the dataset with a type-mismatch issue. *)
Definition mismatch_columns (Date_parse : string -> number) (data : list record) : Z :=
  match data with
  | [] => 0%Z
  | first :: _ =>
      count (fun name => has_mismatch Date_parse (column_values data name))
            (Object_keys first)
  end.

(** The counts a column keeps, against the number of rows [n]. *)
Definition counts_consistent (n : nat) (c : ColumnStats.t) : Prop :=
  ColumnStats.totalRows c = n
  /\ (ColumnStats.nullCount c + ColumnStats.uniqueCount c <= n)%nat
  /\ (ColumnStats.uniqueCount c = 0%nat <-> ColumnStats.nullCount c = n)
  /\ List.length (ColumnStats.sampleValues c) = Nat.min 5 (ColumnStats.uniqueCount c).

(** Two records hold the same value under every key of [keys]. *)
Definition agree_on (keys : list string) (a b : record) : Prop :=
  forall k, In k keys -> get a k = get b k.

(** Two columns with the same statistics, whatever their samples. *)
Definition same_profile (c c' : ColumnStats.t) : Prop :=
  ColumnStats.name c = ColumnStats.name c'
  /\ ColumnStats.type c = ColumnStats.type c'
  /\ ColumnStats.totalRows c = ColumnStats.totalRows c'
  /\ ColumnStats.nullCount c = ColumnStats.nullCount c'
  /\ ColumnStats.nullPercentage c = ColumnStats.nullPercentage c'
  /\ ColumnStats.uniqueCount c = ColumnStats.uniqueCount c'
  /\ ColumnStats.uniquePercentage c = ColumnStats.uniquePercentage c'
  /\ ColumnStats.issues c = ColumnStats.issues c'.

(** Two results with the same counts, scores and summary. *)
Definition same_scores (r r' : DataAnalysisResult.t) : Prop :=
  DataAnalysisResult.totalRows r = DataAnalysisResult.totalRows r'
  /\ DataAnalysisResult.totalColumns r = DataAnalysisResult.totalColumns r'
  /\ DataAnalysisResult.completeness r = DataAnalysisResult.completeness r'
  /\ DataAnalysisResult.consistency r = DataAnalysisResult.consistency r'
  /\ DataAnalysisResult.accuracy r = DataAnalysisResult.accuracy r'
  /\ DataAnalysisResult.validity r = DataAnalysisResult.validity r'
  /\ DataAnalysisResult.overallScore r = DataAnalysisResult.overallScore r'
  /\ DataAnalysisResult.summary r = DataAnalysisResult.summary r'.

(** The place of a type in the order in which [inferDataType] tries them. *)
Definition rank (t : DataType) : nat :=
  match t with
  | Boolean => 0 | Date => 1 | Integer => 2 | Float => 3 | Text => 4
  end.

(** The number of issue entries of all the columns. *)
Definition total_issues (stats : list ColumnStats.t) : nat :=
  list_sum (map (fun c => List.length (ColumnStats.issues c)) stats).

(** The character occurs in the text. *)
Definition has_char (c : ascii) (s : string) : bool :=
  existsb (Ascii.eqb c) (chars s).

(** What follows the per-record insights in the result of
    [generateInsights]: the parsed answer of the service, or the default
    insights when the call, the search for a bracketed span or the parsing
    fails. *)
Definition answer_or_default
           (chat_completions_create : string -> outcome ChatCompletion.t)
           (JSON_parse : string -> outcome (list AIInsight.t))
           (analysis : DataAnalysisResult.t) : list AIInsight.t :=
  match chat_completions_create
          (AIAnalyzer.prompt_of analysis (AIAnalyzer.extractUserSpecificIssues analysis)) with
  | Throw _ => AIAnalyzer.defaultInsights analysis
  | Return response =>
      match AIAnalyzer.match_json_array (AIAnalyzer.responseText_of response) with
      | None => AIAnalyzer.defaultInsights analysis
      | Some jsonMatch =>
          match JSON_parse jsonMatch with
          | Return insights => insights
          | Throw _ => AIAnalyzer.defaultInsights analysis
          end
      end
  end.

(** A per-record insight: High or Medium, the id attached, the missing
    fields listed, no SQL. *)
Definition per_record_shape (u : UserIssue.t) : Prop :=
  AIInsight.userId (UserIssue.insight u) = Some (UserIssue.userId u)
  /\ AIInsight.sqlFix (UserIssue.insight u) = None
  /\ exists missing,
       AIInsight.affectedColumns (UserIssue.insight u) = Some missing
       /\ missing <> []
       /\ AIInsight.priority (UserIssue.insight u)
          = (if (2 <=? List.length missing)%nat then High else Medium).

(** A default insight: High or Medium, with SQL, about no record. *)
Definition default_shape (i : AIInsight.t) : Prop :=
  AIInsight.priority i <> Low
  /\ AIInsight.sqlFix i <> None
  /\ AIInsight.userId i = None
  /\ AIInsight.affectedColumns i = None.

(** A service that answers with a JSON array wrapped in prose. *)
Definition service_wrapped : string -> outcome ChatCompletion.t :=
  fun _ => Return (ChatCompletion.Build
                     [ChatCompletion.BuildChoice
                        (Some (Some "Here you go: [{}] Hope it helps."))]).

(** A parser that reads the text [[{}]] as one Low insight and rejects
    every other text. *)
Definition JSON_parse_one : string -> outcome (list AIInsight.t) :=
  fun text =>
    if String.eqb text "[{}]"
    then Return [AIInsight.Build Low "" "" None None None]
    else Throw "Unexpected token".

(** A [JSON.parse] that reads the text [text] as the document [doc] and
    rejects every other text. *)
Definition JSON_reads (text : string) (doc : DataAnalyzerJSON.document)
  : string -> outcome DataAnalyzerJSON.document :=
  fun s => if String.eqb s text then Return doc else Throw "Unexpected token".

(** The statistics of a column with a single value: missing, or present. *)
Definition single_value_column (c : ColumnStats.t) : Prop :=
  ColumnStats.totalRows c = 1%nat
  /\ ((ColumnStats.nullCount c = 1%nat
       /\ ColumnStats.nullPercentage c = of_Z 100
       /\ ColumnStats.uniqueCount c = 0%nat
       /\ ColumnStats.uniquePercentage c = of_Z 0
       /\ ColumnStats.type c = Text)
      \/ (ColumnStats.nullCount c = 0%nat
          /\ ColumnStats.nullPercentage c = of_Z 0
          /\ ColumnStats.uniqueCount c = 1%nat
          /\ ColumnStats.uniquePercentage c = of_Z 100)).

(** Every cell of the dataset under the keys of its first record passes
    the test [p]. *)
Definition every_cell (p : raw -> bool) (data : list record) : Prop :=
  match data with
  | [] => True
  | first :: _ =>
      forall row k, In row data -> In k (Object_keys first) -> p (get row k) = true
  end.

(** The statistics of a column without a missing value, and of a column
    with nothing but missing values. *)
Definition complete_column (c : ColumnStats.t) : Prop :=
  ColumnStats.nullCount c = 0%nat /\ ColumnStats.nullPercentage c = of_Z 0.

Definition blank_column (c : ColumnStats.t) : Prop :=
  ColumnStats.type c = Text
  /\ ColumnStats.nullCount c = ColumnStats.totalRows c
  /\ ColumnStats.nullPercentage c = of_Z 100
  /\ ColumnStats.uniqueCount c = 0%nat
  /\ ColumnStats.uniquePercentage c = of_Z 0
  /\ ColumnStats.sampleValues c = []
  /\ ColumnStats.issues c
     = [digits_of_nat (ColumnStats.totalRows c) ++ " missing values (100%)"].

(** An analysis has a per-record insight for the record [row] that lists
    the field [k]. *)
Definition flags_field (analysis : DataAnalysisResult.t) (idName : string)
           (row : record) (k : string) : Prop :=
  exists u missing,
    In u (AIAnalyzer.extractUserSpecificIssues analysis)
    /\ UserIssue.userId u = get row idName
    /\ AIInsight.affectedColumns (UserIssue.insight u) = Some missing
    /\ In k missing.

(** The insights of one priority, in their order. *)
Definition of_priority (p : Priority) (insights : list AIInsight.t) : list AIInsight.t :=
  filter (fun i => match AIInsight.priority i, p with
                   | High, High | Medium, Medium | Low, Low => true
                   | _, _ => false
                   end) insights.

(** [obj[key]] on an object of counts: 0 stands for an absent property. *)
Fixpoint count_of (key : string) (obj : list (string * nat)) : nat :=
  match obj with
  | [] => 0%nat
  | (k, n) :: rest => if String.eqb k key then n else count_of key rest
  end.

(** An upload form whose [JSON.parse] accepts every text. *)
Definition JSON_accepts_all : string -> bool := fun _ => true.

(** Five records with an id and an empty name. *)
Definition five_unnamed : list record :=
  map (fun n => [("id", VNum (of_Z n)); ("name", VStr "")]) [1; 2; 3; 4; 5]%Z.

Definition five_unnamed_analysis : DataAnalysisResult.t :=
  match DataAnalyzer.analyzeData IsoHost.Date_parse five_unnamed "users.json" with
  | Return r => r
  | Throw _ =>
      DataAnalysisResult.Build "" 0 0 [] [] NaN NaN NaN NaN NaN ""
  end.

(** The names of the five column types. *)
Definition type_names : list string :=
  map DataType_name [Text; Integer; Float; Boolean; Date].

End Vocabulary.

(* ================================================================== *)
(** ** Cross-checks of the number model *)
(* ================================================================== *)

(** The model's quotient-then-product agrees with SpecFloat for every count
    [k <= n] up to 48 values. *)
Example percent_grid :
  forallb (fun n => forallb (fun k => SpecFloatCheck.percent_agrees k n) (seq 0 (S n)))
          (seq 1 48) = true.
Proof. vm_compute. reflexivity. Qed.

(** So does [100 - s / n] for every sum of rates of up to 6 columns. *)
Example complement_grid :
  forallb (fun n => forallb (fun s => SpecFloatCheck.complement_agrees s n)
                            (seq 0 (S (100 * n))))
          (seq 1 6) = true.
Proof. vm_compute. reflexivity. Qed.

(** And the sum and the division by 4 of the overall score. *)
Example mean_grid :
  forallb (fun a => forallb (SpecFloatCheck.mean_agrees a) (seq 0 101)) (seq 0 101) = true.
Proof. vm_compute. reflexivity. Qed.

(** The text of a Number, on values with known JavaScript output. *)
Example number_to_string_samples :
  map number_to_string
      [RN (48 # 10); fadd (RN (1 # 10)) (RN (2 # 10)); RN (10 ^ 21); RN (1 # 10000000);
       RN (1 # 1000000); Fin (2 ^ 60); RN (- (123456 # 1000)); of_Z 100; of_Z 0;
       RN (1 # 3); NaN; Infty true]
  = ["4.8"; "0.30000000000000004"; "1e+21"; "1e-7";
     "0.000001"; "1152921504606847000"; "-123.456"; "100"; "0";
     "0.3333333333333333"; "NaN"; "-Infinity"]%string.
Proof. vm_compute. reflexivity. Qed.

(** [Number(s)] and [parseFloat(s)] part ways on blank text, hexadecimal
    literals and trailing garbage. *)
Example string_conversions :
  map (fun s => (Number_ (VStr s), parseFloat s))
      [" "; "0x1F"; "12abc"; "1.5e1"; ".5"; "-Infinity"; "abc"]%string
  = [(of_Z 0, NaN); (of_Z 31, of_Z 0); (NaN, of_Z 12); (of_Z 15, of_Z 15);
     (Fin (1 # 2), Fin (1 # 2)); (Infty true, Infty true); (NaN, NaN)].
Proof. vm_compute. reflexivity. Qed.


(* ------------------------------------------------------------------ *)
(** *** Powers of two *)

Section PowersOfTwo.
Local Open Scope Q_scope.

Lemma pow2_pos z : 0 < pow2 z.
Proof. unfold pow2. apply Qpower_0_lt. reflexivity. Qed.

Lemma pow2_add a b : pow2 (a + b) == pow2 a * pow2 b.
Proof. unfold pow2. apply Qpower_plus. discriminate. Qed.

Lemma pow2_le a b : (a <= b)%Z -> pow2 a <= pow2 b.
Proof. intros. unfold pow2. apply Qpower_le_compat_l; [assumption | discriminate]. Qed.

Lemma pow2_lt a b : (a < b)%Z -> pow2 a < pow2 b.
Proof. intros. unfold pow2. apply Qpower_lt_compat_l; [assumption | reflexivity]. Qed.

Lemma pow2_lt_inv a b : pow2 a < pow2 b -> (a < b)%Z.
Proof. intros. unfold pow2 in *. eapply Qpower_lt_compat_l_inv; [eassumption | reflexivity]. Qed.

Lemma pow2_nonneg_Z z : (0 <= z)%Z -> pow2 z == inject_Z (2 ^ z).
Proof. intros. unfold pow2. rewrite Zpower_Qpower by assumption. reflexivity. Qed.

Lemma pow2_sub a b : pow2 (a - b) == pow2 a / pow2 b.
Proof.
  pose proof (pow2_add (a - b) b) as H. replace (a - b + b)%Z with a in H by ring.
  pose proof (pow2_pos b). rewrite H. field. lra.
Qed.

End PowersOfTwo.

(* ------------------------------------------------------------------ *)
(** *** Binades and nearest integers *)

Section Binades.
Local Open Scope Q_scope.

Lemma Q_as_fraction q : q * inject_Z (Zpos (Qden q)) == inject_Z (Qnum q).
Proof.
  destruct q as [p d]. unfold Qeq, Qmult, inject_Z. simpl. 
  rewrite Pos.mul_1_r. ring.
Qed.

Lemma log2_bounds_Q (n : Z) :
  (0 < n)%Z -> pow2 (Z.log2 n) <= inject_Z n /\ inject_Z n < 2 * pow2 (Z.log2 n).
Proof.
  intros Hn. pose proof (Z.log2_spec n Hn) as [H1 H2].
  pose proof (Z.log2_nonneg n) as H0.
  rewrite pow2_nonneg_Z by assumption. split.
  - rewrite <- Zle_Qle. assumption.
  - replace 2 with (inject_Z 2) by reflexivity. rewrite <- inject_Z_mult, <- Zlt_Qlt.
    rewrite Z.pow_succ_r in H2 by assumption. assumption.
Qed.

Lemma pow2_succ z : pow2 (z + 1) == 2 * pow2 z.
Proof. rewrite pow2_add. unfold pow2 at 2. simpl. ring. Qed.

Lemma ilog2_spec q : 0 < q -> pow2 (ilog2 q) <= q /\ q < pow2 (ilog2 q + 1).
Proof.
  intros Hq.
  assert (Hp : (0 < Qnum q)%Z) by (destruct q; unfold Qlt in Hq; simpl in *; lia).
  pose proof (Q_as_fraction q) as Hf.
  pose proof (log2_bounds_Q _ Hp) as [Ha1 Ha2].
  pose proof (log2_bounds_Q _ (Pos2Z.is_pos (Qden q))) as [Hb1 Hb2].
  unfold ilog2.
  set (a := Z.log2 (Qnum q)) in *. set (b := Z.log2 (Zpos (Qden q))) in *.
  set (P := inject_Z (Qnum q)) in *. set (D := inject_Z (Zpos (Qden q))) in *.
  pose proof (pow2_sub a b) as He. pose proof (pow2_pos a) as HA. pose proof (pow2_pos b) as HB.
  assert (HE : pow2 (a - b) * pow2 b == pow2 a) by (rewrite He; field; lra).
  pose proof (pow2_pos (a - b)) as HE0.
  destruct (Qle_bool (pow2 (a - b)) q) eqn:T.
  - apply Qle_bool_iff in T. split; [exact T|].
    rewrite pow2_succ.
    set (E := pow2 (a - b)) in *. set (A := pow2 a) in *. set (B := pow2 b) in *.
    nra.
  - assert (T' : q < pow2 (a - b)).
    { apply Qnot_le_lt. intro C. apply Qle_bool_iff in C. congruence. }
    replace (a - b - 1 + 1)%Z with (a - b)%Z by ring. split; [|exact T'].
    pose proof (pow2_succ (a - b - 1)) as Hs. replace (a - b - 1 + 1)%Z with (a - b)%Z in Hs by ring.
    pose proof (pow2_pos (a - b - 1)).
    set (E := pow2 (a - b)) in *. set (E' := pow2 (a - b - 1)) in *. set (A := pow2 a) in *. set (B := pow2 b) in *.
    nra.
Qed.

Lemma ilog2_unique q e : pow2 e <= q -> q < pow2 (e + 1) -> ilog2 q = e.
Proof.
  intros H1 H2.
  assert (Hq : 0 < q) by (pose proof (pow2_pos e); lra).
  destruct (ilog2_spec _ Hq) as [H3 H4].
  assert (e < ilog2 q + 1)%Z by (apply pow2_lt_inv; lra).
  assert (ilog2 q < e + 1)%Z by (apply pow2_lt_inv; lra).
  lia.
Qed.

Lemma ilog2_mono p q : 0 < p -> p <= q -> (ilog2 p <= ilog2 q)%Z.
Proof.
  intros Hp Hpq.
  destruct (ilog2_spec _ Hp) as [H1 H2].
  assert (Hq : 0 < q) by lra.
  destruct (ilog2_spec _ Hq) as [H3 H4].
  assert (ilog2 p < ilog2 q + 1)%Z by (apply pow2_lt_inv; lra).
  lia.
Qed.

Lemma ilog2_lt q e : 0 < q -> q < pow2 e -> (ilog2 q < e)%Z.
Proof.
  intros Hq H. destruct (ilog2_spec _ Hq) as [H1 _].
  apply pow2_lt_inv. lra.
Qed.

Lemma ulp_exp_mono p q : 0 < p -> p <= q -> (ulp_exp p <= ulp_exp q)%Z.
Proof. intros. unfold ulp_exp. pose proof (ilog2_mono _ _ H H0). lia. Qed.

(** round_half_even *)
Lemma rhe_cases x :
  (round_half_even x = Qfloor x /\ x - inject_Z (Qfloor x) <= 1#2) \/
  (round_half_even x = (Qfloor x + 1)%Z /\ 1#2 <= x - inject_Z (Qfloor x)).
Proof.
  unfold round_half_even.
  destruct (Qcompare_spec (x - inject_Z (Qfloor x)) (1#2)) as [E|L|G].
  - destruct (Z.even (Qfloor x)); [left|right]; split; auto; lra.
  - left; split; auto; lra.
  - right; split; auto; lra.
Qed.

Lemma floor_bounds x : inject_Z (Qfloor x) <= x /\ x < inject_Z (Qfloor x) + 1.
Proof.
  split; [apply Qfloor_le|].
  pose proof (Qlt_floor x) as Hf. rewrite inject_Z_plus in Hf. exact Hf.
Qed.

Lemma rhe_err_lo x : x - (1#2) <= inject_Z (round_half_even x).
Proof.
  destruct (floor_bounds x) as [G1 G2].
  destruct (rhe_cases x) as [[-> H]|[-> H]]; [|rewrite inject_Z_plus; change (inject_Z 1) with 1]; lra.
Qed.

Lemma rhe_err_hi x : inject_Z (round_half_even x) <= x + (1#2).
Proof.
  destruct (floor_bounds x) as [G1 G2].
  destruct (rhe_cases x) as [[-> H]|[-> H]]; [|rewrite inject_Z_plus; change (inject_Z 1) with 1]; lra.
Qed.

Lemma rhe_int z : round_half_even (inject_Z z) = z.
Proof.
  destruct (rhe_cases (inject_Z z)) as [[-> H]|[-> H]]; rewrite Qfloor_Z in *; auto.
  lra.
Qed.

Lemma rhe_mono x y : x <= y -> (round_half_even x <= round_half_even y)%Z.
Proof.
  intros Hxy.
  pose proof (Qfloor_resp_le _ _ Hxy) as Hf.
  destruct (Z.eq_dec (Qfloor x) (Qfloor y)) as [E|NE].
  - unfold round_half_even. rewrite E.
    destruct (Qcompare_spec (x - inject_Z (Qfloor y)) (1#2)) as [E1|L1|G1];
    destruct (Qcompare_spec (y - inject_Z (Qfloor y)) (1#2)) as [E2|L2|G2];
    try destruct (Z.even (Qfloor y)); try lia; try lra.
  - assert (Qfloor x + 1 <= Qfloor y)%Z by lia.
    destruct (rhe_cases x) as [[-> H1]|[-> H1]]; destruct (rhe_cases y) as [[-> H2]|[-> H2]]; lia.
Qed.

Lemma rhe_comp x y : x == y -> round_half_even x = round_half_even y.
Proof.
  intros E. apply Z.le_antisymm; apply rhe_mono; lra.
Qed.

Lemma rhe_nonneg x : 0 <= x -> (0 <= round_half_even x)%Z.
Proof. intros. rewrite <- (rhe_int 0). apply rhe_mono. assumption. Qed.

End Binades.

(* ------------------------------------------------------------------ *)
(** *** Rounding to binary64 *)

Section Rounding.
Local Open Scope Q_scope.

Lemma dyadic_scaled q j u :
  dyadic q j -> (u <= j)%Z -> exists M : Z, q / pow2 u == inject_Z M.
Proof.
  intros [m Hm] Hu. exists (m * 2 ^ (j - u))%Z.
  rewrite inject_Z_mult, <- pow2_nonneg_Z by lia.
  rewrite Hm, pow2_sub. pose proof (pow2_pos u). field. lra.
Qed.

Lemma ilog2_comp p q : 0 < p -> p == q -> ilog2 p = ilog2 q.
Proof.
  intros Hp E. destruct (ilog2_spec _ Hp) as [H1 H2].
  symmetry. apply ilog2_unique; lra.
Qed.

Lemma ulp_exp_comp p q : 0 < p -> p == q -> ulp_exp p = ulp_exp q.
Proof. intros. unfold ulp_exp. rewrite (ilog2_comp p q); auto. Qed.

Lemma RN_pos_comp p q : 0 < p -> p == q -> RN_pos p == RN_pos q.
Proof.
  intros Hp E. unfold RN_pos. rewrite (ulp_exp_comp p q Hp E).
  rewrite (rhe_comp (p / pow2 (ulp_exp q)) (q / pow2 (ulp_exp q))); [reflexivity|].
  rewrite E. reflexivity.
Qed.

Lemma RN_pos_nonneg q : 0 < q -> 0 <= RN_pos q.
Proof.
  intros Hq. unfold RN_pos. pose proof (pow2_pos (ulp_exp q)) as Hu.
  assert (0 <= q / pow2 (ulp_exp q)).
  { apply Qle_shift_div_l; [assumption|lra]. }
  pose proof (rhe_nonneg _ H) as Hr. rewrite Zle_Qle in Hr.
  apply Qmult_le_0_compat; [exact Hr | lra].
Qed.

Lemma RN_pos_exact q j :
  0 < q -> dyadic q j -> (ulp_exp q <= j)%Z -> RN_pos q == q.
Proof.
  intros Hq Hd Hj. destruct (dyadic_scaled _ _ _ Hd Hj) as [M HM].
  unfold RN_pos. rewrite (rhe_comp _ _ HM), rhe_int, <- HM.
  pose proof (pow2_pos (ulp_exp q)). field. lra.
Qed.

Lemma RN_pos_le q b j :
  0 < q -> q <= b -> dyadic b j -> (ulp_exp b <= j)%Z -> RN_pos q <= b.
Proof.
  intros Hq Hqb Hd Hj.
  pose proof (ulp_exp_mono _ _ Hq Hqb) as Hu.
  destruct (dyadic_scaled b j (ulp_exp q) Hd ltac:(lia)) as [M HM].
  unfold RN_pos. pose proof (pow2_pos (ulp_exp q)) as Hp.
  assert (Hle : q / pow2 (ulp_exp q) <= inject_Z M).
  { rewrite <- HM. apply Qle_shift_div_l; [assumption|].
    setoid_replace (q / pow2 (ulp_exp q) * pow2 (ulp_exp q)) with q by (field; lra).
    assumption. }
  pose proof (rhe_mono _ _ Hle) as Hr. rewrite rhe_int in Hr. rewrite Zle_Qle in Hr.
  setoid_replace b with (inject_Z M * pow2 (ulp_exp q)) by (rewrite <- HM; field; lra).
  apply Qmult_le_compat_r; [exact Hr | lra].
Qed.

Lemma RN_pos_err_lo q : 0 < q -> q - pow2 (ulp_exp q) * (1 # 2) <= RN_pos q.
Proof.
  intros Hq. unfold RN_pos. pose proof (pow2_pos (ulp_exp q)) as Hp.
  pose proof (rhe_err_lo (q / pow2 (ulp_exp q))) as H.
  set (u := pow2 (ulp_exp q)) in *. set (m := inject_Z (round_half_even (q / u))) in *.
  assert (E : q == q / u * u) by (field; lra).
  assert ((q / u - (1#2)) * u <= m * u) by (apply Qmult_le_compat_r; lra).
  assert ((q / u - (1#2)) * u == q - u * (1 # 2)) by (field; lra).
  lra.
Qed.

Lemma RN_pos_err_hi q : 0 < q -> RN_pos q <= q + pow2 (ulp_exp q) * (1 # 2).
Proof.
  intros Hq. unfold RN_pos. pose proof (pow2_pos (ulp_exp q)) as Hp.
  pose proof (rhe_err_hi (q / pow2 (ulp_exp q))) as H.
  set (u := pow2 (ulp_exp q)) in *. set (m := inject_Z (round_half_even (q / u))) in *.
  assert ( m * u <= (q / u + (1#2)) * u) by (apply Qmult_le_compat_r; lra).
  assert ((q / u + (1#2)) * u == q + u * (1 # 2)) by (field; lra).
  lra.
Qed.

(** RN on the Number type. *)

Lemma Qle_bool_ext x y y' : y == y' -> Qle_bool x y = Qle_bool x y'.
Proof.
  intros E. destruct (Qle_bool x y) eqn:A, (Qle_bool x y') eqn:B; try reflexivity.
  - apply Qle_bool_iff in A. rewrite E in A. apply Qle_bool_iff in A. congruence.
  - apply Qle_bool_iff in B. rewrite <- E in B. apply Qle_bool_iff in B. congruence.
Qed.

Lemma RN_comp p q : p == q -> RN p = RN q.
Proof.
  intros E. unfold RN. rewrite (Qcompare_comp p q E 0 0 (Qeq_refl 0)).
  destruct (Qcompare_spec q 0) as [Z|L|G]; [reflexivity| |].
  - assert (Hp : 0 < - p) by lra. assert (E' : - p == - q) by lra.
    pose proof (RN_pos_comp _ _ Hp E') as R.
    rewrite (Qle_bool_ext (pow2 1024) _ _ R).
    destruct (Qle_bool (pow2 1024) (RN_pos (- q))); [reflexivity|].
    f_equal. apply Qred_complete. rewrite R. reflexivity.
  - assert (Hp : 0 < p) by lra.
    pose proof (RN_pos_comp _ _ Hp E) as R.
    rewrite (Qle_bool_ext (pow2 1024) _ _ R).
    destruct (Qle_bool (pow2 1024) (RN_pos q)); [reflexivity|].
    f_equal. apply Qred_complete. exact R.
Qed.

Lemma Qle_bool_false x y : y < x -> Qle_bool x y = false.
Proof.
  intros H. destruct (Qle_bool x y) eqn:E; [|reflexivity].
  apply Qle_bool_iff in E. lra.
Qed.

Lemma RN_range q b j :
  0 <= q -> q <= b -> dyadic b j -> (ulp_exp b <= j)%Z -> b < pow2 1024 ->
  exists r, RN q = Fin r /\ 0 <= r /\ r <= b.
Proof.
  intros H0 Hb Hd Hj Hmax. unfold RN.
  destruct (Qcompare_spec q 0) as [Z|L|G].
  - exists 0. repeat split; lra.
  - lra.
  - pose proof (RN_pos_le _ _ _ G Hb Hd Hj) as Hle.
    pose proof (RN_pos_nonneg _ G) as Hge.
    rewrite Qle_bool_false by lra.
    exists (Qred (RN_pos q)). pose proof (Qred_correct (RN_pos q)) as R.
    split; [reflexivity | split; lra].
Qed.

Lemma RN_exact_pos q j :
  0 < q -> dyadic q j -> (ulp_exp q <= j)%Z -> q < pow2 1024 -> RN q = Fin (Qred q).
Proof.
  intros Hq Hd Hj Hmax. unfold RN.
  destruct (Qcompare_spec q 0) as [Z|L|G]; try lra.
  pose proof (RN_pos_exact _ _ Hq Hd Hj) as E.
  rewrite Qle_bool_false by lra. f_equal. apply Qred_complete. exact E.
Qed.

Lemma RN_neg q : 0 < q -> RN (- q) = fneg (RN q).
Proof.
  intros Hq. unfold RN.
  destruct (Qcompare_spec q 0) as [Z|L|G]; try lra.
  destruct (Qcompare_spec (- q) 0) as [Z'|L'|G']; try lra.
  assert (R : RN_pos (- - q) == RN_pos q) by (apply RN_pos_comp; lra).
  rewrite (Qle_bool_ext (pow2 1024) _ _ R).
  destruct (Qle_bool (pow2 1024) (RN_pos q)); cbn [fneg negb]; [reflexivity|].
  rewrite Qred_opp. do 2 f_equal. apply Qred_complete. exact R.
Qed.

Lemma Qred_inject_Z z : Qred (inject_Z z) = inject_Z z.
Proof.
  unfold inject_Z, Qred.
  pose proof (Z.ggcd_correct_divisors z 1) as H.
  pose proof (Z.ggcd_gcd z 1) as G. rewrite Z.gcd_1_r in G.
  destruct (Z.ggcd z 1) as [g [a b]]. simpl in *. subst g.
  destruct H as [H1 H2]. rewrite Z.mul_1_l in H1, H2. subst.
  reflexivity.
Qed.

Lemma ulp_exp_le q E : 0 < q -> q < pow2 E -> (ulp_exp q <= Z.max (E - 53) (-1074))%Z.
Proof. intros Hq H. pose proof (ilog2_lt _ _ Hq H). unfold ulp_exp. lia. Qed.

Lemma dyadic_int z : dyadic (inject_Z z) 0.
Proof. exists z. unfold pow2. simpl. ring. Qed.

Lemma dyadic_weaken q j k : dyadic q j -> (k <= j)%Z -> dyadic q k.
Proof.
  intros [m Hm] Hk. exists (m * 2 ^ (j - k))%Z.
  rewrite inject_Z_mult, <- pow2_nonneg_Z by lia.
  rewrite Hm, pow2_sub. pose proof (pow2_pos k). field. lra.
Qed.

Lemma pow2_53 : pow2 53 == inject_Z (2 ^ 53).
Proof. apply pow2_nonneg_Z. lia. Qed.

(** Integers below 2^53 in magnitude are Numbers, exactly. *)
Lemma RN_int z : (Z.abs z < 2 ^ 53)%Z -> RN (inject_Z z) = of_Z z.
Proof.
  intros Hz. unfold of_Z.
  assert (Hpos : forall p, (0 < p < 2 ^ 53)%Z -> RN (inject_Z p) = Fin (inject_Z p)).
  { intros p Hp. rewrite <- (Qred_inject_Z p) at 2.
    apply RN_exact_pos with (j := 0%Z).
    - change 0 with (inject_Z 0). rewrite <- Zlt_Qlt. lia.
    - apply dyadic_int.
    - assert (ulp_exp (inject_Z p) <= Z.max (53 - 53) (-1074))%Z.
      { apply ulp_exp_le.
        - change 0 with (inject_Z 0). rewrite <- Zlt_Qlt. lia.
        - rewrite pow2_53, <- Zlt_Qlt. lia. }
      lia.
    - apply Qlt_trans with (pow2 53).
      + rewrite pow2_53, <- Zlt_Qlt. lia.
      + apply pow2_lt. lia. }
  destruct (Z.lt_trichotomy z 0) as [N|[Z|P]].
  - replace z with (- (- z))%Z by lia. rewrite inject_Z_opp.
    rewrite RN_neg by (change 0 with (inject_Z 0); rewrite <- Zlt_Qlt; lia).
    rewrite Hpos by lia. reflexivity.
  - subst. reflexivity.
  - apply Hpos. lia.
Qed.

End Rounding.

(* ------------------------------------------------------------------ *)
(** *** Integers and percentages in range *)

Section IntegerArithmetic.
Local Open Scope Q_scope.

Lemma fadd_int a b : (Z.abs (a + b) < 2 ^ 53)%Z -> fadd (of_Z a) (of_Z b) = of_Z (a + b).
Proof.
  intros H. rewrite <- (RN_int _ H). unfold fadd, of_Z. apply RN_comp.
  rewrite inject_Z_plus. reflexivity.
Qed.

Lemma fsub_int a b : (Z.abs (a - b) < 2 ^ 53)%Z -> fsub (of_Z a) (of_Z b) = of_Z (a - b).
Proof.
  intros H. rewrite <- (RN_int _ H). unfold fsub, fneg, fadd, of_Z. apply RN_comp.
  unfold Z.sub. rewrite inject_Z_plus, inject_Z_opp. reflexivity.
Qed.

Lemma fmul_int a b : (Z.abs (a * b) < 2 ^ 53)%Z -> fmul (of_Z a) (of_Z b) = of_Z (a * b).
Proof.
  intros H. rewrite <- (RN_int _ H). unfold fmul, of_Z. apply RN_comp.
  rewrite inject_Z_mult. reflexivity.
Qed.

Lemma Qle_bool_int a b : Qle_bool (inject_Z a) (inject_Z b) = (a <=? b)%Z.
Proof.
  destruct (Z.leb_spec a b) as [H|H].
  - apply Qle_bool_iff. rewrite <- Zle_Qle. assumption.
  - apply Qle_bool_false. rewrite <- Zlt_Qlt. assumption.
Qed.

Lemma Math_max_int a b : Math_max (of_Z a) (of_Z b) = of_Z (Z.max a b).
Proof.
  unfold Math_max, of_Z. rewrite Qle_bool_int.
  destruct (Z.leb_spec a b); f_equal; f_equal; lia.
Qed.

Lemma ltb_int a b : JSNumber.ltb (of_Z a) (of_Z b) = (a <? b)%Z.
Proof.
  unfold JSNumber.ltb, of_Z. rewrite Qle_bool_int.
  destruct (Z.leb_spec b a), (Z.ltb_spec a b); simpl; auto; lia.
Qed.

Lemma Math_round_int z : Math_round (of_Z z) = of_Z z.
Proof.
  unfold Math_round, of_Z. do 2 f_equal.
  pose proof (floor_bounds (inject_Z z + (1 # 2))) as [H1 H2].
  set (f := Qfloor (inject_Z z + (1 # 2))) in *.
  assert (inject_Z f < inject_Z (z + 1)). { rewrite inject_Z_plus; change (inject_Z 1) with 1. lra. }
  assert (inject_Z (z - 1) < inject_Z f).
  { unfold Z.sub. rewrite inject_Z_plus, inject_Z_opp. change (inject_Z 1) with 1. lra. }
  rewrite <- Zlt_Qlt in *. lia.
Qed.

(** The integer a Number in [0, b] rounds to under [Math.round]. *)
Lemma Math_round_range r (b : Z) :
  0 <= r -> r <= inject_Z b ->
  exists z, Math_round (Fin r) = of_Z z /\ (0 <= z <= b)%Z.
Proof.
  intros H0 Hb. exists (Qfloor (r + (1 # 2))). split; [reflexivity|].
  pose proof (floor_bounds (r + (1 # 2))) as [H1 H2].
  set (f := Qfloor (r + (1 # 2))) in *.
  assert (inject_Z (-1) < inject_Z f) by (change (inject_Z (-1)) with (-1); lra).
  assert (inject_Z f < inject_Z (b + 1)) by (rewrite inject_Z_plus; change (inject_Z 1) with 1; lra).
  rewrite <- Zlt_Qlt in *. lia.
Qed.

Lemma ulp_exp_int_le0 z : (0 < z < 2 ^ 53)%Z -> (ulp_exp (inject_Z z) <= 0)%Z.
Proof.
  intros Hz.
  assert (ulp_exp (inject_Z z) <= Z.max (53 - 53) (-1074))%Z.
  { apply ulp_exp_le.
    - change 0 with (inject_Z 0). rewrite <- Zlt_Qlt. lia.
    - rewrite pow2_53, <- Zlt_Qlt. lia. }
  lia.
Qed.

Lemma int_lt_pow2_1024 z : (z < 2 ^ 53)%Z -> inject_Z z < pow2 1024.
Proof.
  intros. apply Qlt_trans with (pow2 53).
  - rewrite pow2_53, <- Zlt_Qlt. lia.
  - apply pow2_lt. lia.
Qed.

(** A quotient or product that stays in [0, b] for an integer b < 2^53
    rounds into [0, b]. *)
Lemma RN_range_int q (b : Z) :
  (0 < b < 2 ^ 53)%Z -> 0 <= q -> q <= inject_Z b ->
  exists r, RN q = Fin r /\ 0 <= r /\ r <= inject_Z b.
Proof.
  intros Hb H0 Hq. apply RN_range with (j := 0%Z); auto.
  - apply dyadic_int.
  - apply ulp_exp_int_le0. assumption.
  - apply int_lt_pow2_1024. lia.
Qed.

Lemma inject_nat_pos n : (0 < n)%nat -> 0 < inject_Z (Z.of_nat n).
Proof. intros. change 0 with (inject_Z 0). rewrite <- Zlt_Qlt. lia. Qed.

Lemma Qeq_bool_false x y : ~ x == y -> Qeq_bool x y = false.
Proof.
  intros H. destruct (Qeq_bool x y) eqn:E; [|reflexivity].
  apply Qeq_bool_iff in E. contradiction.
Qed.

Lemma fdiv_nat k n :
  (0 < n)%nat -> fdiv (of_nat k) (of_nat n) = RN (inject_Z (Z.of_nat k) / inject_Z (Z.of_nat n)).
Proof.
  intros Hn. unfold fdiv, of_nat, of_Z. pose proof (inject_nat_pos n Hn).
  rewrite Qeq_bool_false by lra. reflexivity.
Qed.

Lemma ratio_range k n :
  (k <= n)%nat -> (0 < n)%nat ->
  0 <= inject_Z (Z.of_nat k) / inject_Z (Z.of_nat n) <= 1.
Proof.
  intros Hk Hn. pose proof (inject_nat_pos n Hn) as Hp.
  assert (0 <= inject_Z (Z.of_nat k)) by (change 0 with (inject_Z 0); rewrite <- Zle_Qle; lia).
  assert (inject_Z (Z.of_nat k) <= inject_Z (Z.of_nat n)) by (rewrite <- Zle_Qle; lia).
  split.
  - apply Qle_shift_div_l; lra.
  - apply Qle_shift_div_r; lra.
Qed.

(** [Math.round((count / total) * 100)] is an integer between 0 and 100
    whenever [count <= total] and [total] is not 0. *)
Lemma percentage_range k n :
  (k <= n)%nat -> (0 < n)%nat ->
  exists z, DataAnalyzer.percentage k n = of_Z z /\ (0 <= z <= 100)%Z.
Proof.
  intros Hk Hn. unfold DataAnalyzer.percentage. rewrite fdiv_nat by assumption.
  destruct (ratio_range k n Hk Hn) as [R0 R1].
  destruct (RN_range_int _ 1 ltac:(lia) R0 R1) as (r & -> & Hr0 & Hr1).
  change (inject_Z 1) with 1 in Hr1.
  unfold fmul, of_Z.
  assert (B0 : 0 <= r * inject_Z 100) by (change (inject_Z 100) with 100; lra).
  assert (B1 : r * inject_Z 100 <= inject_Z 100) by (change (inject_Z 100) with 100; lra).
  destruct (RN_range_int _ 100 ltac:(lia) B0 B1) as (p & -> & Hp0 & Hp1).
  apply Math_round_range; assumption.
Qed.

End IntegerArithmetic.

(* ------------------------------------------------------------------ *)
(** *** The penalty scores in closed form *)

Section PenaltyScores.
Local Open Scope Z_scope.

Lemma count_cons {A} (f : A -> bool) x l :
  count f (x :: l) = (if f x then 1 else 0) + count f l.
Proof. unfold count. cbn [filter]. destruct (f x); cbn [List.length]; lia. Qed.

Lemma count_bounds {A} (f : A -> bool) l : 0 <= count f l <= Z.of_nat (List.length l).
Proof.
  unfold count. pose proof (filter_length_le f l). lia.
Qed.

(** A loop that subtracts [d] from the score at every element satisfying
    [f] computes [z - d * count f l], as long as the integers stay exact. *)
Lemma penalty_fold {A} (f : A -> bool) (d : Z) (l : list A) (z : Z) :
  0 <= d <= 10 -> Z.abs z <= 100 -> Z.of_nat (List.length l) < 2 ^ 40 ->
  fold_left (fun score col => if f col then fsub score (of_Z d) else score) l (of_Z z)
  = of_Z (z - d * count f l).
Proof.
  intros Hd. revert z.
  assert (G : forall l z, Z.abs z + 10 * Z.of_nat (List.length l) < 2 ^ 50 ->
              fold_left (fun score col => if f col then fsub score (of_Z d) else score) l (of_Z z)
              = of_Z (z - d * count f l)).
  { clear l. induction l as [|x l IH]; intros z Hz.
    - cbn [fold_left]. unfold count. cbn [filter List.length]. f_equal; lia.
    - cbn [fold_left]. rewrite count_cons. cbn [List.length] in Hz.
      destruct (f x).
      + rewrite fsub_int by lia. rewrite IH by lia. f_equal; lia.
      + rewrite IH by lia. f_equal; lia. }
  intros z Hz Hl. apply G. lia.
Qed.

Lemma calculateConsistency_closed stats :
  array_length_ok stats ->
  DataAnalyzer.calculateConsistency stats
  = of_Z (Z.max 0 (100 - 5 * count is_text stats - 5 * count has_issues stats)).
Proof.
  intros Hl. unfold array_length_ok in Hl. unfold DataAnalyzer.calculateConsistency.
  pose proof (penalty_fold is_text 5 stats 100 ltac:(lia) ltac:(lia) ltac:(lia)) as P.
  unfold is_text in P at 1. rewrite P. clear P.
  change (of_nat (List.length (filter (fun c => (0 <? List.length (ColumnStats.issues c))%nat) stats)))
    with (of_Z (count has_issues stats)).
  pose proof (count_bounds is_text stats). pose proof (count_bounds has_issues stats).
  rewrite fmul_int by lia. rewrite fsub_int by lia. rewrite Math_max_int.
  f_equal; lia.
Qed.

Lemma calculateValidity_closed stats :
  array_length_ok stats ->
  DataAnalyzer.calculateValidity stats
  = of_Z (Z.max 0 (100 - 10 * count low_unique_text stats)).
Proof.
  intros Hl. unfold array_length_ok in Hl. unfold DataAnalyzer.calculateValidity.
  pose proof (penalty_fold low_unique_text 10 stats 100 ltac:(lia) ltac:(lia) ltac:(lia)) as P.
  unfold low_unique_text in P at 1. rewrite P. clear P.
  rewrite Math_max_int. reflexivity.
Qed.

Lemma total_non_numeric_bounds stats :
  Forall few_issues stats ->
  0 <= total_non_numeric stats <= 3 * Z.of_nat (List.length stats).
Proof.
  induction 1 as [|c l Hc _ IH]; cbn [total_non_numeric List.length]; [lia|].
  unfold few_issues in Hc. unfold non_numeric_issues.
  pose proof (count_bounds (fun i => includes i "non-numeric") (ColumnStats.issues c)).
  lia.
Qed.

Lemma calculateAccuracy_closed stats :
  array_length_ok stats -> Forall few_issues stats ->
  DataAnalyzer.calculateAccuracy stats
  = of_Z (Z.max 0 (100 - 10 * total_non_numeric stats)).
Proof.
  intros Hl Hf. unfold array_length_ok in Hl. unfold DataAnalyzer.calculateAccuracy.
  assert (G : forall l z, Forall few_issues l ->
              Z.abs z + 30 * Z.of_nat (List.length l) < 2 ^ 50 ->
              fold_left (fun score col =>
                 fsub score
                   (fmul (of_nat (List.length
                                    (filter (fun i => includes i "non-numeric")
                                            (ColumnStats.issues col))))
                         (of_Z 10))) l (of_Z z)
              = of_Z (z - 10 * total_non_numeric l)).
  { clear. induction l as [|c l IH]; intros z Hf Hz.
    - cbn [fold_left total_non_numeric]. f_equal; lia.
    - inversion Hf as [|? ? Hc Hl]; subst. cbn [fold_left total_non_numeric].
      cbn [List.length] in Hz.
      change (of_nat (List.length (filter (fun i => includes i "non-numeric") (ColumnStats.issues c))))
        with (of_Z (non_numeric_issues c)).
      assert (0 <= non_numeric_issues c <= 3).
      { unfold non_numeric_issues, few_issues in *.
        pose proof (count_bounds (fun i => includes i "non-numeric") (ColumnStats.issues c)). lia. }
      rewrite fmul_int by lia. rewrite fsub_int by lia. rewrite IH by (auto; lia).
      f_equal; lia. }
  rewrite G by (auto; lia). rewrite Math_max_int. reflexivity.
Qed.

End PenaltyScores.

(* ------------------------------------------------------------------ *)
(** *** Rounding error *)

Section RoundingError.
Local Open Scope Q_scope.

Lemma RN_fin_pos q r : 0 < q -> RN q = Fin r -> r == RN_pos q.
Proof.
  intros Hq. unfold RN. destruct (Qcompare_spec q 0) as [Z|L|G]; try lra.
  destruct (Qle_bool (pow2 1024) (RN_pos q)); [discriminate|].
  intros HR. assert (Er : r = Qred (RN_pos q)) by congruence.
  rewrite Er. apply Qred_correct.
Qed.

Lemma RN_zero q : q == 0 -> RN q = Fin 0.
Proof. intros E. rewrite (RN_comp q 0 E). reflexivity. Qed.

(** The rounding error of a finite result is at most half a unit in the
    last place of the binade bound. *)
Lemma RN_error q E r :
  0 <= q -> q < pow2 E -> RN q = Fin r ->
  q - pow2 (Z.max (E - 53) (-1074)) * (1 # 2) <= r /\
  r <= q + pow2 (Z.max (E - 53) (-1074)) * (1 # 2).
Proof.
  intros H0 HE HR. pose proof (pow2_pos (Z.max (E - 53) (-1074))) as Hp.
  destruct (Qlt_le_dec 0 q) as [Hq|Hq].
  - pose proof (RN_fin_pos _ _ Hq HR) as Er.
    pose proof (RN_pos_err_lo _ Hq). pose proof (RN_pos_err_hi _ Hq).
    pose proof (pow2_le _ _ (ulp_exp_le _ _ Hq HE)).
    set (U := pow2 (Z.max (E - 53) (-1074))) in *. set (u := pow2 (ulp_exp q)) in *.
    set (R := RN_pos q) in *. clearbody R U u. split; lra.
  - assert (Z : q == 0) by lra. rewrite (RN_zero _ Z) in HR. assert (Er : r = 0) by congruence. rewrite Er. set (U := pow2 (Z.max (E - 53) (-1074))) in *. split; lra.
Qed.

Lemma Qfloor_unique x z : inject_Z z <= x -> x < inject_Z z + 1 -> Qfloor x = z.
Proof.
  intros H1 H2. destruct (floor_bounds x) as [G1 G2].
  assert (inject_Z (Qfloor x) < inject_Z (z + 1)) by (rewrite inject_Z_plus; change (inject_Z 1) with 1; lra).
  assert (inject_Z z < inject_Z (Qfloor x + 1)) by (rewrite inject_Z_plus; change (inject_Z 1) with 1; lra).
  rewrite <- Zlt_Qlt in *. lia.
Qed.

Lemma div_mod_Q N D :
  (0 < D)%Z ->
  inject_Z N / inject_Z D == inject_Z (N / D) + inject_Z (N mod D) / inject_Z D.
Proof.
  intros HD. assert (0 < inject_Z D) by (change 0 with (inject_Z 0); rewrite <- Zlt_Qlt; lia).
  rewrite (Z.div_mod N D) at 1 by lia.
  rewrite inject_Z_plus, inject_Z_mult. field. lra.
Qed.

(** Away from a tie, a perturbation below 2^-40 of a fraction with a
    denominator up to 2^33 does not change its floor. *)
Lemma floor_robust N D y :
  (0 < D <= 2 ^ 33)%Z -> (N mod D <> 0)%Z ->
  inject_Z N / inject_Z D - (1 # 2 ^ 40) <= y ->
  y <= inject_Z N / inject_Z D + (1 # 2 ^ 40) ->
  Qfloor y = (N / D)%Z.
Proof.
  intros HD Hm Hlo Hhi.
  rewrite (div_mod_Q N D) in Hlo, Hhi by lia.
  pose proof (Z.mod_pos_bound N D ltac:(lia)) as Hr.
  set (rho := (N mod D)%Z) in *. set (c := (N / D)%Z) in *.
  assert (HDq : 0 < inject_Z D) by (change 0 with (inject_Z 0); rewrite <- Zlt_Qlt; lia).
  assert (HD33 : inject_Z D <= inject_Z (2 ^ 33)) by (rewrite <- Zle_Qle; lia).
  assert (Hr1 : 1 <= inject_Z rho) by (change 1 with (inject_Z 1); rewrite <- Zle_Qle; lia).
  assert (Hr2 : inject_Z rho <= inject_Z D - 1).
  { assert (T : inject_Z rho <= inject_Z (D + - (1))) by (rewrite <- Zle_Qle; lia).
    rewrite inject_Z_plus, inject_Z_opp in T. change (inject_Z 1) with 1 in T. lra. }
  assert (G1 : (1 # 2 ^ 33) <= inject_Z rho / inject_Z D).
  { apply Qle_shift_div_l; [assumption|].
    change (inject_Z (2 ^ 33)) with (8589934592#1) in HD33.
    change (1 # 2 ^ 33) with (1 # 8589934592). lra. }
  assert (G2 : inject_Z rho / inject_Z D <= 1 - (1 # 2 ^ 33)).
  { apply Qle_shift_div_r; [assumption|].
    change (inject_Z (2 ^ 33)) with (8589934592#1) in HD33.
    change (1 # 2 ^ 33) with (1 # 8589934592). nra. }
  apply Qfloor_unique.
  - change (1 # 2 ^ 33) with (1 # 8589934592) in *.
    change (1 # 2 ^ 40) with (1 # 1099511627776) in *. lra.
  - change (1 # 2 ^ 33) with (1 # 8589934592) in *.
    change (1 # 2 ^ 40) with (1 # 1099511627776) in *. lra.
Qed.

End RoundingError.

(* ------------------------------------------------------------------ *)
(** *** The percentage, exactly *)

Section Percentages.
Local Open Scope Q_scope.

Lemma pow2_m52 : pow2 (Z.max (1 - 53) (-1074)) == 1 # 2 ^ 52.
Proof. reflexivity. Qed.

Lemma pow2_m46 : pow2 (Z.max (7 - 53) (-1074)) == 1 # 2 ^ 46.
Proof. reflexivity. Qed.

Lemma pow2_1 : pow2 1 == 2.
Proof. reflexivity. Qed.

Lemma pow2_7 : pow2 7 == 128.
Proof. reflexivity. Qed.

(** The product [(count / total) * 100] before [Math.round]: a finite
    Number within 2^-40 of the exact percentage. *)
Lemma percentage_error k n :
  (k <= n)%nat -> (0 < n)%nat ->
  exists b,
    fmul (fdiv (of_nat k) (of_nat n)) (of_Z 100) = Fin b /\
    0 <= b /\ b <= 100 /\
    100 * (inject_Z (Z.of_nat k) / inject_Z (Z.of_nat n)) - (1 # 2 ^ 40) <= b /\
    b <= 100 * (inject_Z (Z.of_nat k) / inject_Z (Z.of_nat n)) + (1 # 2 ^ 40).
Proof.
  intros Hk Hn. rewrite fdiv_nat by assumption.
  destruct (ratio_range k n Hk Hn) as [R0 R1].
  set (q := inject_Z (Z.of_nat k) / inject_Z (Z.of_nat n)) in *.
  destruct (RN_range_int _ 1 ltac:(lia) R0 R1) as (a & Ea & Ha0 & Ha1).
  change (inject_Z 1) with 1 in Ha1.
  assert (Hq2 : q < pow2 1) by (rewrite pow2_1; lra).
  destruct (RN_error q 1 a R0 Hq2 Ea) as [Ea1 Ea2].
  rewrite pow2_m52 in Ea1, Ea2. rewrite Ea.
  unfold fmul, of_Z.
  assert (B0 : 0 <= a * inject_Z 100) by (change (inject_Z 100) with 100; lra).
  assert (B1 : a * inject_Z 100 <= inject_Z 100) by (change (inject_Z 100) with 100; lra).
  destruct (RN_range_int _ 100 ltac:(lia) B0 B1) as (b & Eb & Hb0 & Hb1).
  assert (B7 : a * inject_Z 100 < pow2 7).
  { rewrite pow2_7. change (inject_Z 100) with 100. lra. }
  destruct (RN_error _ 7 b B0 B7 Eb) as [Eb1 Eb2].
  rewrite pow2_m46 in Eb1, Eb2.
  change (inject_Z 100) with 100 in *.
  exists b. split; [exact Eb|].
  change (1 # 2 ^ 52) with (1 # 4503599627370496) in *.
  change (1 # 2 ^ 46) with (1 # 70368744177664) in *.
  change (1 # 2 ^ 40) with (1 # 1099511627776).
  clearbody q. repeat split; lra.
Qed.

Local Open Scope Z_scope.

Lemma half_up_as_fraction (a b : Z) :
  0 < b ->
  (inject_Z (2 * a + b) / inject_Z (2 * b) ==
   inject_Z a / inject_Z b + (1 # 2))%Q.
Proof.
  intros Hb. assert (0 < inject_Z b)%Q by (change 0%Q with (inject_Z 0); rewrite <- Zlt_Qlt; lia).
  rewrite inject_Z_plus, !inject_Z_mult. change (inject_Z 2) with 2%Q. field. lra.
Qed.

Lemma hundred_ratio k n :
  (0 < n)%nat ->
  (inject_Z (100 * Z.of_nat k) / inject_Z (Z.of_nat n)
   == 100 * (inject_Z (Z.of_nat k) / inject_Z (Z.of_nat n)))%Q.
Proof.
  intros Hn. pose proof (inject_nat_pos n Hn). rewrite inject_Z_mult.
  change (inject_Z 100) with 100%Q. field. lra.
Qed.

(** Away from a tie the percentage is the exact quotient rounded half up. *)
Lemma percentage_exact k n :
  (k <= n)%nat -> (0 < n)%nat -> Z.of_nat n < 2 ^ 32 ->
  ~ is_tie (100 * Z.of_nat k) (Z.of_nat n) ->
  DataAnalyzer.percentage k n = of_Z (round_half_up_div (100 * Z.of_nat k) (Z.of_nat n)).
Proof.
  intros Hk Hn Hn32 Htie. unfold DataAnalyzer.percentage.
  destruct (percentage_error k n Hk Hn) as (b & -> & Hb0 & Hb1 & Hlo & Hhi).
  unfold Math_round, of_Z, round_half_up_div. do 2 f_equal.
  apply floor_robust; try lia.
  - exact Htie.
  - rewrite half_up_as_fraction by lia. rewrite hundred_ratio by assumption. lra.
  - rewrite half_up_as_fraction by lia. rewrite hundred_ratio by assumption. lra.
Qed.

(** At a tie it is that integer or the one below. *)
Lemma percentage_tie k n :
  (k <= n)%nat -> (0 < n)%nat ->
  is_tie (100 * Z.of_nat k) (Z.of_nat n) ->
  let c := round_half_up_div (100 * Z.of_nat k) (Z.of_nat n) in
  DataAnalyzer.percentage k n = of_Z c \/ DataAnalyzer.percentage k n = of_Z (c - 1).
Proof.
  intros Hk Hn Htie c. unfold DataAnalyzer.percentage.
  destruct (percentage_error k n Hk Hn) as (b & -> & Hb0 & Hb1 & Hlo & Hhi).
  rewrite <- hundred_ratio in Hlo, Hhi by assumption.
  pose proof (half_up_as_fraction (100 * Z.of_nat k) (Z.of_nat n) ltac:(lia)) as Hf.
  rewrite (div_mod_Q (2 * (100 * Z.of_nat k) + Z.of_nat n) (2 * Z.of_nat n)) in Hf by lia.
  unfold is_tie in Htie. rewrite Htie in Hf. fold (round_half_up_div (100 * Z.of_nat k) (Z.of_nat n)) in Hf.
  fold c in Hf.
  assert (Hz : (inject_Z 0 / inject_Z (2 * Z.of_nat n) == 0)%Q).
  { unfold Qdiv. change (inject_Z 0) with 0%Q. ring. }
  rewrite Hz in Hf.
  unfold Math_round, of_Z.
  change (1 # 2 ^ 40)%Q with (1 # 1099511627776)%Q in *.
  destruct (Qlt_le_dec (b + (1 # 2)) (inject_Z c)) as [Lt|Ge].
  - right. do 2 f_equal. apply Qfloor_unique.
    + unfold Z.sub. rewrite inject_Z_plus, inject_Z_opp. change (inject_Z 1) with 1%Q. lra.
    + unfold Z.sub. rewrite inject_Z_plus, inject_Z_opp. change (inject_Z 1) with 1%Q. lra.
  - left. do 2 f_equal. apply Qfloor_unique; lra.
Qed.

End Percentages.

(* ------------------------------------------------------------------ *)
(** *** Completeness, exactly *)

Section Completeness.
Local Open Scope Z_scope.

Lemma to_Z_of_Z z : to_Z (of_Z z) = z.
Proof. unfold to_Z, of_Z. apply Qfloor_Z. Qed.

Lemma is_score_to_Z x : is_score x -> x = of_Z (to_Z x) /\ 0 <= to_Z x <= 100.
Proof. intros (z & -> & Hz). rewrite to_Z_of_Z. auto. Qed.

Lemma sum_rates_bounds stats :
  Forall rate_ok stats -> 0 <= sum_rates stats <= 100 * Z.of_nat (List.length stats).
Proof.
  induction 1 as [|c l Hc _ IH]; cbn [sum_rates List.length]; [lia|].
  destruct (is_score_to_Z _ Hc) as [_ ?]. lia.
Qed.

Lemma sum_fold stats z :
  Forall rate_ok stats -> 0 <= z -> z + 100 * Z.of_nat (List.length stats) < 2 ^ 50 ->
  fold_left (fun sum col => fadd sum (ColumnStats.nullPercentage col)) stats (of_Z z)
  = of_Z (z + sum_rates stats).
Proof.
  intros Hf. revert z. induction Hf as [|c l Hc _ IH]; intros z Hz Hl.
  - cbn [fold_left sum_rates]. f_equal; lia.
  - cbn [fold_left sum_rates]. cbn [List.length] in Hl.
    destruct (is_score_to_Z _ Hc) as [E Hr]. rewrite E at 1.
    rewrite fadd_int by lia. rewrite IH by lia. f_equal; lia.
Qed.

Local Open Scope Q_scope.

Lemma half_integer_exact (m : Z) :
  (0 < m < 512)%Z -> RN (inject_Z m * (1 # 2)) = Fin (Qred (inject_Z m * (1 # 2))).
Proof.
  intros Hm.
  assert (P : 0 < inject_Z m) by (change 0 with (inject_Z 0); rewrite <- Zlt_Qlt; lia).
  assert (B : inject_Z m < 512) by (change 512 with (inject_Z 512); rewrite <- Zlt_Qlt; lia).
  assert (L : inject_Z m * (1 # 2) < pow2 8) by (change (pow2 8) with 256; lra).
  apply RN_exact_pos with (j := (-1)%Z).
  - lra.
  - exists m. change (pow2 (-1)) with (1 # 2). reflexivity.
  - pose proof (ulp_exp_le (inject_Z m * (1 # 2)) 8 ltac:(lra) L). lia.
  - apply Qlt_trans with (pow2 8); [exact L | apply pow2_lt; lia].
Qed.

(** [Math.max(0, Math.round(100 - sum / n))] for an integer sum of rates:
    the exact difference rounded half up. *)
Lemma completeness_of_sum (S n : Z) :
  (0 < n < 2 ^ 32)%Z -> (0 <= S <= 100 * n)%Z ->
  Math_max (of_Z 0) (Math_round (fsub (of_Z 100) (fdiv (of_Z S) (of_Z n))))
  = of_Z (round_half_up_div (100 * n - S) n).
Proof.
  intros Hn HS.
  assert (Pn : 0 < inject_Z n) by (change 0 with (inject_Z 0); rewrite <- Zlt_Qlt; lia).
  assert (PS : 0 <= inject_Z S) by (change 0 with (inject_Z 0); rewrite <- Zle_Qle; lia).
  assert (BS : inject_Z S <= 100 * inject_Z n).
  { change 100 with (inject_Z 100). rewrite <- inject_Z_mult, <- Zle_Qle. lia. }
  set (q := inject_Z S / inject_Z n).
  assert (Q0 : 0 <= q) by (apply Qle_shift_div_l; lra).
  assert (Q1 : q <= inject_Z 100) by (apply Qle_shift_div_r; [lra | change (inject_Z 100) with 100; lra]).
  assert (Ediv : fdiv (of_Z S) (of_Z n) = RN q).
  { unfold fdiv, of_Z. rewrite Qeq_bool_false by lra. reflexivity. }
  rewrite Ediv.
  (* the target, as a fraction *)
  set (c := round_half_up_div (100 * n - S) n).
  pose proof (half_up_as_fraction (100 * n - S) n ltac:(lia)) as Hx.
  assert (Hdiff : inject_Z (100 * n - S) / inject_Z n == 100 - q).
  { unfold Z.sub. rewrite inject_Z_plus, inject_Z_mult, inject_Z_opp.
    change (inject_Z 100) with 100. unfold q. field. lra. }
  rewrite Hdiff in Hx.
  assert (Hc : (0 <= c <= 100)%Z).
  { unfold c, round_half_up_div. split.
    - apply Z.div_pos; lia.
    - apply Z.lt_succ_r. apply Z.div_lt_upper_bound; lia. }
  destruct (Z.eq_dec ((2 * (100 * n - S) + n) mod (2 * n)) 0) as [Tie|NoTie].
  - (* the difference is a half-integer: both roundings are exact *)
    rewrite (div_mod_Q (2 * (100 * n - S) + n) (2 * n)) in Hx by lia.
    rewrite Tie in Hx. fold (round_half_up_div (100 * n - S) n) in Hx. fold c in Hx.
    assert (Hz : inject_Z 0 / inject_Z (2 * n) == 0).
    { unfold Qdiv. change (inject_Z 0) with 0. ring. }
    rewrite Hz in Hx.
    assert (Eq : q == inject_Z (201 - 2 * c) * (1 # 2)).
    { unfold Z.sub. rewrite inject_Z_plus, inject_Z_opp, inject_Z_mult.
      change (inject_Z 201) with 201. change (inject_Z 2) with 2. lra. }
    assert (C1 : (1 <= c)%Z).
    { destruct (Z.eq_dec c 0) as [C0|]; [|lia]. exfalso.
      rewrite C0 in Hx. change (inject_Z 0) with 0 in Hx.
      change (inject_Z 100) with 100 in Q1. lra. }
    rewrite (RN_comp _ _ Eq), half_integer_exact by lia.
    unfold fsub, fneg, fadd, of_Z.
    assert (Eb : inject_Z 100 + - Qred (inject_Z (201 - 2 * c) * (1 # 2))
                 == inject_Z (2 * c - 1) * (1 # 2)).
    { rewrite Qred_correct. unfold Z.sub.
      rewrite !inject_Z_plus, !inject_Z_opp, !inject_Z_mult.
      change (inject_Z 100) with 100. change (inject_Z 201) with 201.
      change (inject_Z 2) with 2. change (inject_Z 1) with 1. ring. }
    rewrite (RN_comp _ _ Eb), half_integer_exact by lia.
    unfold Math_round.
    assert (Ef : Qfloor (Qred (inject_Z (2 * c - 1) * (1 # 2)) + (1 # 2)) = c).
    { apply Qfloor_unique; rewrite Qred_correct; unfold Z.sub;
        rewrite inject_Z_plus, inject_Z_opp, inject_Z_mult;
        change (inject_Z 2) with 2; change (inject_Z 1) with 1; lra. }
    rewrite Ef. change (Fin (inject_Z 0)) with (of_Z 0). change (Fin (inject_Z c)) with (of_Z c).
    rewrite Math_max_int. f_equal. lia.
  - (* away from a tie the two rounding errors cannot reach the boundary *)
    destruct (RN_range_int q 100 ltac:(lia) Q0 Q1) as (a & Ea & Ha0 & Ha1).
    assert (Q7 : q < pow2 7) by (rewrite pow2_7; change (inject_Z 100) with 100 in Q1; lra).
    destruct (RN_error q 7 a Q0 Q7 Ea) as [Ea1 Ea2]. rewrite pow2_m46 in Ea1, Ea2.
    rewrite Ea. unfold fsub, fneg, fadd, of_Z.
    assert (B0 : 0 <= inject_Z 100 + - a) by lra.
    assert (B1 : inject_Z 100 + - a <= inject_Z 100) by lra.
    destruct (RN_range_int _ 100 ltac:(lia) B0 B1) as (b & Eb & Hb0 & Hb1).
    assert (B7 : inject_Z 100 + - a < pow2 7).
    { rewrite pow2_7. change (inject_Z 100) with 100 in *. lra. }
    destruct (RN_error _ 7 b B0 B7 Eb) as [Eb1 Eb2]. rewrite pow2_m46 in Eb1, Eb2.
    rewrite Eb. unfold Math_round.
    assert (Ef : Qfloor (b + (1 # 2)) = c).
    { unfold c, round_half_up_div. apply floor_robust; try lia.
      - rewrite Hx. change (inject_Z 100) with 100 in *.
        change (1 # 2 ^ 46) with (1 # 70368744177664) in *.
        change (1 # 2 ^ 40) with (1 # 1099511627776). lra.
      - rewrite Hx. change (inject_Z 100) with 100 in *.
        change (1 # 2 ^ 46) with (1 # 70368744177664) in *.
        change (1 # 2 ^ 40) with (1 # 1099511627776). lra. }
    rewrite Ef. change (Fin (inject_Z 0)) with (of_Z 0). change (Fin (inject_Z c)) with (of_Z c).
    rewrite Math_max_int. f_equal. lia.
Qed.

Local Open Scope Z_scope.

Lemma round_half_up_div_range S n :
  0 < n -> 0 <= S <= 100 * n -> 0 <= round_half_up_div (100 * n - S) n <= 100.
Proof.
  intros Hn HS. unfold round_half_up_div. split.
  - apply Z.div_pos; lia.
  - apply Z.lt_succ_r. apply Z.div_lt_upper_bound; lia.
Qed.

(** [calculateCompleteness] over columns whose rates are integers between 0
    and 100: 100 minus the exact mean, rounded half up. *)
Lemma calculateCompleteness_closed stats :
  stats <> [] -> array_length_ok stats -> Forall rate_ok stats ->
  DataAnalyzer.calculateCompleteness stats
  = of_Z (round_half_up_div (100 * Z.of_nat (List.length stats) - sum_rates stats)
                            (Z.of_nat (List.length stats))).
Proof.
  intros Hne Hl Hf. unfold array_length_ok in Hl. unfold DataAnalyzer.calculateCompleteness.
  rewrite (sum_fold stats 0 Hf) by lia. cbn [Z.add].
  assert (0 < List.length stats)%nat by (destruct stats; [congruence | cbn; lia]).
  pose proof (sum_rates_bounds stats Hf).
  unfold of_nat. apply completeness_of_sum; lia.
Qed.

(** Rounding the complement half up: one more than the complement of the
    rounded value at a tie, the same away from one. *)
Lemma round_half_up_complement S n :
  0 < n ->
  round_half_up_div (100 * n - S) n
  = 100 - round_half_up_div S n
    + (if Z.eq_dec ((2 * S + n) mod (2 * n)) 0 then 1 else 0).
Proof.
  intros Hn. unfold round_half_up_div.
  pose proof (Z.div_mod (2 * S + n) (2 * n) ltac:(lia)) as E.
  pose proof (Z.mod_pos_bound (2 * S + n) (2 * n) ltac:(lia)) as B.
  set (q := (2 * S + n) / (2 * n)) in *. set (r := (2 * S + n) mod (2 * n)) in *.
  destruct (Z.eq_dec r 0) as [R0|R0].
  - symmetry. apply Z.div_unique with (r := 0); nia.
  - symmetry. apply Z.div_unique with (r := 2 * n - r); nia.
Qed.

Local Open Scope Q_scope.

(** [Math.max(0, 100 - Math.round(sum / n))] for an integer sum of rates:
    100 minus the exact mean rounded half up. *)
Lemma round_first_of_sum (S n : Z) :
  (0 < n < 2 ^ 32)%Z -> (0 <= S <= 100 * n)%Z ->
  Math_max (of_Z 0) (fsub (of_Z 100) (Math_round (fdiv (of_Z S) (of_Z n))))
  = of_Z (100 - round_half_up_div S n).
Proof.
  intros Hn HS.
  assert (Pn : 0 < inject_Z n) by (change 0 with (inject_Z 0); rewrite <- Zlt_Qlt; lia).
  assert (PS : 0 <= inject_Z S) by (change 0 with (inject_Z 0); rewrite <- Zle_Qle; lia).
  assert (BS : inject_Z S <= 100 * inject_Z n).
  { change 100 with (inject_Z 100). rewrite <- inject_Z_mult, <- Zle_Qle. lia. }
  set (q := inject_Z S / inject_Z n).
  assert (Q0 : 0 <= q) by (apply Qle_shift_div_l; lra).
  assert (Q1 : q <= inject_Z 100) by (apply Qle_shift_div_r; [lra | change (inject_Z 100) with 100; lra]).
  assert (Ediv : fdiv (of_Z S) (of_Z n) = RN q).
  { unfold fdiv, of_Z. rewrite Qeq_bool_false by lra. reflexivity. }
  rewrite Ediv.
  set (c := round_half_up_div S n).
  pose proof (half_up_as_fraction S n ltac:(lia)) as Hx. fold q in Hx.
  assert (Hc : (0 <= c <= 100)%Z).
  { unfold c, round_half_up_div. split.
    - apply Z.div_pos; lia.
    - apply Z.lt_succ_r. apply Z.div_lt_upper_bound; lia. }
  assert (Er : Math_round (RN q) = of_Z c).
  { destruct (Z.eq_dec ((2 * S + n) mod (2 * n)) 0) as [Tie|NoTie].
    - rewrite (div_mod_Q (2 * S + n) (2 * n)) in Hx by lia.
      rewrite Tie in Hx. fold (round_half_up_div S n) in Hx. fold c in Hx.
      assert (Hz : inject_Z 0 / inject_Z (2 * n) == 0).
      { unfold Qdiv. change (inject_Z 0) with 0. ring. }
      rewrite Hz in Hx.
      assert (Eq : q == inject_Z (2 * c - 1) * (1 # 2)).
      { unfold Z.sub. rewrite inject_Z_plus, inject_Z_opp, inject_Z_mult.
        change (inject_Z 1) with 1. change (inject_Z 2) with 2. lra. }
      assert (C1 : (1 <= c)%Z).
      { destruct (Z.eq_dec c 0) as [C0|]; [|lia]. exfalso.
        rewrite C0 in Hx. change (inject_Z 0) with 0 in Hx. lra. }
      rewrite (RN_comp _ _ Eq), half_integer_exact by lia.
      unfold Math_round, of_Z. do 2 f_equal.
      apply Qfloor_unique; rewrite Qred_correct; unfold Z.sub;
        rewrite inject_Z_plus, inject_Z_opp, inject_Z_mult;
        change (inject_Z 2) with 2; change (inject_Z 1) with 1; lra.
    - destruct (RN_range_int q 100 ltac:(lia) Q0 Q1) as (a & Ea & Ha0 & Ha1).
      assert (Q7 : q < pow2 7) by (rewrite pow2_7; change (inject_Z 100) with 100 in Q1; lra).
      destruct (RN_error q 7 a Q0 Q7 Ea) as [Ea1 Ea2]. rewrite pow2_m46 in Ea1, Ea2.
      rewrite Ea. unfold Math_round, of_Z. do 2 f_equal.
      unfold c, round_half_up_div. apply floor_robust; try lia.
      + rewrite Hx. change (1 # 2 ^ 46) with (1 # 70368744177664) in *.
        change (1 # 2 ^ 40) with (1 # 1099511627776). lra.
      + rewrite Hx. change (1 # 2 ^ 46) with (1 # 70368744177664) in *.
        change (1 # 2 ^ 40) with (1 # 1099511627776). lra. }
  rewrite Er, fsub_int by lia. rewrite Math_max_int. f_equal. lia.
Qed.

Local Open Scope Z_scope.

(** Completeness with the mean rounded first, over columns whose rates are
    integers between 0 and 100. *)
Lemma completeness_round_first_closed stats :
  stats <> [] -> array_length_ok stats -> Forall rate_ok stats ->
  completeness_round_first stats
  = of_Z (100 - round_half_up_div (sum_rates stats) (Z.of_nat (List.length stats))).
Proof.
  intros Hne Hl Hf. unfold array_length_ok in Hl. unfold completeness_round_first.
  rewrite (sum_fold stats 0 Hf) by lia. cbn [Z.add].
  assert (0 < List.length stats)%nat by (destruct stats; [congruence | cbn; lia]).
  pose proof (sum_rates_bounds stats Hf).
  unfold of_nat. apply round_first_of_sum; lia.
Qed.

End Completeness.

(* ------------------------------------------------------------------ *)
(** *** The Set of distinct values *)

Section SetFacts.


(** *** SameValueZero is an equivalence *)

Lemma same_refl x : JSNumber.same x x = true.
Proof. destruct x as [|[]|q]; simpl; auto. apply Qeq_bool_refl. Qed.

Lemma same_sym x y : JSNumber.same x y = JSNumber.same y x.
Proof.
  destruct x as [|[]|p], y as [|[]|q]; simpl; auto. apply Qeq_bool_comm.
Qed.

Lemma same_trans x y z :
  JSNumber.same x y = true -> JSNumber.same y z = true -> JSNumber.same x z = true.
Proof.
  destruct x as [|[]|p], y as [|[]|q], z as [|[]|r]; simpl; auto; try discriminate.
  apply Qeq_bool_trans.
Qed.

Lemma same_value_zero_refl v : same_value_zero v v = true.
Proof.
  destruct v as [| |b|x|s]; simpl; auto.
  - destruct b; reflexivity.
  - apply same_refl.
  - apply String.eqb_refl.
Qed.

Lemma same_value_zero_sym a b : same_value_zero a b = same_value_zero b a.
Proof.
  destruct a as [| |x|x|x], b as [| |y|y|y]; simpl; auto.
  - destruct x, y; reflexivity.
  - apply same_sym.
  - apply String.eqb_sym.
Qed.

Lemma same_value_zero_trans a b c :
  same_value_zero a b = true -> same_value_zero b c = true -> same_value_zero a c = true.
Proof.
  destruct a as [| |x|x|x], b as [| |y|y|y], c as [| |z|z|z]; simpl; auto; try discriminate.
  - destruct x, y, z; auto.
  - apply same_trans.
  - rewrite !String.eqb_eq. congruence.
Qed.

(** *** [new Set(values)] *)

Lemma pairwise_distinct_snoc l v :
  pairwise_distinct l -> existsb (same_value_zero v) l = false ->
  pairwise_distinct (l ++ [v]).
Proof.
  induction l as [|x r IH]; simpl; intros Hd Hv.
  - auto.
  - destruct Hd as [Hx Hr]. apply orb_false_elim in Hv as [Hvx Hvr]. split.
    + rewrite existsb_app, Hx. simpl. rewrite same_value_zero_sym, Hvx. reflexivity.
    + apply IH; assumption.
Qed.

Lemma existsb_same_trans v w l :
  same_value_zero v w = true ->
  existsb (same_value_zero w) l = true -> existsb (same_value_zero v) l = true.
Proof.
  intros Hvw. rewrite !existsb_exists. intros (x & Hx & Hs).
  exists x. split; [assumption|]. eapply same_value_zero_trans; eassumption.
Qed.

Lemma Set_add_cases seen x :
  (existsb (same_value_zero x) seen = true /\ Set_add seen x = seen) \/
  (existsb (same_value_zero x) seen = false /\ Set_add seen x = (seen ++ [x])%list).
Proof. unfold Set_add. destruct (existsb (same_value_zero x) seen); auto. Qed.

Lemma Set_fold_spec values seen :
  pairwise_distinct seen ->
  pairwise_distinct (fold_left Set_add values seen) /\
  (forall v, In v seen \/ In v values ->
             existsb (same_value_zero v) (fold_left Set_add values seen) = true) /\
  (forall r, In r (fold_left Set_add values seen) -> In r seen \/ In r values) /\
  (List.length (fold_left Set_add values seen)
   <= List.length seen + List.length values)%nat.
Proof.
  revert seen. induction values as [|x l IH]; intros seen Hd; cbn [fold_left].
  - repeat split; auto.
    + intros v [Hv|[]]. apply existsb_exists. exists v. split; [assumption|apply same_value_zero_refl].
    + cbn. lia.
  - assert (Hd' : pairwise_distinct (Set_add seen x)).
    { destruct (Set_add_cases seen x) as [[E ->]|[E ->]]; [assumption|].
      apply pairwise_distinct_snoc; assumption. }
    destruct (IH _ Hd') as (D & C & S & L). repeat split.
    + exact D.
    + intros v [Hv|[Hv|Hv]].
      * apply C. left. destruct (Set_add_cases seen x) as [[E ->]|[E ->]]; [assumption|].
        apply in_or_app. auto.
      * subst v. destruct (Set_add_cases seen x) as [[E Ea]|[E Ea]].
        -- apply existsb_exists in E as (y & Hy & Hxy).
           apply existsb_same_trans with y; [assumption|]. apply C. left. rewrite Ea. assumption.
        -- apply C. left. rewrite Ea. apply in_or_app. right. left. reflexivity.
      * apply C. auto.
    + intros r Hr. destruct (S r Hr) as [H|H]; [|right; right; assumption].
      destruct (Set_add_cases seen x) as [[E Ea]|[E Ea]]; rewrite Ea in H; [auto|].
      apply in_app_or in H as [H|[H|[]]]; [auto|]. right. left. assumption.
    + cbn [List.length].
      destruct (Set_add_cases seen x) as [[E Ea]|[E Ea]]; rewrite Ea in *; [lia|].
      rewrite length_app in L. cbn in L. lia.
Qed.

(** The elements of the Set are representatives of the distinct values. *)
Lemma Set_of_spec values :
  pairwise_distinct (Set_of values) /\
  (forall v, In v values -> existsb (same_value_zero v) (Set_of values) = true) /\
  (forall r, In r (Set_of values) -> In r values) /\
  (List.length (Set_of values) <= List.length values)%nat.
Proof.
  destruct (Set_fold_spec values [] I) as (D & C & S & L). unfold Set_of. repeat split.
  - exact D.
  - intros v Hv. apply C. auto.
  - intros r Hr. destruct (S r Hr) as [[]|H]. exact H.
  - exact L.
Qed.

(** Two lists of representatives of the same values have the same length:
    the count does not depend on which representatives are kept. *)
Lemma distinct_count_le (reps reps' : list raw) :
  pairwise_distinct reps ->
  (forall r, In r reps -> existsb (same_value_zero r) reps' = true) ->
  (List.length reps <= List.length reps')%nat.
Proof.
  revert reps'. induction reps as [|x r IH]; intros reps' Hd Hc; cbn [List.length]; [lia|].
  destruct Hd as [Hx Hr].
  assert (Hex : existsb (same_value_zero x) reps' = true) by (apply Hc; left; reflexivity).
  apply existsb_exists in Hex as (y & Hy & Hxy).
  destruct (in_split _ _ Hy) as (l1 & l2 & ->).
  rewrite length_app. cbn [List.length].
  assert (List.length r <= List.length (l1 ++ l2))%nat.
  { apply IH; [assumption|]. intros z Hz.
    assert (Hz' : existsb (same_value_zero z) (l1 ++ y :: l2) = true) by (apply Hc; right; assumption).
    rewrite existsb_app in *. cbn [existsb] in Hz'.
    destruct (same_value_zero z y) eqn:Ezy.
    - exfalso. assert (same_value_zero x z = true).
      { eapply same_value_zero_trans; [eassumption|]. rewrite same_value_zero_sym. assumption. }
      assert (existsb (same_value_zero x) r = true) by (apply existsb_exists; eauto).
      congruence.
    - simpl in Hz'. exact Hz'. }
  rewrite length_app in H. lia.
Qed.

End SetFacts.

(* ------------------------------------------------------------------ *)
(** *** Digit strings *)

Section DigitStrings.
Local Open Scope string_scope.

(** *** Digit strings *)

Lemma uint_digits d : forallb is_digit (chars (NilEmpty.string_of_uint d)) = true.
Proof. induction d; simpl; auto. Qed.

Lemma digits_of_N_digit_string n : digit_string (digits_of_N n).
Proof.
  unfold digits_of_N, NilZero.string_of_uint.
  destruct (N.to_uint n) eqn:E; split; try discriminate; try reflexivity;
    try (rewrite <- E; apply uint_digits);
    try (simpl; apply uint_digits).
Qed.

Lemma digits_of_nat_digit_string n : digit_string (digits_of_nat n).
Proof. apply digits_of_N_digit_string. Qed.

Lemma chars_app a b : chars (a ++ b) = (chars a ++ chars b)%list.
Proof. induction a; simpl; [reflexivity|]. unfold chars in *. simpl. f_equal. assumption. Qed.

(** *** Hyphens: what separates the type-mismatch issue from the others *)

Lemma has_hyphen_app a b : has_hyphen (a ++ b) = has_hyphen a || has_hyphen b.
Proof. unfold has_hyphen. rewrite chars_app, existsb_app. reflexivity. Qed.

Lemma digit_not_hyphen c : is_digit c = true -> Ascii.eqb "-" c = false.
Proof.
  intros H. destruct (Ascii.eqb_spec "-" c) as [<-|]; [discriminate H | reflexivity].
Qed.

Lemma digit_string_no_hyphen s : digit_string s -> has_hyphen s = false.
Proof.
  intros [_ H]. unfold has_hyphen. induction (chars s) as [|c l IH]; [reflexivity|].
  cbn [existsb forallb] in *. apply andb_prop in H as [Hc Hl]. rewrite digit_not_hyphen, IH; auto.
Qed.

Lemma prefix_cons a p s :
  prefix (String a p) s = true -> exists r, s = String a r /\ prefix p r = true.
Proof.
  destruct s as [|b r]; simpl; [discriminate|].
  destruct (ascii_dec a b) as [<-|]; [|discriminate]. eauto.
Qed.

Lemma includes_non_numeric_hyphen s :
  includes s "non-numeric" = true -> has_hyphen s = true.
Proof.
  induction s as [|c r IH]; cbn [includes].
  - simpl. discriminate.
  - intros H. apply orb_prop in H as [H|H].
    + apply prefix_cons in H as (r1 & E1 & H).
      apply prefix_cons in H as (r2 & E2 & H).
      apply prefix_cons in H as (r3 & E3 & H).
      apply prefix_cons in H as (r4 & E4 & H).
      injection E1 as -> ->. subst. reflexivity.
    + unfold has_hyphen in *. simpl. rewrite (IH H). apply orb_true_r.
Qed.

Lemma includes_app_r a b p : includes b p = true -> includes (a ++ b) p = true.
Proof.
  intros H. induction a as [|c a IH]; simpl; [assumption|].
  rewrite IH. apply orb_true_r.
Qed.

(** *** Number::toString on integers *)

Lemma pow2_53_minus_1 : (pow2 53 - 1 == inject_Z (2 ^ 53 - 1))%Q.
Proof. reflexivity. Qed.

Lemma number_to_string_nat (z : Z) :
  (0 <= z < 2 ^ 53)%Z -> number_to_string (of_Z z) = digits_of_N (Z.to_N z).
Proof.
  intros Hz. unfold number_to_string, of_Z.
  destruct (Qcompare_spec (inject_Z z) 0) as [E|L|G].
  - assert (z = 0)%Z by (unfold Qeq in E; simpl in E; lia). subst. reflexivity.
  - change 0%Q with (inject_Z 0) in L. rewrite <- Zlt_Qlt in L. lia.
  - unfold pos_to_string. rewrite Qfloor_Z, Qeq_bool_refl.
    assert (Qle_bool (inject_Z z) (pow2 53 - 1) = true) as ->.
    { apply Qle_bool_iff. rewrite pow2_53_minus_1, <- Zle_Qle. lia. }
    reflexivity.
Qed.

Lemma number_to_string_score x :
  is_score x -> digit_string (number_to_string x).
Proof.
  intros (z & -> & Hz). rewrite number_to_string_nat by lia. apply digits_of_N_digit_string.
Qed.

End DigitStrings.

(* ------------------------------------------------------------------ *)
(** *** parseFloat and white space *)

Section ParseFloatFacts.
Local Open Scope string_scope.

(** *** When [parseFloat] finds a number *)

Lemma span_digits_nil l : digit_first l = false -> span_digits l = ([], l).
Proof. destruct l as [|c r]; simpl; [reflexivity|]. intros ->. reflexivity. Qed.

Lemma span_digits_cons l :
  digit_first l = true -> exists c ds rest, span_digits l = (c :: ds, rest).
Proof.
  destruct l as [|c r]; simpl; [discriminate|]. intros ->.
  destruct (span_digits r) as [ds rest]. eauto.
Qed.

Lemma digit_not_dot c : is_digit c = true -> Ascii.eqb c "." = false.
Proof. intros H. destruct (Ascii.eqb_spec c "."%char) as [->|]; [discriminate H|reflexivity]. Qed.

Lemma scan_unsigned_none l : numeric_start l = false -> scan_unsigned l = None.
Proof.
  destruct l as [|c r]; [reflexivity|]. cbn [numeric_start]. intros H.
  apply orb_false_elim in H as [Hd Hdot]. unfold scan_unsigned.
  rewrite span_digits_nil by (simpl; exact Hd).
  destruct (Ascii.eqb c ".") eqn:E; [|reflexivity].
  simpl in Hdot. rewrite (span_digits_nil r Hdot). reflexivity.
Qed.

Lemma scan_unsigned_some l :
  numeric_start l = true -> exists q rest, scan_unsigned l = Some (q, rest).
Proof.
  destruct l as [|c r]; [discriminate|]. cbn [numeric_start]. intros H.
  unfold scan_unsigned. destruct (is_digit c) eqn:Hd.
  - destruct (span_digits_cons (c :: r) Hd) as (c' & ds & rest & ->).
    destruct rest as [|d rest'].
    + destruct (scan_exponent []) as [ex r3]. eauto.
    + destruct (Ascii.eqb d ".").
      * destruct (span_digits rest') as [f r'].
        destruct (scan_exponent r') as [ex r3]. destruct f; eauto.
      * destruct (scan_exponent (d :: rest')) as [ex r3]. eauto.
  - simpl in H. apply andb_prop in H as [Hdot Hr]. rewrite span_digits_nil by (simpl; exact Hd).
    rewrite Hdot. destruct (span_digits_cons r Hr) as (c' & ds & rest & ->).
    destruct (scan_exponent rest) as [ex r3]. eauto.
Qed.

Lemma RN_not_NaN q : isNaN (RN q) = false.
Proof.
  unfold RN. destruct (Qcompare q 0); try reflexivity.
  - destruct (Qle_bool (pow2 1024) (RN_pos (- q))); reflexivity.
  - destruct (Qle_bool (pow2 1024) (RN_pos q)); reflexivity.
Qed.

Lemma parseFloat_isNaN s :
  isNaN (parseFloat s)
  = negb (is_prefix Infinity_chars (float_body s) || numeric_start (float_body s)).
Proof.
  unfold parseFloat, float_body, chars.
  destruct (split_sign (trim_start (list_ascii_of_string s))) as [neg body]. cbn [snd].
  destruct (is_prefix Infinity_chars body); [reflexivity|]. cbn [orb].
  destruct (numeric_start body) eqn:N.
  - destruct (scan_unsigned_some body N) as (q & rest & ->). apply RN_not_NaN.
  - rewrite (scan_unsigned_none body N). reflexivity.
Qed.

(** *** White space *)

Lemma trim_start_split l :
  exists ws, l = (ws ++ trim_start l)%list /\ forallb is_space ws = true.
Proof.
  induction l as [|c r (ws & E & H)]; [exists []; auto|]. cbn [trim_start].
  destruct (is_space c) eqn:S.
  - exists (c :: ws). split; [cbn; f_equal; exact E | cbn; rewrite S; exact H].
  - exists []. auto.
Qed.

Lemma trim_start_head l :
  match trim_start l with c :: _ => is_space c = false | [] => True end.
Proof.
  induction l as [|c r IH]; cbn [trim_start]; [exact I|].
  destruct (is_space c) eqn:S; [exact IH | exact S].
Qed.

Lemma trim_start_nil_iff l : trim_start l = [] <-> forallb is_space l = true.
Proof.
  induction l as [|c r IH]; cbn [trim_start forallb]; [tauto|].
  destruct (is_space c); cbn [andb]; [exact IH|]. split; discriminate.
Qed.

(** [trimStart] leaves the trimmed text followed by the trailing white
    space. *)
Lemma trim_start_trim l :
  exists ws, trim_start l = (trim l ++ ws)%list /\ forallb is_space ws = true.
Proof.
  unfold trim. destruct (trim_start_split (rev (trim_start l))) as (ws & E & H).
  exists (rev ws). split.
  - rewrite <- (rev_involutive (trim_start l)) at 1. rewrite E at 1.
    rewrite rev_app_distr. reflexivity.
  - rewrite forallb_forall in *. intros x Hx. apply H. apply in_rev. exact Hx.
Qed.

Lemma trim_nil_iff l : trim l = [] <-> forallb is_space l = true.
Proof.
  split.
  - intros E. destruct (trim_start_trim l) as (ws & Ets & H). rewrite E in Ets. cbn in Ets.
    pose proof (trim_start_head l) as Hh. rewrite Ets in Hh.
    destruct ws as [|c ws'].
    + apply trim_start_nil_iff. exact Ets.
    + cbn in H. rewrite Hh in H. discriminate.
  - intros H. apply trim_start_nil_iff in H. unfold trim. rewrite H. reflexivity.
Qed.

End ParseFloatFacts.

(* ------------------------------------------------------------------ *)
(** *** The text of a Number *)

Section NumberText.
Local Open Scope string_scope.

(** *** The text of a Number starts with a digit, after its sign *)

Lemma chars_cons c r : chars (String c r) = c :: chars r.
Proof. reflexivity. Qed.

Lemma digit_string_first s : digit_string s -> digit_first (chars s) = true.
Proof.
  intros [Hne H]. destruct s as [|c r]; [congruence|].
  rewrite chars_cons in *. cbn in *. apply andb_prop in H as [H _]. exact H.
Qed.

Lemma shortest_digits_digit_string q k fuel :
  digit_string (fst (shortest_digits q k fuel)).
Proof.
  revert k. induction fuel as [|fuel IH]; intros k; cbn [shortest_digits].
  - cbn [fst]. apply digits_of_N_digit_string.
  - destruct (digits_at q k) as [r|] eqn:E; [|apply IH].
    unfold digits_at in E.
    set (lo := Qfloor (q / pow10 (ilog10 q + 1 - Z.of_nat k))) in *.
    assert (G : forall z,
               digit_string (fst (if (z =? 10 ^ Z.of_nat k)%Z
                                  then ("1", (ilog10 q + 2)%Z)
                                  else (digits_of_N (Z.to_N z), (ilog10 q + 1)%Z)))).
    { intros z. destruct (z =? 10 ^ Z.of_nat k)%Z; cbn [fst].
      - split; [discriminate | reflexivity].
      - apply digits_of_N_digit_string. }
    destruct (same (RN (inject_Z lo * pow10 (ilog10 q + 1 - Z.of_nat k))) (Fin q)),
             (same (RN (inject_Z (lo + 1) * pow10 (ilog10 q + 1 - Z.of_nat k))) (Fin q));
      try discriminate; injection E as <-; apply G.
Qed.

Lemma drop_zeros_suffix (l : list ascii) :
  exists zs, l = (zs ++ drop_zeros l)%list.
Proof.
  induction l as [|c r (zs & E)]; [exists []; reflexivity|]. cbn [drop_zeros].
  destruct (Ascii.eqb c "0") eqn:C.
  - exists (c :: zs). cbn [app]. f_equal. exact E.
  - exists []. reflexivity.
Qed.

Lemma chars_string_of_list l : chars (string_of_list_ascii l) = l.
Proof. apply list_ascii_of_string_of_list_ascii. Qed.

Lemma strip_prefix s :
  exists zs, chars s = (chars (strip_trailing_zeros s) ++ zs)%list.
Proof.
  unfold strip_trailing_zeros. fold (chars s). rewrite chars_string_of_list.
  destruct (drop_zeros_suffix (rev (chars s))) as (zs & E).
  exists (rev zs). rewrite <- (rev_involutive (chars s)) at 1. rewrite E at 1.
  rewrite rev_app_distr. reflexivity.
Qed.

Lemma digit_first_strip s :
  digit_first (chars s) = true ->
  digit_first (chars (if String.eqb (strip_trailing_zeros s) ""
                      then "0" else strip_trailing_zeros s)) = true.
Proof.
  intros H. destruct (String.eqb_spec (strip_trailing_zeros s) "") as [E|NE]; [reflexivity|].
  destruct (strip_prefix s) as (zs & Ez).
  destruct (strip_trailing_zeros s) as [|c r]; [congruence|].
  rewrite Ez in H. exact H.
Qed.

Lemma digit_first_app a b :
  digit_first (chars a) = true -> digit_first (chars (a ++ b)) = true.
Proof. destruct a; [discriminate|]. auto. Qed.

Lemma layout_digit_first ds n :
  digit_first (chars ds) = true -> digit_first (chars (layout ds n)) = true.
Proof.
  intros H. unfold layout.
  destruct ((Z.of_nat (String.length ds) <=? n)%Z && (n <=? 21)%Z).
  { apply digit_first_app. exact H. }
  destruct ((0 <? n)%Z && (n <=? 21)%Z) eqn:C.
  { apply andb_prop in C as [C _]. apply Z.ltb_lt in C.
    destruct (Z.to_nat n) as [|m] eqn:E; [lia|].
    destruct ds as [|c r]; [discriminate|]. exact H. }
  destruct ((-6 <? n)%Z && (n <=? 0)%Z).
  { reflexivity. }
  destruct ds as [|c [|c' r]]; [reflexivity| exact H | exact H].
Qed.

Lemma pos_to_string_digit_first q : digit_first (chars (pos_to_string q)) = true.
Proof.
  unfold pos_to_string.
  destruct (Qeq_bool q (inject_Z (Qfloor q)) && Qle_bool q (pow2 53 - 1)).
  - apply digit_string_first, digits_of_N_digit_string.
  - pose proof (shortest_digits_digit_string q 1 17) as D.
    destruct (shortest_digits q 1 17) as [ds n]. cbn [fst] in D.
    apply layout_digit_first, digit_first_strip, digit_string_first, D.
Qed.

Lemma digit_not_space c : is_digit c = true -> is_space c = false.
Proof.
  unfold is_digit, is_space. intros H. apply andb_prop in H as [H1 H2].
  apply N.leb_le in H1, H2.
  destruct (9 <=? code c)%N eqn:A, (code c <=? 13)%N eqn:B, (code c =? 32)%N eqn:C,
           (code c =? 160)%N eqn:D; try reflexivity;
    try apply N.leb_le in B; try apply N.eqb_eq in C; try apply N.eqb_eq in D; lia.
Qed.

Lemma digit_not_sign c :
  is_digit c = true -> Ascii.eqb c "-" = false /\ Ascii.eqb c "+" = false.
Proof.
  intros H. split.
  - destruct (Ascii.eqb_spec c "-"%char) as [->|]; [discriminate H|reflexivity].
  - destruct (Ascii.eqb_spec c "+"%char) as [->|]; [discriminate H|reflexivity].
Qed.

Lemma float_body_digit_first s :
  digit_first (chars s) = true -> float_body s = chars s.
Proof.
  unfold float_body. destruct (chars s) as [|c r]; [discriminate|]. cbn [digit_first].
  intros H. cbn [trim_start]. rewrite (digit_not_space c H). cbn [split_sign].
  destruct (digit_not_sign c H) as [-> ->]. reflexivity.
Qed.

Lemma parseFloat_digit_first s :
  digit_first (chars s) = true -> isNaN (parseFloat s) = false.
Proof.
  intros H. rewrite parseFloat_isNaN, float_body_digit_first by exact H.
  destruct (chars s) as [|c r]; [discriminate|]. cbn in H. cbn [numeric_start].
  rewrite H. rewrite orb_true_r. reflexivity.
Qed.

Lemma parseFloat_negative s :
  digit_first (chars s) = true -> isNaN (parseFloat ("-" ++ s)) = false.
Proof.
  intros H. rewrite parseFloat_isNaN. unfold float_body.
  change (chars ("-" ++ s)) with ("-"%char :: chars s).
  change (trim_start ("-"%char :: chars s)) with ("-"%char :: chars s).
  change (snd (split_sign ("-"%char :: chars s))) with (chars s).
  destruct (chars s) as [|c r]; [discriminate|]. cbn in H. cbn [numeric_start].
  rewrite H. rewrite orb_true_r. reflexivity.
Qed.

(** [parseFloat(String(x))] is NaN only for the Number NaN. *)
Lemma parseFloat_number x :
  isNaN (parseFloat (number_to_string x)) = isNaN x.
Proof.
  destruct x as [|[]|q]; try reflexivity. cbn [number_to_string isNaN].
  destruct (Qcompare q 0).
  - reflexivity.
  - apply parseFloat_negative, pos_to_string_digit_first.
  - apply parseFloat_digit_first, pos_to_string_digit_first.
Qed.

End NumberText.

(* ------------------------------------------------------------------ *)
(** *** Type mismatches by inferred type *)

Section TypeMismatch.
Local Open Scope string_scope.

(** *** Values [Number] accepts and [parseFloat] rejects *)

Lemma split_sign_app t ws :
  t <> [] ->
  split_sign (t ++ ws) = (fst (split_sign t), (snd (split_sign t) ++ ws)%list).
Proof.
  destruct t as [|c r]; [congruence|]. intros _. cbn [app split_sign].
  destruct (Ascii.eqb c "-"); [reflexivity|]. destruct (Ascii.eqb c "+"); reflexivity.
Qed.

Lemma numeric_start_app l ws : numeric_start l = true -> numeric_start (l ++ ws) = true.
Proof.
  destruct l as [|c r]; [discriminate|]. cbn [app numeric_start].
  destruct (is_digit c); [reflexivity|]. cbn [orb].
  destruct (Ascii.eqb c "."); [|discriminate]. cbn [andb].
  destruct r as [|d r']; [discriminate|]. auto.
Qed.

Lemma scan_radix_head t z :
  scan_radix t = Some (Some z) -> exists c r, t = "0"%char :: c :: r.
Proof.
  destruct t as [|z0 [|c r]]; try discriminate. cbn [scan_radix].
  destruct (Ascii.eqb_spec z0 "0"%char) as [->|]; [eauto|]. cbn [negb]. discriminate.
Qed.

Lemma isInteger_not_NaN x : isInteger x = true -> isNaN x = false.
Proof. destruct x; [discriminate|reflexivity|reflexivity]. Qed.

(** A non-empty string that [Number] turns into an integer: [parseFloat]
    fails on it exactly when it is blank. *)
Lemma integer_string_mismatch s :
  isInteger (string_to_number s) = true ->
  isNaN (parseFloat s) = forallb is_space (chars s).
Proof.
  intros Hint. rewrite parseFloat_isNaN. unfold float_body.
  destruct (trim (chars s)) as [|c0 t'] eqn:Et.
  - (* blank *)
    pose proof (proj1 (trim_nil_iff (chars s)) Et) as Hb. rewrite Hb.
    apply trim_start_nil_iff in Hb. rewrite Hb. reflexivity.
  - assert (Hnb : forallb is_space (chars s) = false).
    { destruct (forallb is_space (chars s)) eqn:B; [|reflexivity].
      apply trim_nil_iff in B. congruence. }
    rewrite Hnb. destruct (trim_start_trim (chars s)) as (ws & Ets & Hws).
    rewrite Ets, Et. rewrite split_sign_app by discriminate. cbn [snd].
    unfold string_to_number in Hint. fold (chars s) in Hint. rewrite Et in Hint.
    destruct (scan_radix (c0 :: t')) as [[z|]|] eqn:R.
    + destruct (scan_radix_head _ _ R) as (c & r & E). rewrite E.
      cbn [split_sign snd app numeric_start]. rewrite orb_true_r. reflexivity.
    + discriminate Hint.
    + destruct (split_sign (c0 :: t')) as [neg body]. cbn [snd].
      destruct (list_eq_dec ascii_dec body Infinity_chars) as [->|]; [discriminate Hint|].
      destruct (numeric_start body) eqn:N.
      * rewrite (numeric_start_app body ws N). rewrite orb_true_r. reflexivity.
      * rewrite (scan_unsigned_none body N) in Hint. discriminate Hint.
Qed.

Lemma parseFloat_true : isNaN (parseFloat "true") = true.
Proof. reflexivity. Qed.

Lemma parseFloat_false : isNaN (parseFloat "false") = true.
Proof. reflexivity. Qed.

Lemma integer_like_mismatch v :
  non_missing v = true -> isInteger (Number_ v) = true ->
  isNaN (parseFloat (String_ v)) = boolean_or_blank v.
Proof.
  destruct v as [| |[]|x|s]; try discriminate; intros _ Hint; cbn [String_ boolean_or_blank].
  - apply parseFloat_true.
  - apply parseFloat_false.
  - rewrite parseFloat_number. apply isInteger_not_NaN. exact Hint.
  - apply integer_string_mismatch. exact Hint.
Qed.

(** *** The type-mismatch count by inferred type *)

Lemma filter_ext_in' {A} (f g : A -> bool) l :
  (forall x, In x l -> f x = g x) -> filter f l = filter g l.
Proof. apply filter_ext_in. Qed.

Lemma forallb_filter_in {A} (p f : A -> bool) l x :
  forallb f (filter p l) = true -> In x l -> p x = true -> f x = true.
Proof.
  intros H Hx Hp. rewrite forallb_forall in H. apply H. apply filter_In. auto.
Qed.

Section Inference.
Variable Date_parse : string -> number.

Lemma inferDataType_Float values :
  DataAnalyzer.inferDataType Date_parse values = Float ->
  forallb DataAnalyzer.is_float_like (filter non_missing values) = true.
Proof.
  unfold DataAnalyzer.inferDataType.
  destruct (List.length (filter non_missing values) =? 0)%nat; [discriminate|].
  destruct (forallb DataAnalyzer.is_boolean_like _); [discriminate|].
  destruct (forallb (DataAnalyzer.is_date_like Date_parse) _); [discriminate|].
  destruct (forallb DataAnalyzer.is_integer_like _); [discriminate|].
  destruct (forallb DataAnalyzer.is_float_like _); [reflexivity|discriminate].
Qed.

Lemma inferDataType_Integer values :
  DataAnalyzer.inferDataType Date_parse values = Integer ->
  forallb DataAnalyzer.is_integer_like (filter non_missing values) = true.
Proof.
  unfold DataAnalyzer.inferDataType.
  destruct (List.length (filter non_missing values) =? 0)%nat; [discriminate|].
  destruct (forallb DataAnalyzer.is_boolean_like _); [discriminate|].
  destruct (forallb (DataAnalyzer.is_date_like Date_parse) _); [discriminate|].
  destruct (forallb DataAnalyzer.is_integer_like _); [reflexivity|].
  destruct (forallb DataAnalyzer.is_float_like _); discriminate.
Qed.

Lemma typeMismatches_Float values :
  DataAnalyzer.inferDataType Date_parse values = Float ->
  DataAnalyzer.typeMismatches values = 0%nat.
Proof.
  intros H. apply inferDataType_Float in H. unfold DataAnalyzer.typeMismatches.
  assert (E : filter (fun v => non_missing v && isNaN (parseFloat (String_ v))) values
              = filter (fun _ => false) values).
  { apply filter_ext_in. intros v Hv. destruct (non_missing v) eqn:M; [|reflexivity].
    cbn [andb]. pose proof (forallb_filter_in _ _ _ v H Hv M) as F.
    unfold DataAnalyzer.is_float_like in F. apply negb_true_iff in F. exact F. }
  rewrite E. clear. induction values; auto.
Qed.

Lemma typeMismatches_Integer values :
  DataAnalyzer.inferDataType Date_parse values = Integer ->
  DataAnalyzer.typeMismatches values
  = List.length (filter (fun v => non_missing v && boolean_or_blank v) values).
Proof.
  intros H. apply inferDataType_Integer in H. unfold DataAnalyzer.typeMismatches.
  f_equal. apply filter_ext_in. intros v Hv.
  destruct (non_missing v) eqn:M; [|reflexivity]. cbn [andb].
  apply integer_like_mismatch; [exact M|].
  exact (forallb_filter_in _ _ _ v H Hv M).
Qed.

End Inference.

End TypeMismatch.

(* ------------------------------------------------------------------ *)
(** *** Columns *)

Section ColumnFacts.
Local Open Scope string_scope.

(** *** The columns [analyzeColumn] builds *)

(** The issues array is the concatenation of the three optional entries. *)
Lemma detectIssues_shape columnName values dataType :
  DataAnalyzer.detectIssues columnName values dataType
  = ((if (0 <? List.length (filter is_missing values))%nat
      then [missing_issue values] else [])
     ++ (if is_numeric_type dataType && (0 <? DataAnalyzer.typeMismatches values)%nat
         then [mismatch_issue values] else [])
     ++ (if JSNumber.ltb (of_Z 0) (duplicateCount values)
         then [duplicate_issue values] else []))%list.
Proof.
  unfold DataAnalyzer.detectIssues, push, is_numeric_type.
  fold (duplicateCount values). fold (missing_issue values).
  fold (mismatch_issue values). fold (duplicate_issue values).
  destruct (0 <? List.length (filter is_missing values))%nat;
    destruct (DataType_eqb dataType Integer || DataType_eqb dataType Float);
    destruct (0 <? DataAnalyzer.typeMismatches values)%nat;
    destruct (JSNumber.ltb (of_Z 0) (duplicateCount values)); reflexivity.
Qed.

Lemma missing_le values :
  (List.length (filter is_missing values) <= List.length values)%nat.
Proof. apply filter_length_le. Qed.

Lemma unique_le values :
  (List.length (Set_of (filter non_missing values)) <= List.length values)%nat.
Proof.
  destruct (Set_of_spec (filter non_missing values)) as (_ & _ & _ & L).
  pose proof (filter_length_le non_missing values). lia.
Qed.

Lemma missing_complement v : is_missing v = negb (non_missing v).
Proof. destruct v as [| | | |s]; try reflexivity. cbn. destruct (String.eqb s ""); reflexivity. Qed.

Lemma missing_plus_present values :
  (List.length (filter is_missing values) + List.length (filter non_missing values)
   = List.length values)%nat.
Proof.
  induction values as [|v l IH]; [reflexivity|]. cbn [filter].
  rewrite missing_complement. destruct (non_missing v); cbn [negb List.length]; lia.
Qed.

Lemma unique_le_present values :
  (List.length (Set_of (filter non_missing values)) <= List.length (filter non_missing values))%nat.
Proof. destruct (Set_of_spec (filter non_missing values)) as (_ & _ & _ & L). exact L. Qed.

Lemma duplicateCount_int values :
  array_length_ok values ->
  duplicateCount values
  = of_Z (Z.of_nat (List.length (filter non_missing values))
          - Z.of_nat (List.length (Set_of (filter non_missing values)))).
Proof.
  unfold array_length_ok. intros Hl. unfold duplicateCount, of_nat.
  pose proof (missing_plus_present values). pose proof (unique_le_present values).
  rewrite !fsub_int by lia. f_equal. lia.
Qed.

Lemma no_hyphen_not_non_numeric s :
  has_hyphen s = false -> includes s "non-numeric" = false.
Proof.
  intros H. destruct (includes s "non-numeric") eqn:E; [|reflexivity].
  apply includes_non_numeric_hyphen in E. congruence.
Qed.

Lemma missing_issue_plain values :
  values <> [] -> includes (missing_issue values) "non-numeric" = false.
Proof.
  intros Hne. apply no_hyphen_not_non_numeric. unfold missing_issue.
  rewrite !has_hyphen_app.
  rewrite (digit_string_no_hyphen _ (digits_of_nat_digit_string _)).
  rewrite (digit_string_no_hyphen (number_to_string _)).
  - reflexivity.
  - apply number_to_string_score. apply percentage_range; [apply missing_le|].
    destruct values; [congruence | cbn; lia].
Qed.

Lemma duplicate_issue_plain values :
  array_length_ok values ->
  JSNumber.ltb (of_Z 0) (duplicateCount values) = true ->
  includes (duplicate_issue values) "non-numeric" = false.
Proof.
  intros Hl Hpos. apply no_hyphen_not_non_numeric. unfold duplicate_issue.
  rewrite has_hyphen_app. rewrite duplicateCount_int in * by assumption.
  rewrite ltb_int in Hpos. apply Z.ltb_lt in Hpos.
  unfold array_length_ok in Hl. pose proof (filter_length_le non_missing values).
  rewrite number_to_string_nat by lia.
  rewrite (digit_string_no_hyphen _ (digits_of_N_digit_string _)). reflexivity.
Qed.

Lemma mismatch_issue_marked values :
  includes (mismatch_issue values) "non-numeric" = true.
Proof. unfold mismatch_issue. apply includes_app_r. reflexivity. Qed.

Section Columns.
Variable Date_parse : string -> number.

Lemma analyzeColumn_non_numeric name values :
  values <> [] -> array_length_ok values ->
  non_numeric_issues (DataAnalyzer.analyzeColumn Date_parse name values)
  = (if has_mismatch Date_parse values then 1 else 0)%Z.
Proof.
  intros Hne Hl. unfold non_numeric_issues, count, DataAnalyzer.analyzeColumn.
  cbn [ColumnStats.issues]. rewrite detectIssues_shape, !filter_app. fold (has_mismatch Date_parse values).
  assert (A : filter (fun i => includes i "non-numeric")
                (if (0 <? List.length (filter is_missing values))%nat
                 then [missing_issue values] else []) = []).
  { destruct (0 <? List.length (filter is_missing values))%nat; [|reflexivity].
    cbn [filter]. rewrite missing_issue_plain by assumption. reflexivity. }
  assert (C : filter (fun i => includes i "non-numeric")
                (if JSNumber.ltb (of_Z 0) (duplicateCount values)
                 then [duplicate_issue values] else []) = []).
  { destruct (JSNumber.ltb (of_Z 0) (duplicateCount values)) eqn:E; [|reflexivity].
    cbn [filter]. rewrite duplicate_issue_plain by assumption. reflexivity. }
  rewrite A, C. destruct (has_mismatch Date_parse values); [|reflexivity].
  cbn [filter app]. rewrite mismatch_issue_marked. reflexivity.
Qed.

Lemma analyzeColumn_few_issues name values :
  few_issues (DataAnalyzer.analyzeColumn Date_parse name values).
Proof.
  unfold few_issues, DataAnalyzer.analyzeColumn. cbn [ColumnStats.issues].
  rewrite detectIssues_shape, !length_app.
  destruct (0 <? List.length (filter is_missing values))%nat;
    destruct (is_numeric_type _ && _);
    destruct (JSNumber.ltb (of_Z 0) (duplicateCount values)); cbn; lia.
Qed.

Lemma analyzeColumn_rate_ok name values :
  values <> [] -> rate_ok (DataAnalyzer.analyzeColumn Date_parse name values).
Proof.
  intros Hne. unfold rate_ok, DataAnalyzer.analyzeColumn. cbn [ColumnStats.nullPercentage].
  apply percentage_range; [apply missing_le|]. destruct values; [congruence | cbn; lia].
Qed.

Lemma analyzeColumn_unique_ok name values :
  values <> [] ->
  is_score (ColumnStats.uniquePercentage (DataAnalyzer.analyzeColumn Date_parse name values)).
Proof.
  intros Hne. unfold DataAnalyzer.analyzeColumn. cbn [ColumnStats.uniquePercentage].
  apply percentage_range; [apply unique_le|]. destruct values; [congruence | cbn; lia].
Qed.

End Columns.

End ColumnFacts.

(* ------------------------------------------------------------------ *)
(** *** Datasets *)

Section DatasetFacts.
Local Open Scope string_scope.

(** *** The overall score *)

Lemma quarter_exact (T : Z) :
  (0 <= T <= 400)%Z ->
  fdiv (of_Z T) (of_Z 4) = Fin (Qred (inject_Z T / 4)).
Proof.
  intros HT. unfold fdiv, of_Z. change (Qeq_bool (inject_Z 4) 0) with false. cbv iota.
  change (inject_Z 4) with 4%Q.
  destruct (Z.eq_dec T 0) as [->|NZ]; [reflexivity|].
  assert (P : (0 < inject_Z T)%Q) by (change 0%Q with (inject_Z 0); rewrite <- Zlt_Qlt; lia).
  assert (B : (inject_Z T <= 400)%Q) by (change 400%Q with (inject_Z 400); rewrite <- Zle_Qle; lia).
  assert (L : (inject_Z T / 4 < pow2 7)%Q).
  { change (pow2 7) with 128%Q. apply Qlt_shift_div_r; lra. }
  assert (P4 : (0 < inject_Z T / 4)%Q) by (apply Qlt_shift_div_l; lra).
  apply RN_exact_pos with (j := (-2)%Z).
  - exact P4.
  - exists T. change (pow2 (-2)) with (1 # 4)%Q. unfold Qdiv. reflexivity.
  - pose proof (ulp_exp_le _ 7 P4 L). lia.
  - apply Qlt_trans with (pow2 7); [exact L | apply pow2_lt; lia].
Qed.

Lemma overall_of_sum (T : Z) :
  (0 <= T <= 400)%Z ->
  Math_round (fdiv (of_Z T) (of_Z 4)) = of_Z (round_half_up_div T 4).
Proof.
  intros HT. rewrite quarter_exact by assumption. unfold Math_round, of_Z, round_half_up_div.
  do 2 f_equal. change (2 * 4)%Z with 8%Z. rewrite Zdiv_Qdiv. apply Qfloor_comp.
  rewrite Qred_correct, inject_Z_plus, inject_Z_mult.
  change (inject_Z 2) with 2%Q. change (inject_Z 4) with 4%Q. change (inject_Z 8) with 8%Q.
  field.
Qed.

Lemma overall_of_scores c s a v :
  is_score c -> is_score s -> is_score a -> is_score v ->
  Math_round (fdiv (fadd (fadd (fadd c s) a) v) (of_Z 4))
  = of_Z (round_half_up_div (to_Z c + to_Z s + to_Z a + to_Z v) 4).
Proof.
  intros (zc & -> & Hc) (zs & -> & Hs) (za & -> & Ha) (zv & -> & Hv).
  rewrite !to_Z_of_Z. rewrite !fadd_int by lia. apply overall_of_sum. lia.
Qed.

Lemma round_half_up_div_4_range T :
  (0 <= T <= 400)%Z -> (0 <= round_half_up_div T 4 <= 100)%Z.
Proof.
  intros HT. unfold round_half_up_div. split.
  - apply Z.div_pos; lia.
  - apply Z.lt_succ_r. apply Z.div_lt_upper_bound; lia.
Qed.

(** *** The columns of a dataset *)

Section Dataset.
Variable Date_parse : string -> number.

Lemma analyzeData_columns data fileName r :
  DataAnalyzer.analyzeData Date_parse data fileName = Return r ->
  DataAnalysisResult.columns r = dataset_columns Date_parse data /\
  DataAnalysisResult.completeness r = DataAnalyzer.calculateCompleteness (dataset_columns Date_parse data) /\
  DataAnalysisResult.consistency r = DataAnalyzer.calculateConsistency (dataset_columns Date_parse data) /\
  DataAnalysisResult.accuracy r = DataAnalyzer.calculateAccuracy (dataset_columns Date_parse data) /\
  DataAnalysisResult.validity r = DataAnalyzer.calculateValidity (dataset_columns Date_parse data) /\
  DataAnalysisResult.overallScore r
  = Math_round (fdiv (fadd (fadd (fadd (DataAnalysisResult.completeness r)
                                        (DataAnalysisResult.consistency r))
                                  (DataAnalysisResult.accuracy r))
                            (DataAnalysisResult.validity r))
                      (of_Z 4)).
Proof.
  destruct data as [|first rest]; [discriminate|].
  unfold DataAnalyzer.analyzeData. intros [= <-]. cbn. repeat split; reflexivity.
Qed.

Lemma analyzeData_returns first rest fileName :
  exists r, DataAnalyzer.analyzeData Date_parse (first :: rest) fileName = Return r.
Proof. unfold DataAnalyzer.analyzeData. eauto. Qed.

Lemma column_values_length data colName :
  List.length (column_values data colName) = List.length data.
Proof. apply length_map. Qed.

Lemma dataset_columns_length first rest :
  List.length (dataset_columns Date_parse (first :: rest)) = List.length (Object_keys first).
Proof. apply length_map. Qed.

Lemma dataset_columns_Forall (P : ColumnStats.t -> Prop) data :
  (forall name values, values <> [] -> List.length values = List.length data ->
                       P (DataAnalyzer.analyzeColumn Date_parse name values)) ->
  Forall P (dataset_columns Date_parse data).
Proof.
  intros H. destruct data as [|first rest]; [constructor|]. unfold dataset_columns.
  apply Forall_map. apply Forall_forall. intros name _. apply H.
  - discriminate.
  - apply column_values_length.
Qed.

Lemma dataset_rate_ok data : Forall rate_ok (dataset_columns Date_parse data).
Proof. apply dataset_columns_Forall. intros. apply analyzeColumn_rate_ok. assumption. Qed.

Lemma dataset_few_issues data : Forall few_issues (dataset_columns Date_parse data).
Proof. apply dataset_columns_Forall. intros. apply analyzeColumn_few_issues. Qed.

(** Every quality score of a dataset with at least one row and one column
    is an integer between 0 and 100. *)
Lemma dataset_scores first rest :
  Object_keys first <> [] -> array_length_ok (Object_keys first) ->
  let stats := dataset_columns Date_parse (first :: rest) in
  is_score (DataAnalyzer.calculateCompleteness stats) /\
  is_score (DataAnalyzer.calculateConsistency stats) /\
  is_score (DataAnalyzer.calculateAccuracy stats) /\
  is_score (DataAnalyzer.calculateValidity stats).
Proof.
  intros Hne Hl stats.
  assert (Hlen : List.length stats = List.length (Object_keys first)) by apply dataset_columns_length.
  assert (Hok : array_length_ok stats) by (unfold array_length_ok in *; rewrite Hlen; exact Hl).
  assert (Hne' : stats <> []).
  { intros E. rewrite E in Hlen. destruct (Object_keys first); [congruence|discriminate]. }
  pose proof (dataset_rate_ok (first :: rest)) as Hr. fold stats in Hr.
  pose proof (dataset_few_issues (first :: rest)) as Hf. fold stats in Hf.
  repeat split.
  - rewrite calculateCompleteness_closed by assumption. eexists. split; [reflexivity|].
    apply round_half_up_div_range.
    + destruct stats; [congruence | cbn; lia].
    + apply sum_rates_bounds. assumption.
  - rewrite calculateConsistency_closed by assumption. eexists. split; [reflexivity|].
    pose proof (count_bounds is_text stats). pose proof (count_bounds has_issues stats). lia.
  - rewrite calculateAccuracy_closed by assumption. eexists. split; [reflexivity|].
    pose proof (total_non_numeric_bounds stats Hf). lia.
  - rewrite calculateValidity_closed by assumption. eexists. split; [reflexivity|].
    pose proof (count_bounds low_unique_text stats). lia.
Qed.

End Dataset.

End DatasetFacts.

(* ------------------------------------------------------------------ *)
(** *** Per-record recommendations *)

Section PerRecord.
Local Open Scope string_scope.

(* ================================================================== *)
(** ** Per-record recommendations *)
(* ================================================================== *)

Lemma scan_fields_fold idName row keys affected issues :
  fold_left (AIAnalyzer.scan_field idName row) keys (affected, issues)
  = ((affected
      ++ filter (fun colName => negb (String.eqb colName idName)
                                && AIAnalyzer.is_missing_marker (get row colName)) keys)%list,
     (issues
      ++ map (fun colName => ("Missing " ++ colName)%string)
             (filter (fun colName => negb (String.eqb colName idName)
                                     && AIAnalyzer.is_missing_marker (get row colName)) keys))%list).
Proof.
  revert affected issues. induction keys as [|k keys IH]; intros affected issues.
  - cbn. rewrite !app_nil_r. reflexivity.
  - cbn [fold_left filter]. unfold AIAnalyzer.scan_field at 2.
    destruct (String.eqb k idName); cbn [negb andb].
    + apply IH.
    + destruct (AIAnalyzer.is_missing_marker (get row k)).
      * rewrite IH. unfold push. cbn [map]. rewrite <- !app_assoc. reflexivity.
      * apply IH.
Qed.

Lemma scan_row_spec idName userIssues row :
  AIAnalyzer.scan_row idName userIssues row = (userIssues ++ per_record idName row)%list.
Proof.
  unfold AIAnalyzer.scan_row. rewrite scan_fields_fold. cbn [app].
  unfold per_record. fold (missing_fields idName row).
  destruct (missing_fields idName row) as [|m ms] eqn:E.
  - cbn. rewrite app_nil_r. reflexivity.
  - rewrite length_map. cbn [List.length Nat.ltb Nat.leb]. unfold push. f_equal.
Qed.

Lemma scan_rows_fold idName rows userIssues :
  fold_left (AIAnalyzer.scan_row idName) rows userIssues
  = (userIssues ++ flat_map (per_record idName) rows)%list.
Proof.
  revert userIssues. induction rows as [|row rows IH]; intros userIssues.
  - cbn. rewrite app_nil_r. reflexivity.
  - cbn [fold_left flat_map]. rewrite IH, scan_row_spec, app_assoc. reflexivity.
Qed.

(** C5. The per-record extraction looks for the first column whose name is
    "id" or ends in "_id" (case-insensitively).  Without one it emits
    nothing.  With one it emits, in preview order, exactly one
    recommendation for each preview record that has a missing marker in a
    field other than that column — High for two or more missing fields,
    Medium for exactly one, carrying the record's id value and the missing
    fields — and nothing for the other records. *)
Theorem extractUserSpecificIssues_spec (analysis : DataAnalysisResult.t) :
  AIAnalyzer.extractUserSpecificIssues analysis
  = match find AIAnalyzer.is_id_column (DataAnalysisResult.columns analysis) with
    | None => []
    | Some idColumn =>
        flat_map (per_record (ColumnStats.name idColumn))
                 (DataAnalysisResult.dataPreview analysis)
    end.
Proof.
  unfold AIAnalyzer.extractUserSpecificIssues.
  destruct (find AIAnalyzer.is_id_column (DataAnalysisResult.columns analysis)) as [idColumn|];
    [|reflexivity].
  destruct (DataAnalysisResult.dataPreview analysis) as [|row rows] eqn:E.
  - reflexivity.
  - cbn [List.length Nat.eqb]. rewrite scan_rows_fold. reflexivity.
Qed.

End PerRecord.

(* ------------------------------------------------------------------ *)
(** *** Type inference and the emptiness guard *)

Section InferenceAndGuards.
Local Open Scope string_scope.

(** Scenario C: the record with an empty email yields one Medium
    recommendation naming email. *)
Lemma scenario_C_recommendation :
  map UserIssue.insight (AIAnalyzer.extractUserSpecificIssues scenario_C_analysis)
  = [ {| AIInsight.priority := Medium;
         AIInsight.issue := "ID 4: Missing email";
         AIInsight.suggestion := "Add/update the missing fields (email) for user ID 4";
         AIInsight.sqlFix := None;
         AIInsight.userId := Some (VNum (of_Z 4));
         AIInsight.affectedColumns := Some ["email"] |} ].
Proof.
  rewrite (extractUserSpecificIssues_spec scenario_C_analysis). vm_compute. reflexivity.
Defined.

(* ================================================================== *)
(** ** Type inference *)
(* ================================================================== *)

Section InferenceSpec.
Variable Date_parse : string -> number.

Lemma inferDataType_refines values :
  DataAnalyzer.inferDataType Date_parse values = infer_spec Date_parse values.
Proof.
  unfold DataAnalyzer.inferDataType, infer_spec.
  destruct (filter non_missing values) as [|v l]; [reflexivity|].
  cbn [List.length Nat.eqb find priority_order].
  change (forallb (holds_for Date_parse Boolean)) with (forallb DataAnalyzer.is_boolean_like).
  change (forallb (holds_for Date_parse Date)) with (forallb (DataAnalyzer.is_date_like Date_parse)).
  change (forallb (holds_for Date_parse Integer)) with (forallb DataAnalyzer.is_integer_like).
  change (forallb (holds_for Date_parse Float)) with (forallb DataAnalyzer.is_float_like).
  destruct (forallb DataAnalyzer.is_boolean_like (v :: l)); [reflexivity|].
  destruct (forallb (DataAnalyzer.is_date_like Date_parse) (v :: l)); [reflexivity|].
  destruct (forallb DataAnalyzer.is_integer_like (v :: l)); [reflexivity|].
  destruct (forallb DataAnalyzer.is_float_like (v :: l)); [reflexivity|].
  destruct (forallb (holds_for Date_parse Text) (v :: l)); reflexivity.
Qed.

End InferenceSpec.

(** C6. Type inference drops the missing values, answers [text] when none
    remain, and otherwise answers the first of boolean, date, integer,
    float, text whose predicate holds for every remaining value.  So a
    sequence with no non-missing value is [text], and one whose non-missing
    values (at least one) all read as true/false/yes/no/1/0 is [boolean],
    the all-0/1 number column included. *)
Theorem inferDataType_priority (Date_parse : string -> number) (values : list raw) :
  DataAnalyzer.inferDataType Date_parse values = infer_spec Date_parse values
  /\ (filter non_missing values = [] ->
      DataAnalyzer.inferDataType Date_parse values = Text)
  /\ (filter non_missing values <> [] ->
      forallb DataAnalyzer.is_boolean_like (filter non_missing values) = true ->
      DataAnalyzer.inferDataType Date_parse values = Boolean)
  /\ DataAnalyzer.inferDataType Date_parse zero_one_column = Boolean.
Proof.
  split; [apply inferDataType_refines|]. split; [|split].
  - intros E. unfold DataAnalyzer.inferDataType. rewrite E. reflexivity.
  - intros NE B. unfold DataAnalyzer.inferDataType. rewrite B.
    destruct (filter non_missing values); [congruence|reflexivity].
  - reflexivity.
Qed.

(** Mixed spellings of the boolean tokens, with a null among them. *)
Lemma inferDataType_priority_witness :
  DataAnalyzer.inferDataType IsoHost.Date_parse [VStr "Yes"; VNull; VBool false; VStr "1"]
  = Boolean.
Proof.
  destruct (inferDataType_priority IsoHost.Date_parse
              [VStr "Yes"; VNull; VBool false; VStr "1"]) as (_ & _ & H & _).
  apply H; [discriminate | reflexivity].
Defined.

Lemma filter_idem {A} (f : A -> bool) l : filter f (filter f l) = filter f l.
Proof.
  induction l as [|x l IH]; [reflexivity|]. cbn [filter].
  destruct (f x) eqn:E; [|exact IH]. cbn [filter]. rewrite E, IH. reflexivity.
Qed.

(** C9. Inference on the non-missing values of a sequence gives the type
    inferred for the sequence itself. *)
Theorem inferDataType_idempotent (Date_parse : string -> number) (values : list raw) :
  DataAnalyzer.inferDataType Date_parse (filter non_missing values)
  = DataAnalyzer.inferDataType Date_parse values.
Proof.
  unfold DataAnalyzer.inferDataType. rewrite filter_idem. reflexivity.
Qed.

(* ================================================================== *)
(** ** The empty dataset *)
(* ================================================================== *)

(** C3. On the empty row sequence [analyzeData] throws the empty-dataset
    error (a thrown error carries no result), and it throws for no other
    input. *)
Theorem analyzeData_throws_iff_empty
        (Date_parse : string -> number) (data : list record) (fileName : string) :
  (data = [] ->
   DataAnalyzer.analyzeData Date_parse data fileName = Throw DataAnalyzer.EmptyDataset)
  /\ (throws (DataAnalyzer.analyzeData Date_parse data fileName) <-> data = []).
Proof.
  destruct data as [|first rest]; cbn [DataAnalyzer.analyzeData throws].
  - split; [reflexivity | tauto].
  - split; [discriminate|]. split; [tauto | discriminate].
Qed.

(** C10. When the first record of a non-empty row sequence has no keys,
    [analyzeData] returns: the result has no columns, and its completeness
    and overall score are NaN, not integers between 0 and 100. *)
Theorem analyzeData_keyless_first_record
        (Date_parse : string -> number) (first : record) (rest : list record)
        (fileName : string) :
  Object_keys first = [] ->
  exists r,
    DataAnalyzer.analyzeData Date_parse (first :: rest) fileName = Return r
    /\ DataAnalysisResult.totalColumns r = 0%nat
    /\ DataAnalysisResult.columns r = []
    /\ DataAnalysisResult.completeness r = NaN
    /\ DataAnalysisResult.overallScore r = NaN
    /\ ~ is_score (DataAnalysisResult.completeness r)
    /\ ~ is_score (DataAnalysisResult.overallScore r).
Proof.
  intros E. eexists. split; [reflexivity|]. cbn. rewrite E. cbn.
  repeat split; try reflexivity; intros (z & H & _); discriminate H.
Qed.

(** Two records without keys. *)
Lemma analyzeData_keyless_first_record_witness :
  exists r,
    DataAnalyzer.analyzeData IsoHost.Date_parse [[]; []] "empty.json" = Return r
    /\ DataAnalysisResult.totalColumns r = 0%nat
    /\ DataAnalysisResult.columns r = []
    /\ DataAnalysisResult.completeness r = NaN
    /\ DataAnalysisResult.overallScore r = NaN
    /\ ~ is_score (DataAnalysisResult.completeness r)
    /\ ~ is_score (DataAnalysisResult.overallScore r).
Proof.
  apply (analyzeData_keyless_first_record IsoHost.Date_parse [] [[]] "empty.json").
  reflexivity.
Defined.

(** C1. A dataset of one record without keys passes the emptiness guard,
    and its completeness is NaN: the sub-scores are not all integers
    between 0 and 100 on every non-empty input. *)
Theorem zero_column_dataset_scores (Date_parse : string -> number) :
  exists r,
    DataAnalyzer.analyzeData Date_parse [[]] "data.json" = Return r
    /\ DataAnalysisResult.completeness r = NaN
    /\ DataAnalysisResult.consistency r = of_Z 100
    /\ DataAnalysisResult.accuracy r = of_Z 100
    /\ DataAnalysisResult.validity r = of_Z 100
    /\ DataAnalysisResult.overallScore r = NaN
    /\ ~ is_score (DataAnalysisResult.completeness r).
Proof.
  eexists. split; [reflexivity|]. cbn.
  repeat split; try reflexivity. intros (z & H & _). discriminate H.
Qed.

End InferenceAndGuards.

(* ------------------------------------------------------------------ *)
(** *** The fallback and the scores *)

Section FallbackAndScores.
Local Open Scope string_scope.

(* ================================================================== *)
(** ** The fallback of the recommendation engine *)
(* ================================================================== *)

(** C4. When the call to the text-generation service throws, or its
    response holds no parseable JSON array, [generateInsights] still
    returns: the per-record recommendations followed by the output of
    [defaultInsights]. *)
Theorem generateInsights_falls_back
        (chat_completions_create : string -> outcome ChatCompletion.t)
        (JSON_parse : string -> outcome (list AIInsight.t))
        (analysis : DataAnalysisResult.t) :
  service_failed chat_completions_create JSON_parse analysis ->
  AIAnalyzer.generateInsights chat_completions_create JSON_parse analysis
  = Return (map UserIssue.insight (AIAnalyzer.extractUserSpecificIssues analysis)
            ++ AIAnalyzer.defaultInsights analysis)%list.
Proof.
  unfold service_failed, AIAnalyzer.generateInsights.
  destruct (chat_completions_create _) as [response|e]; cbn [bind try_catch].
  - destruct (AIAnalyzer.match_json_array (AIAnalyzer.responseText_of response)) as [m|].
    + destruct (JSON_parse m) as [insights|e]; cbn [bind throws]; [tauto | reflexivity].
    + reflexivity.
  - reflexivity.
Qed.

(** A service that times out, and one that answers without a JSON array. *)
Lemma generateInsights_falls_back_witness :
  AIAnalyzer.generateInsights service_down JSON_parse_strict scenario_C_analysis
  = Return (map UserIssue.insight (AIAnalyzer.extractUserSpecificIssues scenario_C_analysis)
            ++ AIAnalyzer.defaultInsights scenario_C_analysis)%list
  /\ AIAnalyzer.generateInsights service_prose JSON_parse_strict scenario_C_analysis
     = Return (map UserIssue.insight (AIAnalyzer.extractUserSpecificIssues scenario_C_analysis)
               ++ AIAnalyzer.defaultInsights scenario_C_analysis)%list.
Proof.
  split.
  - apply (generateInsights_falls_back service_down JSON_parse_strict scenario_C_analysis).
    exact I.
  - apply (generateInsights_falls_back service_prose JSON_parse_strict scenario_C_analysis).
    vm_compute. exact I.
Defined.

(* ================================================================== *)
(** ** Completeness *)
(* ================================================================== *)

(** With missing rates 75 and 0 the mean is 37.5: [calculateCompleteness]
    answers round(62.5) = 63, rounding the mean first gives 100 - 38 = 62. *)
Lemma completeness_round_first_differs :
  exists r,
    DataAnalyzer.analyzeData IsoHost.Date_parse three_of_four_missing "data.csv" = Return r
    /\ map ColumnStats.nullPercentage (DataAnalysisResult.columns r) = [of_Z 75; of_Z 0]
    /\ DataAnalysisResult.completeness r = of_Z 63
    /\ completeness_round_first (DataAnalysisResult.columns r) = of_Z 62
    /\ DataAnalysisResult.completeness r
       <> completeness_round_first (DataAnalysisResult.columns r).
Proof.
  eexists. split; [reflexivity|]. vm_compute. repeat split; try reflexivity. discriminate.
Qed.

(** C2 (amended). For a dataset with at least one row and one column,
    completeness is 100 minus the exact mean of the column missing rates,
    the difference being rounded half up (the subtraction comes first), and
    it is an integer between 0 and 100.  Rounding the mean first gives 100
    minus the rounded mean; the two agree unless the mean is exactly
    halfway between two integers, where the code's score is one more. *)
Theorem completeness_subtract_then_round
        (Date_parse : string -> number) (first : record) (rest : list record)
        (fileName : string) :
  Object_keys first <> [] -> array_length_ok (Object_keys first) ->
  exists r,
    DataAnalyzer.analyzeData Date_parse (first :: rest) fileName = Return r
    /\ DataAnalysisResult.completeness r
       = of_Z (round_half_up_div
                 (100 * Z.of_nat (List.length (DataAnalysisResult.columns r))
                  - sum_rates (DataAnalysisResult.columns r))
                 (Z.of_nat (List.length (DataAnalysisResult.columns r))))
    /\ completeness_round_first (DataAnalysisResult.columns r)
       = of_Z (100 - round_half_up_div
                       (sum_rates (DataAnalysisResult.columns r))
                       (Z.of_nat (List.length (DataAnalysisResult.columns r))))
    /\ (~ is_tie (sum_rates (DataAnalysisResult.columns r))
                 (Z.of_nat (List.length (DataAnalysisResult.columns r))) ->
        DataAnalysisResult.completeness r
        = completeness_round_first (DataAnalysisResult.columns r))
    /\ (is_tie (sum_rates (DataAnalysisResult.columns r))
               (Z.of_nat (List.length (DataAnalysisResult.columns r))) ->
        DataAnalysisResult.completeness r
        = fadd (completeness_round_first (DataAnalysisResult.columns r)) (of_Z 1))
    /\ is_score (DataAnalysisResult.completeness r)
    /\ Forall (fun c => is_score (ColumnStats.nullPercentage c)) (DataAnalysisResult.columns r).
Proof.
  intros Hne Hl.
  destruct (analyzeData_returns Date_parse first rest fileName) as [r Hr].
  exists r. split; [exact Hr|].
  destruct (analyzeData_columns Date_parse _ _ _ Hr) as (Ec & Eco & _).
  rewrite Eco, Ec.
  set (stats := dataset_columns Date_parse (first :: rest)).
  assert (Hlen : List.length stats = List.length (Object_keys first)) by apply dataset_columns_length.
  assert (Hok : array_length_ok stats) by (unfold array_length_ok in *; rewrite Hlen; exact Hl).
  assert (Hne' : stats <> []).
  { intros E. rewrite E in Hlen. destruct (Object_keys first); [congruence|discriminate]. }
  pose proof (dataset_rate_ok Date_parse (first :: rest)) as Hrate. fold stats in Hrate.
  pose proof (calculateCompleteness_closed stats Hne' Hok Hrate) as Ecode.
  pose proof (completeness_round_first_closed stats Hne' Hok Hrate) as Espec.
  pose proof (round_half_up_complement (sum_rates stats) (Z.of_nat (List.length stats))) as Hc.
  assert (Hpos : (0 < Z.of_nat (List.length stats))%Z).
  { destruct stats; [congruence | cbn [List.length]; lia]. }
  specialize (Hc Hpos).
  pose proof (sum_rates_bounds stats Hrate) as Hb.
  assert (Hq : (0 <= round_half_up_div (sum_rates stats) (Z.of_nat (List.length stats)) <= 100)%Z).
  { unfold round_half_up_div. split.
    - apply Z.div_pos; lia.
    - apply Z.lt_succ_r. apply Z.div_lt_upper_bound; lia. }
  split; [exact Ecode|]. split; [exact Espec|].
  split; [|split; [|split; [|exact Hrate]]].
  - intros NoTie. rewrite Ecode, Espec, Hc. unfold is_tie in NoTie.
    destruct (Z.eq_dec _ 0) as [T|_]; [contradiction|]. f_equal. lia.
  - intros Tie. rewrite Ecode, Espec, Hc. unfold is_tie in Tie.
    destruct (Z.eq_dec _ 0) as [_|T]; [|contradiction].
    rewrite fadd_int by lia. reflexivity.
  - apply (dataset_scores Date_parse first rest Hne Hl).
Qed.

(** The dataset with rates 75 and 0. *)
Lemma completeness_subtract_then_round_witness :
  exists r,
    DataAnalyzer.analyzeData IsoHost.Date_parse three_of_four_missing "data.csv" = Return r
    /\ DataAnalysisResult.completeness r
       = of_Z (round_half_up_div
                 (100 * Z.of_nat (List.length (DataAnalysisResult.columns r))
                  - sum_rates (DataAnalysisResult.columns r))
                 (Z.of_nat (List.length (DataAnalysisResult.columns r))))
    /\ completeness_round_first (DataAnalysisResult.columns r)
       = of_Z (100 - round_half_up_div
                       (sum_rates (DataAnalysisResult.columns r))
                       (Z.of_nat (List.length (DataAnalysisResult.columns r))))
    /\ (~ is_tie (sum_rates (DataAnalysisResult.columns r))
                 (Z.of_nat (List.length (DataAnalysisResult.columns r))) ->
        DataAnalysisResult.completeness r
        = completeness_round_first (DataAnalysisResult.columns r))
    /\ (is_tie (sum_rates (DataAnalysisResult.columns r))
               (Z.of_nat (List.length (DataAnalysisResult.columns r))) ->
        DataAnalysisResult.completeness r
        = fadd (completeness_round_first (DataAnalysisResult.columns r)) (of_Z 1))
    /\ is_score (DataAnalysisResult.completeness r)
    /\ Forall (fun c => is_score (ColumnStats.nullPercentage c)) (DataAnalysisResult.columns r).
Proof.
  apply (completeness_subtract_then_round IsoHost.Date_parse
           [("a", VStr "x"); ("b", VStr "p")]
           [ [("a", VStr "");  ("b", VStr "q")];
             [("a", VStr "");  ("b", VStr "r")];
             [("a", VStr "");  ("b", VStr "s")] ] "data.csv").
  - discriminate.
  - unfold array_length_ok. cbn. lia.
Defined.

(** The four scores of a dataset with at least one row and one column are
    integers between 0 and 100, and the overall score is their exact mean
    rounded half up. *)
Theorem scores_in_range
        (Date_parse : string -> number) (first : record) (rest : list record)
        (fileName : string) :
  Object_keys first <> [] -> array_length_ok (Object_keys first) ->
  exists r,
    DataAnalyzer.analyzeData Date_parse (first :: rest) fileName = Return r
    /\ is_score (DataAnalysisResult.completeness r)
    /\ is_score (DataAnalysisResult.consistency r)
    /\ is_score (DataAnalysisResult.accuracy r)
    /\ is_score (DataAnalysisResult.validity r)
    /\ DataAnalysisResult.overallScore r
       = of_Z (round_half_up_div
                 (to_Z (DataAnalysisResult.completeness r)
                  + to_Z (DataAnalysisResult.consistency r)
                  + to_Z (DataAnalysisResult.accuracy r)
                  + to_Z (DataAnalysisResult.validity r)) 4)
    /\ is_score (DataAnalysisResult.overallScore r).
Proof.
  intros Hne Hl.
  destruct (analyzeData_returns Date_parse first rest fileName) as [r Hr].
  exists r. split; [exact Hr|].
  destruct (analyzeData_columns Date_parse _ _ _ Hr) as (Ec & Eco & Econs & Eacc & Eval & Eov).
  destruct (dataset_scores Date_parse first rest Hne Hl) as (S1 & S2 & S3 & S4).
  rewrite <- Eco in S1. rewrite <- Econs in S2. rewrite <- Eacc in S3. rewrite <- Eval in S4.
  repeat split; try assumption.
  - rewrite Eov. apply overall_of_scores; assumption.
  - rewrite Eov, overall_of_scores by assumption. eexists. split; [reflexivity|].
    apply round_half_up_div_4_range.
    destruct (is_score_to_Z _ S1) as [_ ?]. destruct (is_score_to_Z _ S2) as [_ ?].
    destruct (is_score_to_Z _ S3) as [_ ?]. destruct (is_score_to_Z _ S4) as [_ ?]. lia.
Qed.

(** The same dataset. *)
Lemma scores_in_range_witness :
  exists r,
    DataAnalyzer.analyzeData IsoHost.Date_parse three_of_four_missing "data.csv" = Return r
    /\ is_score (DataAnalysisResult.completeness r)
    /\ is_score (DataAnalysisResult.consistency r)
    /\ is_score (DataAnalysisResult.accuracy r)
    /\ is_score (DataAnalysisResult.validity r)
    /\ DataAnalysisResult.overallScore r
       = of_Z (round_half_up_div
                 (to_Z (DataAnalysisResult.completeness r)
                  + to_Z (DataAnalysisResult.consistency r)
                  + to_Z (DataAnalysisResult.accuracy r)
                  + to_Z (DataAnalysisResult.validity r)) 4)
    /\ is_score (DataAnalysisResult.overallScore r).
Proof.
  apply (scores_in_range IsoHost.Date_parse
           [("a", VStr "x"); ("b", VStr "p")]
           [ [("a", VStr "");  ("b", VStr "q")];
             [("a", VStr "");  ("b", VStr "r")];
             [("a", VStr "");  ("b", VStr "s")] ] "data.csv").
  - discriminate.
  - unfold array_length_ok. cbn. lia.
Defined.

End FallbackAndScores.

(* ------------------------------------------------------------------ *)
(** *** Column rates and type mismatches *)

Section RatesAndMismatches.
Local Open Scope string_scope.

(* ================================================================== *)
(** ** Column rates *)
(* ================================================================== *)

Lemma percentage_rate k n :
  (k <= n)%nat -> (0 < n)%nat -> (Z.of_nat n < 2 ^ 32)%Z ->
  rate_matches (DataAnalyzer.percentage k n) (Z.of_nat k) (Z.of_nat n).
Proof.
  intros Hk Hn Hb. split.
  - apply percentage_exact; assumption.
  - apply percentage_tie; assumption.
Qed.

(** 23 missing values out of 40: the exact percentage is 57.5, the binary64
    product (23 / 40) * 100 is just below it, and [Math.round] answers 57
    where rounding the exact percentage (half up or half to even) gives 58. *)
Lemma missing_rate_tie_rounds_down :
  let c := DataAnalyzer.analyzeColumn IsoHost.Date_parse "c" twenty_three_of_forty in
  ColumnStats.totalRows c = 40%nat
  /\ ColumnStats.nullCount c = 23%nat
  /\ ColumnStats.nullPercentage c = of_Z 57
  /\ Math_round (fdiv (fmul (of_Z 100) (of_Z 23)) (of_Z 40)) = of_Z 58
  /\ round_half_up_div (100 * 23) 40 = 58%Z
  /\ ColumnStats.nullPercentage c <> of_Z (round_half_up_div (100 * 23) 40).
Proof.
  vm_compute. repeat split; try reflexivity. discriminate.
Qed.

(** C8 (amended). For a column profiled over a non-empty value sequence,
    with [totalCount] the full value count: [missingRate] is
    [Math.round((missingCount / totalCount) * 100)] evaluated in binary64,
    which is [100 * missingCount / totalCount] rounded half up unless that
    quotient lies exactly halfway between two integers, where it is one of
    the two; [uniqueCount] is the number of distinct non-missing values
    under the equality of [Set]; [uniqueRate] relates to [uniqueCount] over
    the same [totalCount] as [missingRate] does to [missingCount]. *)
Theorem column_rates (Date_parse : string -> number) (name : string) (values : list raw) :
  values <> [] -> array_length_ok values ->
  let c := DataAnalyzer.analyzeColumn Date_parse name values in
  ColumnStats.totalRows c = List.length values
  /\ ColumnStats.nullCount c = List.length (filter is_missing values)
  /\ ColumnStats.nullPercentage c
     = DataAnalyzer.percentage (ColumnStats.nullCount c) (ColumnStats.totalRows c)
  /\ rate_matches (ColumnStats.nullPercentage c)
                  (Z.of_nat (ColumnStats.nullCount c)) (Z.of_nat (ColumnStats.totalRows c))
  /\ counts_distinct (ColumnStats.uniqueCount c) (filter non_missing values)
  /\ ColumnStats.uniquePercentage c
     = DataAnalyzer.percentage (ColumnStats.uniqueCount c) (ColumnStats.totalRows c)
  /\ rate_matches (ColumnStats.uniquePercentage c)
                  (Z.of_nat (ColumnStats.uniqueCount c)) (Z.of_nat (ColumnStats.totalRows c)).
Proof.
  intros Hne Hl c. unfold array_length_ok in Hl.
  assert (Hn : (0 < List.length values)%nat) by (destruct values; [congruence | cbn; lia]).
  unfold c, DataAnalyzer.analyzeColumn.
  cbn [ColumnStats.totalRows ColumnStats.nullCount ColumnStats.nullPercentage
       ColumnStats.uniqueCount ColumnStats.uniquePercentage].
  repeat split; try reflexivity.
  - apply percentage_exact; [apply missing_le | assumption..].
  - apply percentage_tie; [apply missing_le | assumption].
  - destruct (Set_of_spec (filter non_missing values)) as (D & C & S & _).
    exists (Set_of (filter non_missing values)). auto.
  - apply percentage_exact; [apply unique_le | assumption..].
  - apply percentage_tie; [apply unique_le | assumption].
Qed.

(** The column of 40 values with 23 nulls. *)
Lemma column_rates_witness :
  let c := DataAnalyzer.analyzeColumn IsoHost.Date_parse "c" twenty_three_of_forty in
  ColumnStats.totalRows c = List.length twenty_three_of_forty
  /\ ColumnStats.nullCount c = List.length (filter is_missing twenty_three_of_forty)
  /\ ColumnStats.nullPercentage c
     = DataAnalyzer.percentage (ColumnStats.nullCount c) (ColumnStats.totalRows c)
  /\ rate_matches (ColumnStats.nullPercentage c)
                  (Z.of_nat (ColumnStats.nullCount c)) (Z.of_nat (ColumnStats.totalRows c))
  /\ counts_distinct (ColumnStats.uniqueCount c) (filter non_missing twenty_three_of_forty)
  /\ ColumnStats.uniquePercentage c
     = DataAnalyzer.percentage (ColumnStats.uniqueCount c) (ColumnStats.totalRows c)
  /\ rate_matches (ColumnStats.uniquePercentage c)
                  (Z.of_nat (ColumnStats.uniqueCount c)) (Z.of_nat (ColumnStats.totalRows c)).
Proof.
  apply (column_rates IsoHost.Date_parse "c" twenty_three_of_forty).
  - discriminate.
  - unfold array_length_ok. vm_compute. reflexivity.
Defined.

(* ================================================================== *)
(** ** Type mismatches *)
(* ================================================================== *)

(** The values true and 5 make an integer column ([Number(true)] is 1) with
    one value [parseFloat] cannot read: the issue is reported and accuracy
    drops to 90. *)
Lemma mismatch_fires_on_integer_column :
  exists r,
    DataAnalyzer.analyzeData IsoHost.Date_parse true_and_five "data.json" = Return r
    /\ map ColumnStats.type (DataAnalysisResult.columns r) = [Integer]
    /\ DataAnalyzer.typeMismatches (column_values true_and_five "a") = 1%nat
    /\ map ColumnStats.issues (DataAnalysisResult.columns r)
       = [["1 non-numeric values found"]]
    /\ DataAnalysisResult.accuracy r = of_Z 90.
Proof.
  eexists. split; [reflexivity|]. vm_compute. repeat split; reflexivity.
Qed.

(** The same on every host whose [Date.parse] rejects the text "true". *)
Lemma mismatch_fires_on_any_host (Date_parse : string -> number) :
  isNaN (Date_parse "true") = true ->
  DataAnalyzer.inferDataType Date_parse [VBool true; VNum (of_Z 5)] = Integer
  /\ DataAnalyzer.typeMismatches [VBool true; VNum (of_Z 5)] = 1%nat.
Proof.
  intros H. split; [|reflexivity]. unfold DataAnalyzer.inferDataType.
  cbn [filter non_missing List.length Nat.eqb].
  replace (forallb DataAnalyzer.is_boolean_like [VBool true; VNum (of_Z 5)]) with false
    by (vm_compute; reflexivity).
  cbn [forallb]. unfold DataAnalyzer.is_date_like at 1. cbn [String_]. rewrite H. cbn [negb andb].
  replace (forallb DataAnalyzer.is_integer_like [VBool true; VNum (of_Z 5)]) with true
    by (vm_compute; reflexivity).
  reflexivity.
Qed.

Section Mismatch.
Variable Date_parse : string -> number.

Lemma total_non_numeric_columns data keys :
  data <> [] -> array_length_ok data ->
  total_non_numeric
    (map (fun colName => DataAnalyzer.analyzeColumn Date_parse colName
                           (column_values data colName)) keys)
  = count (fun name => has_mismatch Date_parse (column_values data name)) keys.
Proof.
  intros Hne Hl. induction keys as [|k keys IH]; [reflexivity|].
  cbn [map total_non_numeric]. rewrite count_cons, IH. f_equal.
  apply analyzeColumn_non_numeric.
  - unfold column_values. destruct data; [congruence | discriminate].
  - unfold array_length_ok in *. rewrite column_values_length. exact Hl.
Qed.

End Mismatch.

(** C7 (amended). Under the default pipeline the count of non-missing
    values failing numeric conversion is 0 for every column typed float.
    For a column typed integer it is the number of its non-missing values
    that are booleans or strings of white space only, which [Number]
    converts to an integer while [parseFloat] of their text is NaN, so it
    can be positive.  A column has one "non-numeric values found" issue
    when its type is numeric and that count is positive, and none
    otherwise; accuracy is 100 minus 10 for each such column, not below 0. *)
Theorem mismatch_count_by_type
        (Date_parse : string -> number) (first : record) (rest : list record)
        (fileName : string) :
  array_length_ok (first :: rest) -> array_length_ok (Object_keys first) ->
  exists r,
    DataAnalyzer.analyzeData Date_parse (first :: rest) fileName = Return r
    /\ (forall name,
          let values := column_values (first :: rest) name in
          (DataAnalyzer.inferDataType Date_parse values = Float ->
           DataAnalyzer.typeMismatches values = 0%nat)
          /\ (DataAnalyzer.inferDataType Date_parse values = Integer ->
              DataAnalyzer.typeMismatches values
              = List.length (filter (fun v => non_missing v && boolean_or_blank v) values))
          /\ non_numeric_issues (DataAnalyzer.analyzeColumn Date_parse name values)
             = (if has_mismatch Date_parse values then 1 else 0)%Z)
    /\ DataAnalysisResult.accuracy r
       = of_Z (Z.max 0 (100 - 10 * mismatch_columns Date_parse (first :: rest))).
Proof.
  intros Hrows Hcols.
  destruct (analyzeData_returns Date_parse first rest fileName) as [r Hr].
  exists r. split; [exact Hr|].
  destruct (analyzeData_columns Date_parse _ _ _ Hr) as (_ & _ & _ & Eacc & _).
  split.
  - intros name values. split; [apply typeMismatches_Float|].
    split; [apply typeMismatches_Integer|].
    apply analyzeColumn_non_numeric.
    + unfold values, column_values. discriminate.
    + unfold array_length_ok in *. unfold values. rewrite column_values_length. exact Hrows.
  - rewrite Eacc. rewrite calculateAccuracy_closed.
    + unfold dataset_columns, mismatch_columns.
      rewrite total_non_numeric_columns; [reflexivity | discriminate | exact Hrows].
    + unfold array_length_ok in *. rewrite dataset_columns_length. exact Hcols.
    + apply dataset_few_issues.
Qed.

(** The dataset with the values true and 5. *)
Lemma mismatch_count_by_type_witness :
  exists r,
    DataAnalyzer.analyzeData IsoHost.Date_parse true_and_five "data.json" = Return r
    /\ (forall name,
          let values := column_values true_and_five name in
          (DataAnalyzer.inferDataType IsoHost.Date_parse values = Float ->
           DataAnalyzer.typeMismatches values = 0%nat)
          /\ (DataAnalyzer.inferDataType IsoHost.Date_parse values = Integer ->
              DataAnalyzer.typeMismatches values
              = List.length (filter (fun v => non_missing v && boolean_or_blank v) values))
          /\ non_numeric_issues (DataAnalyzer.analyzeColumn IsoHost.Date_parse name values)
             = (if has_mismatch IsoHost.Date_parse values then 1 else 0)%Z)
    /\ DataAnalysisResult.accuracy r
       = of_Z (Z.max 0 (100 - 10 * mismatch_columns IsoHost.Date_parse true_and_five)).
Proof.
  apply (mismatch_count_by_type IsoHost.Date_parse
           [("a", VBool true)] [ [("a", VNum (of_Z 5))] ] "data.json").
  - unfold array_length_ok. cbn. lia.
  - unfold array_length_ok. cbn. lia.
Defined.

End RatesAndMismatches.

(* ------------------------------------------------------------------ *)
(** *** The scenarios of the specification, on a host that parses ISO dates only *)

Section Scenarios.
Local Open Scope string_scope.

(** Scenario A: ten ages, two of them null. *)
Example scenario_A :
  let values :=
    [VNum (of_Z 32); VNum (of_Z 28); VNull; VNum (of_Z 45); VNum (of_Z 38);
     VNum (of_Z 29); VNum (of_Z 150); VNum (of_Z 34); VNull; VNum (of_Z 26)] in
  let c := DataAnalyzer.analyzeColumn IsoHost.Date_parse "Age" values in
  ColumnStats.nullCount c = 2%nat
  /\ ColumnStats.nullPercentage c = of_Z 20
  /\ ColumnStats.type c = Integer
  /\ ColumnStats.issues c = ["2 missing values (20%)"].
Proof. vm_compute. repeat split; reflexivity. Qed.

(** Scenario B: ratings with the outlier 999; the column is float and the
    outlier costs no accuracy. *)
Example scenario_B :
  let rating x := [("rating", VNum (RN x))] in
  let rows :=
    map rating [48 # 10; 42 # 10; 45 # 10; 47 # 10; 49 # 10;
                41 # 10; 38 # 10; 43 # 10; 999 # 1; 4 # 1]%Q in
  exists r,
    DataAnalyzer.analyzeData IsoHost.Date_parse rows "ratings.json" = Return r
    /\ map ColumnStats.type (DataAnalysisResult.columns r) = [Float]
    /\ map ColumnStats.issues (DataAnalysisResult.columns r) = [[]]
    /\ DataAnalysisResult.accuracy r = of_Z 100.
Proof. eexists. split; [reflexivity|]. vm_compute. repeat split; reflexivity. Qed.

(** Scenario D: no rows. *)
Example scenario_D :
  DataAnalyzer.analyzeData IsoHost.Date_parse [] "empty.csv"
  = Throw "No data found in file".
Proof. reflexivity. Qed.

End Scenarios.

(* ------------------------------------------------------------------ *)
(** *** The shape of a result *)

Section ResultShape.
Local Open Scope string_scope.

Lemma Set_of_nil_iff values : Set_of values = [] <-> values = [].
Proof.
  split.
  - intros E. destruct values as [|v r]; [reflexivity|]. exfalso.
    destruct (Set_of_spec (v :: r)) as (_ & H & _).
    specialize (H v (or_introl eq_refl)). rewrite E in H. discriminate.
  - intros ->. reflexivity.
Qed.

Lemma analyzeColumn_counts (Date_parse : string -> number) name values :
  counts_consistent (List.length values)
                    (DataAnalyzer.analyzeColumn Date_parse name values).
Proof.
  unfold counts_consistent, DataAnalyzer.analyzeColumn. cbn -[firstn Nat.min slice0].
  pose proof (missing_plus_present values) as Hs.
  pose proof (unique_le_present values) as Hu.
  split; [reflexivity|]. split; [lia|]. split.
  - split.
    + intros E. apply length_zero_iff_nil in E. apply (proj1 (Set_of_nil_iff _)) in E.
      rewrite E in Hs. cbn in Hs. lia.
    + intros E. assert (P : filter non_missing values = []).
      { apply length_zero_iff_nil. lia. }
      rewrite P. reflexivity.
  - unfold slice0. rewrite length_firstn. reflexivity.
Qed.

(** The result of [analyzeData] keeps the file name, counts the rows and
    the keys of the first record, names its columns after those keys in
    their order, and previews the first five rows; every column counts the
    same number of rows, its missing and distinct values never exceed it
    together, it has no distinct value exactly when every value is
    missing, and it samples five distinct values or all of them. *)
Theorem analyzeData_result_shape
        (Date_parse : string -> number) (first : record) (rest : list record)
        (fileName : string) :
  exists r,
    DataAnalyzer.analyzeData Date_parse (first :: rest) fileName = Return r
    /\ DataAnalysisResult.fileName r = fileName
    /\ DataAnalysisResult.totalRows r = S (List.length rest)
    /\ DataAnalysisResult.totalColumns r = List.length (DataAnalysisResult.columns r)
    /\ map ColumnStats.name (DataAnalysisResult.columns r) = Object_keys first
    /\ DataAnalysisResult.dataPreview r = firstn 5 (first :: rest)
    /\ Forall (counts_consistent (DataAnalysisResult.totalRows r))
              (DataAnalysisResult.columns r).
Proof.
  eexists. split; [reflexivity|]. cbn -[firstn].
  split; [reflexivity|]. split; [reflexivity|].
  split; [rewrite length_map; reflexivity|].
  split; [rewrite map_map; cbn; apply map_id|].
  split; [reflexivity|].
  apply Forall_map, Forall_forall. intros k _.
  pose proof (analyzeColumn_counts Date_parse k
                (map (fun row => get row k) (first :: rest))) as H.
  rewrite length_map in H. exact H.
Qed.

End ResultShape.

(* ------------------------------------------------------------------ *)
(** *** Issues and samples of a column *)

Section IssuesAndSamples.
Local Open Scope string_scope.

Lemma existsb_false_iff {A} (f : A -> bool) l :
  existsb f l = false <-> forall x, In x l -> f x = false.
Proof.
  induction l as [|a l IH]; cbn.
  - split; [intros _ x []|reflexivity].
  - rewrite orb_false_iff, IH. split.
    + intros [Ha Hl] x [<-|Hx]; auto.
    + intros H. split; [apply H; auto|intros x Hx; apply H; auto].
Qed.

Lemma Set_fold_length_le values : forall seen,
  (List.length (fold_left Set_add values seen) <= List.length seen + List.length values)%nat.
Proof.
  induction values as [|v r IH]; intros seen; cbn [fold_left List.length]; [lia|].
  specialize (IH (Set_add seen v)).
  destruct (Set_add_cases seen v) as [[_ Ea]|[_ Ea]]; rewrite Ea in *.
  - lia.
  - rewrite length_app in IH. cbn in IH. lia.
Qed.

(** The set grows by one at every step exactly when the values are
    pairwise distinct and none is in the set already. *)
Lemma Set_fold_full values : forall seen,
  List.length (fold_left Set_add values seen) = (List.length seen + List.length values)%nat
  <-> pairwise_distinct values
      /\ (forall v, In v values -> existsb (same_value_zero v) seen = false).
Proof.
  induction values as [|v r IH]; intros seen.
  - cbn. split; [intros _; split; [exact I|intros v []]|intros _; lia].
  - cbn [fold_left List.length pairwise_distinct].
    destruct (Set_add_cases seen v) as [[E Ea]|[E Ea]]; rewrite Ea.
    + split.
      * intros L. pose proof (Set_fold_length_le r seen). lia.
      * intros [_ H]. specialize (H v (or_introl eq_refl)). congruence.
    + specialize (IH (seen ++ [v])%list). rewrite length_app in IH. cbn [List.length] in IH.
      replace (List.length seen + 1 + List.length r)%nat
        with (List.length seen + S (List.length r))%nat in IH by lia.
      rewrite IH. split.
      * intros [Pd H]. split; [split; [|exact Pd]|].
        -- apply existsb_false_iff. intros w Hw. specialize (H w Hw).
           rewrite existsb_app in H. apply orb_false_iff in H as [_ H].
           cbn in H. rewrite orb_false_r in H.
           rewrite same_value_zero_sym. exact H.
        -- intros w [<-|Hw]; [exact E|]. specialize (H w Hw).
           rewrite existsb_app in H. apply orb_false_iff in H as [H _]. exact H.
      * intros [[Hv Pd] H]. split; [exact Pd|].
        intros w Hw. rewrite existsb_app. apply orb_false_iff. split.
        -- apply H. right. exact Hw.
        -- cbn. rewrite orb_false_r. rewrite same_value_zero_sym.
           revert w Hw. apply existsb_false_iff. exact Hv.
Qed.

Lemma Set_of_full values :
  List.length (Set_of values) = List.length values <-> pairwise_distinct values.
Proof.
  unfold Set_of. pose proof (Set_fold_full values []) as H. cbn [List.length Nat.add] in H.
  rewrite H. split; [tauto|]. intros Pd. split; [exact Pd|reflexivity].
Qed.

Lemma pairwise_distinct_dec l : {pairwise_distinct l} + {~ pairwise_distinct l}.
Proof.
  induction l as [|x r IH]; cbn.
  - left. exact I.
  - destruct (existsb (same_value_zero x) r) eqn:E.
    + right. intros [H _]. discriminate.
    + destruct IH as [P|N]; [left; auto|right; tauto].
Qed.

Lemma digits_of_Z_nat (z : Z) (n : nat) :
  z = Z.of_nat n -> digits_of_N (Z.to_N z) = digits_of_nat n.
Proof. intros ->. unfold digits_of_nat. f_equal. lia. Qed.

(** The entries of [detectIssues] with the counts they quote. *)
Lemma detectIssues_entries
        (columnName : string) (values : list raw) (dataType : DataType) :
  values <> [] -> array_length_ok values ->
  let n := List.length values in
  let k := List.length (filter is_missing values) in
  let u := List.length (Set_of (filter non_missing values)) in
  let m := DataAnalyzer.typeMismatches values in
  exists p : nat,
    DataAnalyzer.percentage k n = of_nat p /\ (p <= 100)%nat /\
    DataAnalyzer.detectIssues columnName values dataType
    = ((if (0 <? k)%nat
        then [(digits_of_nat k ++ " missing values (" ++ digits_of_nat p ++ "%)")%string]
        else [])
       ++ (if is_numeric_type dataType && (0 <? m)%nat
           then [(digits_of_nat m ++ " non-numeric values found")%string]
           else [])
       ++ (if (u <? n - k)%nat
           then [(digits_of_nat (n - k - u) ++ " duplicate values")%string]
           else []))%list.
Proof.
  intros Hne Hl n k u m.
  assert (Hn : (0 < n)%nat) by (subst n; destruct values; [congruence|cbn; lia]).
  pose proof (missing_le values) as Hk. fold k n in Hk.
  destruct (percentage_range k n Hk Hn) as (z & Ez & Hz).
  exists (Z.to_nat z). split; [|split; [lia|]].
  - rewrite Ez. unfold of_nat. f_equal. lia.
  - rewrite detectIssues_shape.
    pose proof (missing_plus_present values) as Hs. fold k n in Hs.
    pose proof (unique_le_present values) as Hu. fold u in Hu.
    pose proof (duplicateCount_int values Hl) as Ed. fold u in Ed.
    assert (Ed' : duplicateCount values = of_Z (Z.of_nat (n - k - u))).
    { rewrite Ed. f_equal. lia. }
    unfold array_length_ok in Hl. fold n in Hl.
    f_equal; [|f_equal].
    + fold k. destruct (0 <? k)%nat; [|reflexivity]. f_equal.
      unfold missing_issue. fold k n. rewrite Ez.
      rewrite number_to_string_nat by lia.
      rewrite (digits_of_Z_nat z (Z.to_nat z)) by lia. reflexivity.
    + rewrite Ed', ltb_int.
      replace (0 <? Z.of_nat (n - k - u))%Z with (u <? n - k)%nat.
      2:{ destruct (Nat.ltb_spec u (n - k)), (Z.ltb_spec 0 (Z.of_nat (n - k - u))); auto; lia. }
      destruct (u <? n - k)%nat; [|reflexivity]. f_equal.
      unfold duplicate_issue. rewrite Ed'.
      rewrite number_to_string_nat by lia.
      rewrite (digits_of_Z_nat _ (n - k - u)) by reflexivity. reflexivity.
Qed.

(** [detectIssues] lists at most three entries, in the order missing
    values, non-numeric values, duplicates.  The missing entry quotes the
    number of missing values and their rounded percentage; the non-numeric
    entry appears for the types integer and float only; the duplicates
    entry quotes the non-missing values beyond the distinct ones. *)
Theorem detectIssues_anatomy
        (columnName : string) (values : list raw) (dataType : DataType) :
  values <> [] -> array_length_ok values ->
  let n := List.length values in
  let k := List.length (filter is_missing values) in
  let u := List.length (Set_of (filter non_missing values)) in
  let m := DataAnalyzer.typeMismatches values in
  exists p : nat,
    DataAnalyzer.percentage k n = of_nat p /\ (p <= 100)%nat /\
    DataAnalyzer.detectIssues columnName values dataType
    = ((if (0 <? k)%nat
        then [(digits_of_nat k ++ " missing values (" ++ digits_of_nat p ++ "%)")%string]
        else [])
       ++ (if is_numeric_type dataType && (0 <? m)%nat
           then [(digits_of_nat m ++ " non-numeric values found")%string]
           else [])
       ++ (if (u <? n - k)%nat
           then [(digits_of_nat (n - k - u) ++ " duplicate values")%string]
           else []))%list.
Proof.
  intros Hne Hl n k u m.
  destruct (detectIssues_entries columnName values dataType Hne Hl) as (p & Ep & Hp & E).
  exists p. split; [exact Ep|]. split; [exact Hp|]. exact E.
Qed.

(** A column of five values with two missing and one repeated. *)
Lemma detectIssues_anatomy_witness :
  exists p : nat,
    DataAnalyzer.percentage 2 5 = of_nat p /\ (p <= 100)%nat /\
    DataAnalyzer.detectIssues "city"
      [VStr "Oslo"; VNull; VStr "Oslo"; VStr ""; VStr "Rome"] Text
    = ["2 missing values (" ++ digits_of_nat p ++ "%)"; "1 duplicate values"].
Proof.
  apply (detectIssues_anatomy "city"
           [VStr "Oslo"; VNull; VStr "Oslo"; VStr ""; VStr "Rome"] Text).
  - discriminate.
  - unfold array_length_ok. cbn. lia.
Defined.

Lemma string_app_assoc (a b c : string) : (a ++ b) ++ c = a ++ b ++ c.
Proof. induction a as [|x a IH]; cbn; [reflexivity|]. rewrite IH. reflexivity. Qed.

Lemma endsWith_suffix s p : endsWith s p = true -> exists pre, s = pre ++ p.
Proof.
  induction s as [|c r IH]; cbn [endsWith].
  - rewrite orb_false_r. intros E. apply String.eqb_eq in E. exists "". subst. reflexivity.
  - intros E. apply orb_true_iff in E as [E|E].
    + apply String.eqb_eq in E. exists "". rewrite <- E. reflexivity.
    + destruct (IH E) as [pre ->]. exists (String c pre). reflexivity.
Qed.

Lemma last_chars_app a b d :
  b <> "" -> last (chars (a ++ b)) d = last (chars b) d.
Proof.
  intros Hb. rewrite chars_app.
  assert (Hc : chars b <> []) by (destruct b; [congruence|discriminate]).
  revert Hc. generalize (chars b) as l. intros l Hl.
  induction (chars a) as [|x t IH]; [reflexivity|].
  cbn [app]. destruct (t ++ l)%list eqn:E.
  - apply app_eq_nil in E as [_ E]. congruence.
  - rewrite <- E in *. cbn [last]. rewrite E. rewrite <- E. exact IH.
Qed.

Lemma endsWith_other_end a b p :
  b <> "" -> p <> "" ->
  last (chars b) "000"%char <> last (chars p) "000"%char ->
  endsWith (a ++ b) p = false.
Proof.
  intros Hb Hp Hd. destruct (endsWith (a ++ b) p) eqn:E; [|reflexivity]. exfalso.
  apply endsWith_suffix in E as [pre E]. apply Hd.
  rewrite <- (last_chars_app a b) by assumption.
  rewrite <- (last_chars_app pre p) by assumption. rewrite E. reflexivity.
Qed.

(** The distinct values of a column are as many as its non-missing values
    exactly when no non-missing value occurs twice; otherwise the last
    entry of the issues is the duplicates entry. *)
Theorem duplicates_iff_repeated
        (Date_parse : string -> number) (name : string) (values : list raw) :
  let c := DataAnalyzer.analyzeColumn Date_parse name values in
  ((ColumnStats.nullCount c + ColumnStats.uniqueCount c)%nat = ColumnStats.totalRows c
   <-> pairwise_distinct (filter non_missing values))
  /\ (array_length_ok values ->
      ~ pairwise_distinct (filter non_missing values) ->
      exists front,
        ColumnStats.issues c
        = (front ++ [(digits_of_nat (ColumnStats.totalRows c - ColumnStats.nullCount c
                                     - ColumnStats.uniqueCount c)
                      ++ " duplicate values")%string])%list)
  /\ (array_length_ok values ->
      pairwise_distinct (filter non_missing values) ->
      Forall (fun i => endsWith i " duplicate values" = false) (ColumnStats.issues c)).
Proof.
  intros c.
  pose proof (missing_plus_present values) as Hs.
  pose proof (Set_of_full (filter non_missing values)) as Hf.
  assert (Hiff : (ColumnStats.nullCount c + ColumnStats.uniqueCount c)%nat
                 = ColumnStats.totalRows c
                 <-> pairwise_distinct (filter non_missing values)).
  { subst c. cbn [DataAnalyzer.analyzeColumn ColumnStats.nullCount ColumnStats.uniqueCount
                  ColumnStats.totalRows]. rewrite <- Hf. lia. }
  split; [exact Hiff|].
  assert (Hshape : array_length_ok values -> values <> [] ->
            exists front tail,
              ColumnStats.issues c = (front ++ tail)%list
              /\ Forall (fun i => endsWith i " duplicate values" = false) front
              /\ tail = (if (ColumnStats.uniqueCount c
                             <? ColumnStats.totalRows c - ColumnStats.nullCount c)%nat
                         then [(digits_of_nat (ColumnStats.totalRows c - ColumnStats.nullCount c
                                               - ColumnStats.uniqueCount c)
                                ++ " duplicate values")%string]
                         else [])).
  { intros Hl Hne.
    destruct (detectIssues_entries name values
                (DataAnalyzer.inferDataType Date_parse values) Hne Hl) as (p & _ & _ & E).
    subst c. cbn [DataAnalyzer.analyzeColumn ColumnStats.nullCount ColumnStats.uniqueCount
                  ColumnStats.totalRows ColumnStats.issues].
    rewrite E, app_assoc. eexists. eexists. split; [reflexivity|]. split; [|reflexivity].
    apply Forall_app. split.
    - destruct (0 <? _)%nat; constructor; [|constructor].
      rewrite <- !string_app_assoc. apply endsWith_other_end; discriminate.
    - destruct (_ && _); constructor; [|constructor].
      apply endsWith_other_end; discriminate. }
  split.
  - intros Hl Hnd. destruct values as [|v0 vs]; [exfalso; apply Hnd; exact I|].
    destruct (Hshape Hl ltac:(discriminate)) as (front & tail & E & _ & Et).
    exists front. rewrite E, Et.
    destruct (Nat.ltb_spec (ColumnStats.uniqueCount c)
                (ColumnStats.totalRows c - ColumnStats.nullCount c)) as [_|Hge]; [reflexivity|].
    exfalso. apply Hnd, Hiff.
    subst c. cbn [DataAnalyzer.analyzeColumn ColumnStats.nullCount ColumnStats.uniqueCount
                  ColumnStats.totalRows] in *.
    pose proof (unique_le_present (v0 :: vs)). lia.
  - intros Hl Hpd. destruct values as [|v0 vs].
    + subst c. cbn. constructor.
    + destruct (Hshape Hl ltac:(discriminate)) as (front & tail & E & Hfr & Et).
      rewrite E. apply Forall_app. split; [exact Hfr|]. rewrite Et.
      destruct (Nat.ltb_spec (ColumnStats.uniqueCount c)
                  (ColumnStats.totalRows c - ColumnStats.nullCount c)) as [Hlt|_]; [|constructor].
      exfalso. apply Hiff in Hpd. lia.
Qed.

Lemma Set_fold_prefix values : forall seen,
  exists t, fold_left Set_add values seen = (seen ++ t)%list.
Proof.
  induction values as [|v r IH]; intros seen; cbn [fold_left].
  - exists []. rewrite app_nil_r. reflexivity.
  - destruct (Set_add_cases seen v) as [[_ Ea]|[_ Ea]]; rewrite Ea.
    + apply IH.
    + destruct (IH (seen ++ [v])%list) as [t ->]. exists (v :: t).
      rewrite <- app_assoc. reflexivity.
Qed.

Lemma In_firstn {A} n (l : list A) x : In x (firstn n l) -> In x l.
Proof. intros H. rewrite <- (firstn_skipn n l). apply in_or_app. auto. Qed.

Lemma pairwise_distinct_firstn n : forall l,
  pairwise_distinct l -> pairwise_distinct (firstn n l).
Proof.
  induction n as [|n IH]; intros [|x r]; cbn [firstn pairwise_distinct]; auto.
  intros [Hx Hr]. split; [|apply IH; exact Hr].
  apply existsb_false_iff. intros y Hy.
  apply In_firstn in Hy.
  revert y Hy. apply existsb_false_iff. exact Hx.
Qed.

Lemma hd_filter_find {A} (f : A -> bool) l : hd_error (filter f l) = find f l.
Proof.
  induction l as [|x r IH]; cbn; [reflexivity|]. destruct (f x); [reflexivity|exact IH].
Qed.

(** The sample of a column holds up to five of its non-missing values, no
    two of them the same value, beginning with the first non-missing value
    of the column; with five distinct values or fewer it represents every
    non-missing value. *)
Theorem sampleValues_spec
        (Date_parse : string -> number) (name : string) (values : list raw) :
  let c := DataAnalyzer.analyzeColumn Date_parse name values in
  pairwise_distinct (ColumnStats.sampleValues c)
  /\ Forall (fun v => non_missing v = true /\ In v values) (ColumnStats.sampleValues c)
  /\ hd_error (ColumnStats.sampleValues c) = find non_missing values
  /\ ((ColumnStats.uniqueCount c <= 5)%nat ->
      forall v, In v values -> non_missing v = true ->
                existsb (same_value_zero v) (ColumnStats.sampleValues c) = true).
Proof.
  intros c. subst c.
  cbn [DataAnalyzer.analyzeColumn ColumnStats.sampleValues ColumnStats.uniqueCount].
  unfold slice0.
  destruct (Set_of_spec (filter non_missing values)) as (Pd & Cov & Sub & _).
  split; [apply pairwise_distinct_firstn; exact Pd|]. split; [|split].
  - apply Forall_forall. intros v Hv. apply In_firstn in Hv. apply Sub in Hv.
    apply filter_In in Hv. tauto.
  - rewrite <- hd_filter_find. destruct (filter non_missing values) as [|x r]; [reflexivity|].
    change (Set_of (x :: r)) with (fold_left Set_add r [x]).
    destruct (Set_fold_prefix r [x]) as [t ->]. reflexivity.
  - intros Hle v Hv Hn. rewrite firstn_all2 by exact Hle.
    apply Cov. apply filter_In. auto.
Qed.

End IssuesAndSamples.

(* ------------------------------------------------------------------ *)
(** *** What the analysis reads of the rows *)

Section RowsAndOrder.
Local Open Scope string_scope.

Lemma fold_left_profiles {B} (f : B -> ColumnStats.t -> B) stats stats' :
  Forall2 same_profile stats stats' ->
  (forall b c c', same_profile c c' -> f b c = f b c') ->
  forall b, fold_left f stats b = fold_left f stats' b.
Proof.
  intros H Hf. induction H as [|c c' l l' Hc _ IH]; intros b; cbn [fold_left]; [reflexivity|].
  rewrite (Hf b c c' Hc). apply IH.
Qed.

Lemma filter_length_profiles (f : ColumnStats.t -> bool) stats stats' :
  Forall2 same_profile stats stats' ->
  (forall c c', same_profile c c' -> f c = f c') ->
  List.length (filter f stats) = List.length (filter f stats').
Proof.
  intros H Hf. induction H as [|c c' l l' Hc _ IH]; cbn [filter]; [reflexivity|].
  rewrite (Hf c c' Hc). destruct (f c'); cbn [List.length]; congruence.
Qed.

Lemma Forall2_length_eq {A B} (R : A -> B -> Prop) l l' :
  Forall2 R l l' -> List.length l = List.length l'.
Proof. induction 1; cbn; congruence. Qed.

(** The scores and the summary read the statistics of the columns only. *)
Lemma scores_of_profiles stats stats' :
  Forall2 same_profile stats stats' ->
  DataAnalyzer.calculateCompleteness stats = DataAnalyzer.calculateCompleteness stats'
  /\ DataAnalyzer.calculateConsistency stats = DataAnalyzer.calculateConsistency stats'
  /\ DataAnalyzer.calculateAccuracy stats = DataAnalyzer.calculateAccuracy stats'
  /\ DataAnalyzer.calculateValidity stats = DataAnalyzer.calculateValidity stats'
  /\ forall rows columns,
       DataAnalyzer.generateSummary rows columns stats
       = DataAnalyzer.generateSummary rows columns stats'.
Proof.
  intros H. pose proof (Forall2_length_eq _ _ _ H) as L.
  unfold DataAnalyzer.calculateCompleteness, DataAnalyzer.calculateConsistency,
    DataAnalyzer.calculateAccuracy, DataAnalyzer.calculateValidity,
    DataAnalyzer.generateSummary.
  repeat split.
  - rewrite L, (fold_left_profiles _ stats stats' H); [reflexivity|].
    intros b c c' (_ & _ & _ & _ & E & _). rewrite E. reflexivity.
  - rewrite (fold_left_profiles _ stats stats' H).
    + rewrite (filter_length_profiles _ stats stats' H); [reflexivity|].
      intros c c' (_ & _ & _ & _ & _ & _ & _ & E). rewrite E. reflexivity.
    + intros b c c' (_ & E & _). rewrite E. reflexivity.
  - rewrite (fold_left_profiles _ stats stats' H); [reflexivity|].
    intros b c c' (_ & _ & _ & _ & _ & _ & _ & E). rewrite E. reflexivity.
  - rewrite (fold_left_profiles _ stats stats' H); [reflexivity|].
    intros b c c' (_ & E & _ & _ & _ & _ & E' & _). rewrite E, E'. reflexivity.
  - intros rows columns. rewrite (fold_left_profiles _ stats stats' H); [reflexivity|].
    intros b c c' (_ & _ & _ & _ & _ & _ & _ & E). rewrite E. reflexivity.
Qed.

Lemma same_profile_refl c : same_profile c c.
Proof. unfold same_profile. tauto. Qed.

Lemma analyzeData_cons Date_parse first rest fileName :
  let stats := dataset_columns Date_parse (first :: rest) in
  let completeness := DataAnalyzer.calculateCompleteness stats in
  let consistency := DataAnalyzer.calculateConsistency stats in
  let accuracy := DataAnalyzer.calculateAccuracy stats in
  let validity := DataAnalyzer.calculateValidity stats in
  DataAnalyzer.analyzeData Date_parse (first :: rest) fileName
  = Return
      {| DataAnalysisResult.fileName := fileName;
         DataAnalysisResult.totalRows := S (List.length rest);
         DataAnalysisResult.totalColumns := List.length (Object_keys first);
         DataAnalysisResult.columns := stats;
         DataAnalysisResult.dataPreview := slice0 5 (first :: rest);
         DataAnalysisResult.completeness := completeness;
         DataAnalysisResult.consistency := consistency;
         DataAnalysisResult.accuracy := accuracy;
         DataAnalysisResult.validity := validity;
         DataAnalysisResult.overallScore :=
           Math_round (fdiv (fadd (fadd (fadd completeness consistency) accuracy) validity)
                            (of_Z 4));
         DataAnalysisResult.summary :=
           DataAnalyzer.generateSummary (S (List.length rest))
                                        (List.length (Object_keys first)) stats |}.
Proof. reflexivity. Qed.

Lemma results_of_profiles Date_parse first rest first' rest' fileName :
  Object_keys first = Object_keys first' ->
  List.length rest = List.length rest' ->
  Forall2 same_profile (dataset_columns Date_parse (first :: rest))
                       (dataset_columns Date_parse (first' :: rest')) ->
  exists r r',
    DataAnalyzer.analyzeData Date_parse (first :: rest) fileName = Return r
    /\ DataAnalyzer.analyzeData Date_parse (first' :: rest') fileName = Return r'
    /\ DataAnalysisResult.columns r = dataset_columns Date_parse (first :: rest)
    /\ DataAnalysisResult.columns r' = dataset_columns Date_parse (first' :: rest')
    /\ same_scores r r'.
Proof.
  intros Hk Hlen H.
  destruct (scores_of_profiles _ _ H) as (E1 & E2 & E3 & E4 & E5).
  rewrite !analyzeData_cons.
  eexists. eexists. split; [reflexivity|]. split; [reflexivity|].
  split; [reflexivity|]. split; [reflexivity|].
  unfold same_scores.
  cbn [DataAnalysisResult.totalRows DataAnalysisResult.totalColumns
       DataAnalysisResult.completeness DataAnalysisResult.consistency
       DataAnalysisResult.accuracy DataAnalysisResult.validity
       DataAnalysisResult.overallScore DataAnalysisResult.summary].
  rewrite E1, E2, E3, E4, E5, Hk, Hlen. repeat split; reflexivity.
Qed.

(** The analysis reads the rows after the first only under the keys of the
    first record: rows that agree on those keys give the same columns,
    scores and summary, whatever else they hold. *)
Theorem analyzeData_reads_first_keys_only
        (Date_parse : string -> number) (first : record) (rest rest' : list record)
        (fileName : string) :
  Forall2 (agree_on (Object_keys first)) rest rest' ->
  exists r r',
    DataAnalyzer.analyzeData Date_parse (first :: rest) fileName = Return r
    /\ DataAnalyzer.analyzeData Date_parse (first :: rest') fileName = Return r'
    /\ DataAnalysisResult.columns r = DataAnalysisResult.columns r'
    /\ same_scores r r'.
Proof.
  intros H.
  assert (E : dataset_columns Date_parse (first :: rest)
              = dataset_columns Date_parse (first :: rest')).
  { unfold dataset_columns. apply map_ext_in. intros k Hk. f_equal.
    unfold column_values. cbn [map]. f_equal.
    induction H as [|a b l l' Hab _ IH]; cbn [map]; [reflexivity|].
    rewrite (Hab k Hk), IH. reflexivity. }
  destruct (results_of_profiles Date_parse first rest first rest' fileName eq_refl)
    as (r & r' & Hr & Hr' & Ec & Ec' & Hs).
  - eapply Forall2_length_eq; eauto.
  - rewrite E. clear. induction (dataset_columns Date_parse (first :: rest')); constructor;
      [apply same_profile_refl|assumption].
  - exists r, r'. rewrite Ec, Ec', E. auto.
Qed.

(** A second row with a key the first record lacks. *)
Lemma analyzeData_reads_first_keys_only_witness :
  exists r r',
    DataAnalyzer.analyzeData IsoHost.Date_parse
      [[("id", VNum (of_Z 1))]; [("id", VNum (of_Z 2)); ("note", VStr "late")]] "a.json"
    = Return r
    /\ DataAnalyzer.analyzeData IsoHost.Date_parse
         [[("id", VNum (of_Z 1))]; [("id", VNum (of_Z 2))]] "a.json"
       = Return r'
    /\ DataAnalysisResult.columns r = DataAnalysisResult.columns r'
    /\ same_scores r r'.
Proof.
  apply (analyzeData_reads_first_keys_only IsoHost.Date_parse
           [("id", VNum (of_Z 1))]
           [[("id", VNum (of_Z 2)); ("note", VStr "late")]]
           [[("id", VNum (of_Z 2))]] "a.json").
  constructor; [|constructor].
  intros k [<-|[]]. reflexivity.
Defined.

Lemma Permutation_filter_length {A} (f : A -> bool) l l' :
  Permutation l l' -> List.length (filter f l) = List.length (filter f l').
Proof.
  induction 1 as [|x l l' _ IH|x y l|l l' l'' _ IH1 _ IH2]; cbn [filter].
  - reflexivity.
  - destruct (f x); cbn [List.length]; congruence.
  - destruct (f x), (f y); reflexivity.
  - congruence.
Qed.

Lemma Permutation_filter' {A} (f : A -> bool) l l' :
  Permutation l l' -> Permutation (filter f l) (filter f l').
Proof.
  induction 1 as [|x l l' _ IH|x y l|l l' l'' _ IH1 _ IH2]; cbn [filter].
  - constructor.
  - destruct (f x); [constructor|]; assumption.
  - destruct (f x), (f y); try reflexivity. constructor.
  - eapply perm_trans; eassumption.
Qed.

Lemma Permutation_forallb {A} (f : A -> bool) l l' :
  Permutation l l' -> forallb f l = forallb f l'.
Proof.
  induction 1 as [|x l l' _ IH|x y l|l l' l'' _ IH1 _ IH2]; cbn [forallb].
  - reflexivity.
  - rewrite IH. reflexivity.
  - destruct (f x), (f y); reflexivity.
  - congruence.
Qed.

(** The number of distinct values does not depend on their order. *)
Lemma Permutation_Set_of_length l l' :
  Permutation l l' -> List.length (Set_of l) = List.length (Set_of l').
Proof.
  intros P.
  destruct (Set_of_spec l) as (D & C & S & _).
  destruct (Set_of_spec l') as (D' & C' & S' & _).
  apply Nat.le_antisymm; apply distinct_count_le; auto.
  - intros r Hr. apply C'. eapply Permutation_in; [exact P|]. apply S. exact Hr.
  - intros r Hr. apply C. eapply Permutation_in; [apply Permutation_sym; exact P|].
    apply S'. exact Hr.
Qed.

Lemma analyzeColumn_order (Date_parse : string -> number) name values values' :
  Permutation values values' ->
  same_profile (DataAnalyzer.analyzeColumn Date_parse name values)
               (DataAnalyzer.analyzeColumn Date_parse name values').
Proof.
  intros P.
  pose proof (Permutation_length P) as L.
  pose proof (Permutation_filter_length is_missing _ _ P) as Lm.
  pose proof (Permutation_Set_of_length _ _ (Permutation_filter' non_missing _ _ P)) as Lu.
  pose proof (Permutation_filter' non_missing _ _ P) as Pn.
  assert (Et : DataAnalyzer.inferDataType Date_parse values
               = DataAnalyzer.inferDataType Date_parse values').
  { unfold DataAnalyzer.inferDataType.
    rewrite (Permutation_length Pn).
    rewrite !(Permutation_forallb _ _ _ Pn). reflexivity. }
  assert (Em : DataAnalyzer.typeMismatches values = DataAnalyzer.typeMismatches values').
  { unfold DataAnalyzer.typeMismatches. apply Permutation_filter_length. exact P. }
  unfold same_profile, DataAnalyzer.analyzeColumn.
  cbn [ColumnStats.name ColumnStats.type ColumnStats.totalRows ColumnStats.nullCount
       ColumnStats.nullPercentage ColumnStats.uniqueCount ColumnStats.uniquePercentage
       ColumnStats.issues].
  rewrite L, Lm, Lu, Et. repeat split.
  rewrite !detectIssues_shape.
  unfold missing_issue, mismatch_issue, duplicate_issue, duplicateCount.
  rewrite L, Lm, Lu, Em. reflexivity.
Qed.

(** The order of the rows is not observed by the statistics: reordering
    the rows, the first record keeping its keys, changes no count, type,
    percentage or issue of any column, no score and not the summary. *)
Theorem analyzeData_row_order
        (Date_parse : string -> number) (first first' : record)
        (rest rest' : list record) (fileName : string) :
  Permutation (first :: rest) (first' :: rest') ->
  Object_keys first = Object_keys first' ->
  exists r r',
    DataAnalyzer.analyzeData Date_parse (first :: rest) fileName = Return r
    /\ DataAnalyzer.analyzeData Date_parse (first' :: rest') fileName = Return r'
    /\ Forall2 same_profile (DataAnalysisResult.columns r) (DataAnalysisResult.columns r')
    /\ same_scores r r'.
Proof.
  intros P Hk.
  assert (H : Forall2 same_profile (dataset_columns Date_parse (first :: rest))
                                   (dataset_columns Date_parse (first' :: rest'))).
  { unfold dataset_columns. rewrite <- Hk. clear Hk.
    induction (Object_keys first) as [|k ks IH]; cbn [map]; constructor; [|exact IH].
    apply analyzeColumn_order. unfold column_values. apply Permutation_map. exact P. }
  destruct (results_of_profiles Date_parse first rest first' rest' fileName Hk)
    as (r & r' & Hr & Hr' & Ec & Ec' & Hs).
  - apply Permutation_length in P. cbn in P. congruence.
  - exact H.
  - exists r, r'. rewrite Ec, Ec'. auto.
Qed.

(** Three rows, the first and the last exchanged. *)
Lemma analyzeData_row_order_witness :
  exists r r',
    DataAnalyzer.analyzeData IsoHost.Date_parse
      [[("a", VStr "x")]; [("a", VStr "")]; [("a", VStr "y")]] "a.csv" = Return r
    /\ DataAnalyzer.analyzeData IsoHost.Date_parse
         [[("a", VStr "y")]; [("a", VStr "")]; [("a", VStr "x")]] "a.csv" = Return r'
    /\ Forall2 same_profile (DataAnalysisResult.columns r) (DataAnalysisResult.columns r')
    /\ same_scores r r'.
Proof.
  apply (analyzeData_row_order IsoHost.Date_parse
           [("a", VStr "x")] [("a", VStr "y")]
           [[("a", VStr "")]; [("a", VStr "y")]]
           [[("a", VStr "")]; [("a", VStr "x")]] "a.csv").
  - apply Permutation_trans with [[("a", VStr "y")]; [("a", VStr "x")]; [("a", VStr "")]].
    + apply Permutation_trans with [[("a", VStr "x")]; [("a", VStr "y")]; [("a", VStr "")]].
      * apply perm_skip. apply perm_swap.
      * apply perm_swap.
    + apply perm_skip. apply perm_swap.
  - reflexivity.
Defined.

End RowsAndOrder.

(* ------------------------------------------------------------------ *)
(** *** Type order, penalty scores and the summary *)

Section TypesAndPenalties.
Local Open Scope string_scope.

Lemma length_zero_eqb {A} (l : list A) : (List.length l =? 0)%nat = true <-> l = [].
Proof. rewrite Nat.eqb_eq. apply length_zero_iff_nil. Qed.

Lemma inferDataType_prefix_rank (Date_parse : string -> number) (a b : list raw) :
  filter non_missing a <> [] ->
  (forall f, forallb f (filter non_missing b) = true ->
             forallb f (filter non_missing a) = true) ->
  (rank (DataAnalyzer.inferDataType Date_parse a)
   <= rank (DataAnalyzer.inferDataType Date_parse b))%nat.
Proof.
  intros Ha Hsub. unfold DataAnalyzer.inferDataType.
  destruct (List.length (filter non_missing a) =? 0)%nat eqn:Ea.
  { apply length_zero_eqb in Ea. contradiction. }
  destruct (List.length (filter non_missing b) =? 0)%nat; [cbn; repeat destruct (forallb _ _); cbn; lia|].
  pose proof (Hsub DataAnalyzer.is_boolean_like) as H1.
  pose proof (Hsub (DataAnalyzer.is_date_like Date_parse)) as H2.
  pose proof (Hsub DataAnalyzer.is_integer_like) as H3.
  pose proof (Hsub DataAnalyzer.is_float_like) as H4.
  destruct (forallb DataAnalyzer.is_boolean_like (filter non_missing b));
    [rewrite H1 by reflexivity; cbn; lia|].
  destruct (forallb (DataAnalyzer.is_date_like Date_parse) (filter non_missing b));
    [rewrite H2 by reflexivity; destruct (forallb _ _); cbn; lia|].
  destruct (forallb DataAnalyzer.is_integer_like (filter non_missing b));
    [rewrite H3 by reflexivity; repeat destruct (forallb _ _); cbn; lia|].
  destruct (forallb DataAnalyzer.is_float_like (filter non_missing b));
    [rewrite H4 by reflexivity; repeat destruct (forallb _ _); cbn; lia|].
  repeat destruct (forallb _ _); cbn; lia.
Qed.

(** More values can only move the inferred type later in the order
    boolean, date, integer, float, text: a column that has a non-missing
    value never gets an earlier type by being extended, at either end; and
    extending it with missing values only changes nothing. *)
Theorem inferDataType_more_values
        (Date_parse : string -> number) (values more : list raw) :
  filter non_missing values <> [] ->
  (rank (DataAnalyzer.inferDataType Date_parse values)
   <= rank (DataAnalyzer.inferDataType Date_parse (values ++ more)))%nat
  /\ (rank (DataAnalyzer.inferDataType Date_parse values)
      <= rank (DataAnalyzer.inferDataType Date_parse (more ++ values)))%nat
  /\ (filter non_missing more = [] ->
      DataAnalyzer.inferDataType Date_parse (values ++ more)
      = DataAnalyzer.inferDataType Date_parse values
      /\ DataAnalyzer.inferDataType Date_parse (more ++ values)
         = DataAnalyzer.inferDataType Date_parse values).
Proof.
  intros Hne. split; [|split].
  - apply inferDataType_prefix_rank; [exact Hne|].
    intros f. rewrite filter_app, forallb_app. intros H. apply andb_true_iff in H. tauto.
  - apply inferDataType_prefix_rank; [exact Hne|].
    intros f. rewrite filter_app, forallb_app. intros H. apply andb_true_iff in H. tauto.
  - intros Hm. unfold DataAnalyzer.inferDataType.
    rewrite !filter_app, Hm, app_nil_r. cbn [app]. auto.
Qed.

(** Integers, then a word. *)
Lemma inferDataType_more_values_witness :
  (rank (DataAnalyzer.inferDataType IsoHost.Date_parse [VNum (of_Z 7); VNum (of_Z 8)])
   <= rank (DataAnalyzer.inferDataType IsoHost.Date_parse
              ([VNum (of_Z 7); VNum (of_Z 8)] ++ [VStr "n/a"])))%nat
  /\ (rank (DataAnalyzer.inferDataType IsoHost.Date_parse [VNum (of_Z 7); VNum (of_Z 8)])
      <= rank (DataAnalyzer.inferDataType IsoHost.Date_parse
                 ([VStr "n/a"] ++ [VNum (of_Z 7); VNum (of_Z 8)])))%nat
  /\ (filter non_missing [VStr "n/a"] = [] ->
      DataAnalyzer.inferDataType IsoHost.Date_parse
        ([VNum (of_Z 7); VNum (of_Z 8)] ++ [VStr "n/a"])
      = DataAnalyzer.inferDataType IsoHost.Date_parse [VNum (of_Z 7); VNum (of_Z 8)]
      /\ DataAnalyzer.inferDataType IsoHost.Date_parse
           ([VStr "n/a"] ++ [VNum (of_Z 7); VNum (of_Z 8)])
         = DataAnalyzer.inferDataType IsoHost.Date_parse [VNum (of_Z 7); VNum (of_Z 8)]).
Proof.
  apply (inferDataType_more_values IsoHost.Date_parse
           [VNum (of_Z 7); VNum (of_Z 8)] [VStr "n/a"]).
  discriminate.
Defined.

Lemma of_Z_inj a b : of_Z a = of_Z b -> a = b.
Proof. unfold of_Z, inject_Z. intros H. injection H. auto. Qed.

Lemma count_zero_iff {A} (f : A -> bool) l :
  count f l = 0%Z <-> Forall (fun x => f x = false) l.
Proof.
  unfold count. induction l as [|x r IH]; cbn [filter].
  - split; [constructor|reflexivity].
  - destruct (f x) eqn:E.
    + cbn [List.length]. split; [lia|]. intros H. inversion H. congruence.
    + rewrite IH. split; [constructor; assumption|]. intros H. inversion H. assumption.
Qed.

(** Consistency is 100 less 5 for every text column and 5 for every column
    with an issue, floored at 0: it is 100 exactly when no column is text
    or has an issue, and 0 from twenty such penalties on. *)
Theorem calculateConsistency_formula (stats : list ColumnStats.t) :
  array_length_ok stats ->
  DataAnalyzer.calculateConsistency stats
  = of_Z (Z.max 0 (100 - 5 * (count is_text stats + count has_issues stats)))
  /\ (DataAnalyzer.calculateConsistency stats = of_Z 100
      <-> Forall (fun c => ColumnStats.type c <> Text /\ ColumnStats.issues c = []) stats)
  /\ (DataAnalyzer.calculateConsistency stats = of_Z 0
      <-> (20 <= count is_text stats + count has_issues stats)%Z).
Proof.
  intros Hl. rewrite (calculateConsistency_closed stats Hl).
  pose proof (count_bounds is_text stats) as B1.
  pose proof (count_bounds has_issues stats) as B2.
  split; [f_equal; lia|]. split.
  - split.
    + intros E. apply of_Z_inj in E.
      assert (Z1 : count is_text stats = 0%Z) by lia.
      assert (Z2 : count has_issues stats = 0%Z) by lia.
      apply count_zero_iff in Z1, Z2. rewrite Forall_forall in *.
      intros c Hc. specialize (Z1 c Hc). specialize (Z2 c Hc). split.
      * intros T. unfold is_text in Z1. rewrite T in Z1. discriminate.
      * unfold has_issues in Z2. destruct (ColumnStats.issues c); [reflexivity|discriminate].
    + intros H.
      assert (Z1 : count is_text stats = 0%Z).
      { apply count_zero_iff. eapply Forall_impl; [|exact H]. intros c [T _].
        unfold is_text. destruct (ColumnStats.type c); try reflexivity. congruence. }
      assert (Z2 : count has_issues stats = 0%Z).
      { apply count_zero_iff. eapply Forall_impl; [|exact H]. intros c [_ I].
        unfold has_issues. rewrite I. reflexivity. }
      f_equal. lia.
  - split; [intros E; apply of_Z_inj in E; lia|intros H; f_equal; lia].
Qed.

(** Validity is 100 less 10 for every text column whose unique percentage
    is below 80, floored at 0. *)
Theorem calculateValidity_formula (stats : list ColumnStats.t) :
  array_length_ok stats ->
  DataAnalyzer.calculateValidity stats
  = of_Z (Z.max 0 (100 - 10 * count low_unique_text stats))
  /\ (DataAnalyzer.calculateValidity stats = of_Z 100
      <-> Forall (fun c => ColumnStats.type c = Text ->
                           JSNumber.ltb (ColumnStats.uniquePercentage c) (of_Z 80) = false)
                 stats)
  /\ (DataAnalyzer.calculateValidity stats = of_Z 0
      <-> (10 <= count low_unique_text stats)%Z).
Proof.
  intros Hl. rewrite (calculateValidity_closed stats Hl).
  pose proof (count_bounds low_unique_text stats) as B.
  split; [reflexivity|]. split.
  - split.
    + intros E. apply of_Z_inj in E.
      assert (Z1 : count low_unique_text stats = 0%Z) by lia.
      apply count_zero_iff in Z1. eapply Forall_impl; [|exact Z1].
      intros c Hc T. unfold low_unique_text in Hc. rewrite T in Hc. exact Hc.
    + intros H.
      assert (Z1 : count low_unique_text stats = 0%Z).
      { apply count_zero_iff. eapply Forall_impl; [|exact H]. intros c Hc.
        unfold low_unique_text. cbn beta in Hc.
        destruct (ColumnStats.type c); try reflexivity.
        cbn [DataType_eqb andb]. apply Hc. reflexivity. }
      f_equal. lia.
  - split; [intros E; apply of_Z_inj in E; lia|intros H; f_equal; lia].
Qed.

(** The two text columns of the dataset with three of four values missing. *)
Lemma calculateConsistency_formula_witness :
  let stats := dataset_columns IsoHost.Date_parse three_of_four_missing in
  DataAnalyzer.calculateConsistency stats
  = of_Z (Z.max 0 (100 - 5 * (count is_text stats + count has_issues stats)))
  /\ (DataAnalyzer.calculateConsistency stats = of_Z 100
      <-> Forall (fun c => ColumnStats.type c <> Text /\ ColumnStats.issues c = []) stats)
  /\ (DataAnalyzer.calculateConsistency stats = of_Z 0
      <-> (20 <= count is_text stats + count has_issues stats)%Z).
Proof.
  apply (calculateConsistency_formula
           (dataset_columns IsoHost.Date_parse three_of_four_missing)).
  unfold array_length_ok. vm_compute. reflexivity.
Defined.

(** The same two columns, each with fewer than 80 per cent unique values. *)
Lemma calculateValidity_formula_witness :
  let stats := dataset_columns IsoHost.Date_parse three_of_four_missing in
  DataAnalyzer.calculateValidity stats
  = of_Z (Z.max 0 (100 - 10 * count low_unique_text stats))
  /\ (DataAnalyzer.calculateValidity stats = of_Z 100
      <-> Forall (fun c => ColumnStats.type c = Text ->
                           JSNumber.ltb (ColumnStats.uniquePercentage c) (of_Z 80) = false)
                 stats)
  /\ (DataAnalyzer.calculateValidity stats = of_Z 0
      <-> (10 <= count low_unique_text stats)%Z).
Proof.
  apply (calculateValidity_formula
           (dataset_columns IsoHost.Date_parse three_of_four_missing)).
  unfold array_length_ok. vm_compute. reflexivity.
Defined.

Lemma total_issues_cons c l :
  total_issues (c :: l) = (List.length (ColumnStats.issues c) + total_issues l)%nat.
Proof. reflexivity. Qed.

Lemma issue_count_fold stats : forall z,
  fold_left (fun sum col => (sum + List.length (ColumnStats.issues col))%nat) stats z
  = (z + total_issues stats)%nat.
Proof.
  induction stats as [|c l IH]; intros z; cbn [fold_left].
  - unfold total_issues. cbn. lia.
  - rewrite IH, total_issues_cons. lia.
Qed.

Lemma total_issues_bound stats :
  Forall few_issues stats -> (total_issues stats <= 3 * List.length stats)%nat.
Proof.
  induction 1 as [|c l Hc _ IH]; [cbn; lia|].
  rewrite total_issues_cons. cbn [List.length]. unfold few_issues in Hc. lia.
Qed.

(** The summary quotes the number of rows, the number of keys of the
    first record and the number of issue entries of all the columns, which
    is at most three per column. *)
Theorem summary_counts
        (Date_parse : string -> number) (first : record) (rest : list record)
        (fileName : string) :
  exists r,
    DataAnalyzer.analyzeData Date_parse (first :: rest) fileName = Return r
    /\ DataAnalysisResult.summary r
       = "Dataset with " ++ digits_of_nat (S (List.length rest))
         ++ " rows and " ++ digits_of_nat (List.length (Object_keys first))
         ++ " columns. Found " ++ digits_of_nat (total_issues (DataAnalysisResult.columns r))
         ++ " data quality issues."
    /\ (total_issues (DataAnalysisResult.columns r)
        <= 3 * DataAnalysisResult.totalColumns r)%nat.
Proof.
  rewrite analyzeData_cons. eexists. split; [reflexivity|].
  cbn [DataAnalysisResult.summary DataAnalysisResult.columns DataAnalysisResult.totalColumns].
  split.
  - unfold DataAnalyzer.generateSummary. rewrite issue_count_fold. reflexivity.
  - rewrite <- (dataset_columns_length Date_parse first rest).
    apply total_issues_bound. apply dataset_few_issues.
Qed.

End TypesAndPenalties.

(* ------------------------------------------------------------------ *)
(** *** The default insights *)

Section DefaultInsights.
Local Open Scope string_scope.

Lemma defaultInsights_priorities (analysis : DataAnalysisResult.t) :
  map AIInsight.priority (AIAnalyzer.defaultInsights analysis)
  = ((if JSNumber.ltb (DataAnalysisResult.completeness analysis) (of_Z 95)
      then [High] else [])
     ++ (if JSNumber.ltb (DataAnalysisResult.consistency analysis) (of_Z 85)
         then [Medium] else [])
     ++ (if JSNumber.ltb (DataAnalysisResult.accuracy analysis) (of_Z 80)
         then [High] else [])
     ++ (if JSNumber.ltb (DataAnalysisResult.validity analysis) (of_Z 90)
         then [Medium] else []))%list.
Proof.
  unfold AIAnalyzer.defaultInsights, push.
  destruct (JSNumber.ltb (DataAnalysisResult.completeness analysis) (of_Z 95));
  destruct (JSNumber.ltb (DataAnalysisResult.consistency analysis) (of_Z 85));
  destruct (JSNumber.ltb (DataAnalysisResult.accuracy analysis) (of_Z 80));
  destruct (JSNumber.ltb (DataAnalysisResult.validity analysis) (of_Z 90));
  reflexivity.
Qed.

(** [defaultInsights] answers with at most four insights, one for each
    score below its threshold (95, 85, 80, 90) in the order completeness,
    consistency, accuracy, validity; each is High or Medium, carries SQL
    and names no record; the list is empty exactly when no score is below
    its threshold. *)
Theorem defaultInsights_shape (analysis : DataAnalysisResult.t) :
  map AIInsight.priority (AIAnalyzer.defaultInsights analysis)
  = ((if JSNumber.ltb (DataAnalysisResult.completeness analysis) (of_Z 95)
      then [High] else [])
     ++ (if JSNumber.ltb (DataAnalysisResult.consistency analysis) (of_Z 85)
         then [Medium] else [])
     ++ (if JSNumber.ltb (DataAnalysisResult.accuracy analysis) (of_Z 80)
         then [High] else [])
     ++ (if JSNumber.ltb (DataAnalysisResult.validity analysis) (of_Z 90)
         then [Medium] else []))%list
  /\ (List.length (AIAnalyzer.defaultInsights analysis) <= 4)%nat
  /\ Forall default_shape (AIAnalyzer.defaultInsights analysis)
  /\ (AIAnalyzer.defaultInsights analysis = []
      <-> JSNumber.ltb (DataAnalysisResult.completeness analysis) (of_Z 95) = false
          /\ JSNumber.ltb (DataAnalysisResult.consistency analysis) (of_Z 85) = false
          /\ JSNumber.ltb (DataAnalysisResult.accuracy analysis) (of_Z 80) = false
          /\ JSNumber.ltb (DataAnalysisResult.validity analysis) (of_Z 90) = false).
Proof.
  unfold AIAnalyzer.defaultInsights, push, default_shape.
  destruct (JSNumber.ltb (DataAnalysisResult.completeness analysis) (of_Z 95));
  destruct (JSNumber.ltb (DataAnalysisResult.consistency analysis) (of_Z 85));
  destruct (JSNumber.ltb (DataAnalysisResult.accuracy analysis) (of_Z 80));
  destruct (JSNumber.ltb (DataAnalysisResult.validity analysis) (of_Z 90));
  cbn [app map List.length AIInsight.priority];
  (split; [reflexivity|]); (split; [lia|]);
  (split; [repeat constructor; cbn; discriminate|]);
  (split; [intros E; try discriminate E; auto | intros (A & B & C & D); try discriminate; reflexivity]).
Qed.

Lemma div_lt_iff a d t : (0 < d)%Z -> ((a / d <? t) = (a <? t * d))%Z.
Proof.
  intros Hd. destruct (Z.ltb_spec (a / d) t), (Z.ltb_spec a (t * d)); auto; exfalso.
  - assert (a / d < t)%Z by assumption.
    pose proof (Z.div_le_lower_bound a d t Hd). nia.
  - pose proof (Z.div_lt_upper_bound a d t Hd). nia.
Qed.

(** Which default insights a dataset with at least one column gets: the
    completeness insight when the mean missing rate exceeds 5.5, the
    consistency insight from four text columns or columns with issues on,
    the accuracy insight from three columns with a type mismatch on, the
    validity insight from two text columns with a unique percentage below
    80 on. *)
Theorem defaultInsights_thresholds
        (Date_parse : string -> number) (first : record) (rest : list record)
        (fileName : string) :
  Object_keys first <> [] -> array_length_ok (Object_keys first) ->
  array_length_ok (first :: rest) ->
  exists r,
    DataAnalyzer.analyzeData Date_parse (first :: rest) fileName = Return r
    /\ map AIInsight.priority (AIAnalyzer.defaultInsights r)
       = ((if (11 * Z.of_nat (List.length (DataAnalysisResult.columns r))
               <? 2 * sum_rates (DataAnalysisResult.columns r))%Z
           then [High] else [])
          ++ (if (4 <=? count is_text (DataAnalysisResult.columns r)
                        + count has_issues (DataAnalysisResult.columns r))%Z
              then [Medium] else [])
          ++ (if (3 <=? mismatch_columns Date_parse (first :: rest))%Z
              then [High] else [])
          ++ (if (2 <=? count low_unique_text (DataAnalysisResult.columns r))%Z
              then [Medium] else []))%list.
Proof.
  intros Hne Hl Hd. rewrite analyzeData_cons. eexists. split; [reflexivity|].
  rewrite defaultInsights_priorities.
  cbn [DataAnalysisResult.completeness DataAnalysisResult.consistency
       DataAnalysisResult.accuracy DataAnalysisResult.validity DataAnalysisResult.columns].
  set (stats := dataset_columns Date_parse (first :: rest)).
  assert (Hlen : List.length stats = List.length (Object_keys first))
    by apply dataset_columns_length.
  assert (Hok : array_length_ok stats) by (unfold array_length_ok in *; rewrite Hlen; exact Hl).
  assert (Hne' : stats <> []).
  { intros E. rewrite E in Hlen. destruct (Object_keys first); [congruence|discriminate]. }
  assert (Hpos : (0 < Z.of_nat (List.length stats))%Z).
  { destruct stats; [congruence | cbn [List.length]; lia]. }
  pose proof (dataset_rate_ok Date_parse (first :: rest)) as Hrate. fold stats in Hrate.
  pose proof (dataset_few_issues Date_parse (first :: rest)) as Hfew. fold stats in Hfew.
  pose proof (sum_rates_bounds stats Hrate) as Hb.
  rewrite (calculateCompleteness_closed stats Hne' Hok Hrate).
  rewrite (calculateConsistency_closed stats Hok).
  rewrite (calculateAccuracy_closed stats Hok Hfew).
  rewrite (calculateValidity_closed stats Hok).
  rewrite !ltb_int.
  assert (Emis : total_non_numeric stats = mismatch_columns Date_parse (first :: rest)).
  { unfold stats, dataset_columns, mismatch_columns.
    apply total_non_numeric_columns; [discriminate|exact Hd]. }
  rewrite Emis.
  pose proof (count_bounds is_text stats). pose proof (count_bounds has_issues stats).
  pose proof (count_bounds low_unique_text stats).
  assert (0 <= mismatch_columns Date_parse (first :: rest))%Z.
  { unfold mismatch_columns. apply count_bounds. }
  f_equal; [|f_equal; [|f_equal]].
  - unfold round_half_up_div. rewrite div_lt_iff by lia.
    replace (11 * Z.of_nat (List.length stats) <? 2 * sum_rates stats)%Z
      with (2 * (100 * Z.of_nat (List.length stats) - sum_rates stats)
            + Z.of_nat (List.length stats) <? 95 * (2 * Z.of_nat (List.length stats)))%Z;
      [reflexivity|].
    destruct (Z.ltb_spec (2 * (100 * Z.of_nat (List.length stats) - sum_rates stats)
                          + Z.of_nat (List.length stats))
                         (95 * (2 * Z.of_nat (List.length stats)))),
             (Z.ltb_spec (11 * Z.of_nat (List.length stats)) (2 * sum_rates stats));
      auto; lia.
  - replace (Z.max 0 (100 - 5 * count is_text stats - 5 * count has_issues stats) <? 85)%Z
      with (4 <=? count is_text stats + count has_issues stats)%Z; [reflexivity|].
    destruct (Z.leb_spec 4 (count is_text stats + count has_issues stats)),
             (Z.ltb_spec (Z.max 0 (100 - 5 * count is_text stats - 5 * count has_issues stats)) 85);
      auto; lia.
  - replace (Z.max 0 (100 - 10 * mismatch_columns Date_parse (first :: rest)) <? 80)%Z
      with (3 <=? mismatch_columns Date_parse (first :: rest))%Z; [reflexivity|].
    destruct (Z.leb_spec 3 (mismatch_columns Date_parse (first :: rest))),
             (Z.ltb_spec (Z.max 0 (100 - 10 * mismatch_columns Date_parse (first :: rest))) 80);
      auto; lia.
  - replace (Z.max 0 (100 - 10 * count low_unique_text stats) <? 90)%Z
      with (2 <=? count low_unique_text stats)%Z; [reflexivity|].
    destruct (Z.leb_spec 2 (count low_unique_text stats)),
             (Z.ltb_spec (Z.max 0 (100 - 10 * count low_unique_text stats)) 90);
      auto; lia.
Qed.

(** The dataset with three of four values of one column missing: the mean
    missing rate is 37.5, both columns are text. *)
Lemma defaultInsights_thresholds_witness :
  exists r,
    DataAnalyzer.analyzeData IsoHost.Date_parse
      ([("a", VStr "x"); ("b", VStr "p")]
       :: [ [("a", VStr "");  ("b", VStr "q")];
            [("a", VStr "");  ("b", VStr "r")];
            [("a", VStr "");  ("b", VStr "s")] ]) "data.csv" = Return r
    /\ map AIInsight.priority (AIAnalyzer.defaultInsights r)
       = ((if (11 * Z.of_nat (List.length (DataAnalysisResult.columns r))
               <? 2 * sum_rates (DataAnalysisResult.columns r))%Z
           then [High] else [])
          ++ (if (4 <=? count is_text (DataAnalysisResult.columns r)
                        + count has_issues (DataAnalysisResult.columns r))%Z
              then [Medium] else [])
          ++ (if (3 <=? mismatch_columns IsoHost.Date_parse
                          ([("a", VStr "x"); ("b", VStr "p")]
                           :: [ [("a", VStr "");  ("b", VStr "q")];
                                [("a", VStr "");  ("b", VStr "r")];
                                [("a", VStr "");  ("b", VStr "s")] ]))%Z
              then [High] else [])
          ++ (if (2 <=? count low_unique_text (DataAnalysisResult.columns r))%Z
              then [Medium] else []))%list.
Proof.
  apply (defaultInsights_thresholds IsoHost.Date_parse
           [("a", VStr "x"); ("b", VStr "p")]
           [ [("a", VStr "");  ("b", VStr "q")];
             [("a", VStr "");  ("b", VStr "r")];
             [("a", VStr "");  ("b", VStr "s")] ] "data.csv").
  - discriminate.
  - unfold array_length_ok. cbn. lia.
  - unfold array_length_ok. cbn. lia.
Defined.

End DefaultInsights.

(* ------------------------------------------------------------------ *)
(** *** The answer of the service *)

Section ServiceAnswer.
Local Open Scope string_scope.

Lemma generateInsights_cases
      (chat_completions_create : string -> outcome ChatCompletion.t)
      (JSON_parse : string -> outcome (list AIInsight.t))
      (analysis : DataAnalysisResult.t) :
  AIAnalyzer.generateInsights chat_completions_create JSON_parse analysis
  = Return (map UserIssue.insight (AIAnalyzer.extractUserSpecificIssues analysis)
            ++ answer_or_default chat_completions_create JSON_parse analysis)%list.
Proof.
  unfold AIAnalyzer.generateInsights, answer_or_default.
  destruct (chat_completions_create _) as [response|e]; cbn [bind try_catch]; [|reflexivity].
  destruct (AIAnalyzer.match_json_array _) as [jsonMatch|]; [|reflexivity].
  destruct (JSON_parse jsonMatch) as [insights|e]; reflexivity.
Qed.

(** [generateInsights] never fails, whatever the service and the parser
    do: it returns the per-record insights followed by the parsed answer
    of the service or, when the call, the bracketed span or the parsing
    fails, by the default insights. *)
Theorem generateInsights_total
        (chat_completions_create : string -> outcome ChatCompletion.t)
        (JSON_parse : string -> outcome (list AIInsight.t))
        (analysis : DataAnalysisResult.t) :
  ~ throws (AIAnalyzer.generateInsights chat_completions_create JSON_parse analysis)
  /\ AIAnalyzer.generateInsights chat_completions_create JSON_parse analysis
     = Return (map UserIssue.insight (AIAnalyzer.extractUserSpecificIssues analysis)
               ++ answer_or_default chat_completions_create JSON_parse analysis)%list
  /\ (answer_or_default chat_completions_create JSON_parse analysis
      = AIAnalyzer.defaultInsights analysis
      \/ exists response jsonMatch,
           chat_completions_create
             (AIAnalyzer.prompt_of analysis (AIAnalyzer.extractUserSpecificIssues analysis))
           = Return response
           /\ AIAnalyzer.match_json_array (AIAnalyzer.responseText_of response) = Some jsonMatch
           /\ JSON_parse jsonMatch
              = Return (answer_or_default chat_completions_create JSON_parse analysis)).
Proof.
  rewrite generateInsights_cases. split; [cbn; tauto|]. split; [reflexivity|].
  unfold answer_or_default.
  destruct (chat_completions_create _) as [response|e] eqn:Ec; [|left; reflexivity].
  destruct (AIAnalyzer.match_json_array _) as [jsonMatch|] eqn:Em; [|left; reflexivity].
  destruct (JSON_parse jsonMatch) as [insights|e] eqn:Ej; [|left; reflexivity].
  right. exists response, jsonMatch. auto.
Qed.

(** *** The bracketed span *)

Lemma from_first_open_app pre rest :
  existsb (Ascii.eqb "[") pre = false ->
  AIAnalyzer.from_first_open (pre ++ "["%char :: rest) = Some rest.
Proof.
  induction pre as [|c r IH]; cbn [app AIAnalyzer.from_first_open existsb]; [reflexivity|].
  intros H. apply orb_false_iff in H as [Hc Hr].
  rewrite Ascii.eqb_sym, Hc. apply IH. exact Hr.
Qed.

Lemma from_first_open_inv l rest :
  AIAnalyzer.from_first_open l = Some rest ->
  exists pre, l = (pre ++ "["%char :: rest)%list /\ existsb (Ascii.eqb "[") pre = false.
Proof.
  induction l as [|c r IH]; cbn [AIAnalyzer.from_first_open]; [discriminate|].
  destruct (Ascii.eqb c "[") eqn:E.
  - intros H. injection H as <-. apply Ascii.eqb_eq in E. subst c. exists []. auto.
  - intros H. destruct (IH H) as (pre & -> & Hp). exists (c :: pre). split; [reflexivity|].
    cbn [existsb]. rewrite Ascii.eqb_sym, E. exact Hp.
Qed.

Lemma upto_last_close_none post :
  existsb (Ascii.eqb "]") post = false -> AIAnalyzer.upto_last_close post = None.
Proof.
  induction post as [|c r IH]; cbn [AIAnalyzer.upto_last_close existsb]; [reflexivity|].
  intros H. apply orb_false_iff in H as [Hc Hr]. rewrite (IH Hr), Ascii.eqb_sym, Hc. reflexivity.
Qed.

Lemma upto_last_close_app mid post :
  existsb (Ascii.eqb "]") post = false ->
  AIAnalyzer.upto_last_close (mid ++ "]"%char :: post) = Some (mid ++ ["]"%char])%list.
Proof.
  intros H. induction mid as [|c r IH]; cbn [app AIAnalyzer.upto_last_close].
  - rewrite (upto_last_close_none post H). reflexivity.
  - rewrite IH. reflexivity.
Qed.

Lemma upto_last_close_inv l m :
  AIAnalyzer.upto_last_close l = Some m ->
  exists mid post, l = (mid ++ "]"%char :: post)%list /\ m = (mid ++ ["]"%char])%list
                   /\ existsb (Ascii.eqb "]") post = false.
Proof.
  revert m. induction l as [|c r IH]; intros m; cbn [AIAnalyzer.upto_last_close]; [discriminate|].
  destruct (AIAnalyzer.upto_last_close r) as [m'|] eqn:E.
  - intros H. injection H as <-. destruct (IH m' eq_refl) as (mid & post & -> & -> & Hp).
    exists (c :: mid), post. auto.
  - destruct (Ascii.eqb c "]") eqn:Ec; [|discriminate].
    intros H. injection H as <-. apply Ascii.eqb_eq in Ec. subst c.
    exists [], r. split; [reflexivity|]. split; [reflexivity|].
    clear IH. induction r as [|d r IH]; [reflexivity|].
    cbn [AIAnalyzer.upto_last_close] in E. cbn [existsb].
    destruct (AIAnalyzer.upto_last_close r); [discriminate|].
    destruct (Ascii.eqb d "]") eqn:Ed; [discriminate|].
    rewrite Ascii.eqb_sym, Ed. apply IH. reflexivity.
Qed.

Lemma string_of_chars s : string_of_list_ascii (chars s) = s.
Proof. apply string_of_list_ascii_of_string. Qed.

Lemma string_of_list_app l l' :
  string_of_list_ascii (l ++ l') = string_of_list_ascii l ++ string_of_list_ascii l'.
Proof. induction l as [|c r IH]; cbn; [reflexivity|]. rewrite IH. reflexivity. Qed.

Lemma match_json_array_wrapped pre mid post :
  has_char "[" pre = false -> has_char "]" post = false ->
  AIAnalyzer.match_json_array (pre ++ "[" ++ mid ++ "]" ++ post) = Some ("[" ++ mid ++ "]").
Proof.
  unfold AIAnalyzer.match_json_array, has_char. intros Hp Hq.
  change (list_ascii_of_string (pre ++ "[" ++ mid ++ "]" ++ post))
    with (chars (pre ++ "[" ++ mid ++ "]" ++ post)).
  rewrite chars_app. change ("[" ++ mid ++ "]" ++ post) with (String "[" (mid ++ "]" ++ post)).
  rewrite chars_cons, from_first_open_app by exact Hp.
  rewrite chars_app. change ("]" ++ post) with (String "]" post).
  rewrite chars_cons, upto_last_close_app by exact Hq.
  rewrite string_of_list_app, string_of_chars. reflexivity.
Qed.

(** The text handed to [JSON.parse] is the span from the first opening
    bracket of the answer to its last closing bracket: a span is found
    exactly when the answer reads [pre[mid]post] with no opening bracket
    in [pre] and no closing bracket in [post], and it is [[mid]]. *)
Theorem match_json_array_span (responseText jsonMatch : string) :
  AIAnalyzer.match_json_array responseText = Some jsonMatch
  <-> exists pre mid post,
        responseText = pre ++ "[" ++ mid ++ "]" ++ post
        /\ jsonMatch = "[" ++ mid ++ "]"
        /\ has_char "[" pre = false
        /\ has_char "]" post = false.
Proof.
  unfold AIAnalyzer.match_json_array, has_char. split.
  - destruct (AIAnalyzer.from_first_open _) as [after|] eqn:E1; [|discriminate].
    destruct (AIAnalyzer.upto_last_close after) as [m|] eqn:E2; [|discriminate].
    intros H. injection H as <-.
    apply from_first_open_inv in E1 as (pre & E1 & Hp).
    apply upto_last_close_inv in E2 as (mid & post & -> & -> & Hq).
    exists (string_of_list_ascii pre), (string_of_list_ascii mid), (string_of_list_ascii post).
    unfold chars. rewrite !list_ascii_of_string_of_list_ascii.
    split; [|split; [|split; assumption]].
    + rewrite <- (string_of_chars responseText). unfold chars. rewrite E1.
      rewrite string_of_list_app. cbn [string_of_list_ascii]. rewrite string_of_list_app.
      reflexivity.
    + rewrite string_of_list_app. reflexivity.
  - intros (pre & mid & post & -> & -> & Hp & Hq).
    apply match_json_array_wrapped; assumption.
Qed.

(** When the service answers with a JSON array wrapped in prose and the
    array parses, the result is the per-record insights followed by the
    parsed ones; the prose around the array is dropped. *)
Theorem generateInsights_uses_answer
        (chat_completions_create : string -> outcome ChatCompletion.t)
        (JSON_parse : string -> outcome (list AIInsight.t))
        (analysis : DataAnalysisResult.t) (response : ChatCompletion.t)
        (pre mid post : string) (insights : list AIInsight.t) :
  chat_completions_create
    (AIAnalyzer.prompt_of analysis (AIAnalyzer.extractUserSpecificIssues analysis))
  = Return response ->
  AIAnalyzer.responseText_of response = pre ++ "[" ++ mid ++ "]" ++ post ->
  has_char "[" pre = false -> has_char "]" post = false ->
  JSON_parse ("[" ++ mid ++ "]") = Return insights ->
  AIAnalyzer.generateInsights chat_completions_create JSON_parse analysis
  = Return (map UserIssue.insight (AIAnalyzer.extractUserSpecificIssues analysis)
            ++ insights)%list.
Proof.
  intros Hc Ht Hp Hq Hj. rewrite generateInsights_cases. unfold answer_or_default.
  rewrite Hc, Ht, (match_json_array_wrapped pre mid post Hp Hq), Hj. reflexivity.
Qed.

(** An answer with the array in the middle of a sentence. *)
Lemma generateInsights_uses_answer_witness :
  AIAnalyzer.generateInsights service_wrapped JSON_parse_one scenario_C_analysis
  = Return (map UserIssue.insight (AIAnalyzer.extractUserSpecificIssues scenario_C_analysis)
            ++ [AIInsight.Build Low "" "" None None None])%list.
Proof.
  apply (generateInsights_uses_answer service_wrapped JSON_parse_one scenario_C_analysis
           (ChatCompletion.Build
              [ChatCompletion.BuildChoice (Some (Some "Here you go: [{}] Hope it helps."))])
           "Here you go: " "{}" " Hope it helps.").
  - reflexivity.
  - reflexivity.
  - reflexivity.
  - reflexivity.
  - reflexivity.
Defined.




End ServiceAnswer.

(* ------------------------------------------------------------------ *)
(** *** The per-record insights of a dataset *)

Section PerRecordBounds.
Local Open Scope string_scope.

Lemma per_record_length idName row : (List.length (per_record idName row) <= 1)%nat.
Proof. unfold per_record. destruct (missing_fields idName row); cbn; lia. Qed.

Lemma flat_map_length_le {A B} (f : A -> list B) l :
  (forall x, (List.length (f x) <= 1)%nat) ->
  (List.length (flat_map f l) <= List.length l)%nat.
Proof.
  intros H. induction l as [|x r IH]; cbn [flat_map List.length]; [lia|].
  rewrite length_app. specialize (H x). lia.
Qed.

Lemma per_record_has_shape idName row u :
  In u (per_record idName row) ->
  per_record_shape u
  /\ UserIssue.userId u = get row idName
  /\ AIInsight.affectedColumns (UserIssue.insight u) = Some (missing_fields idName row).
Proof.
  unfold per_record. destruct (missing_fields idName row) as [|m ms] eqn:E; [intros []|].
  intros [<-|[]]. unfold per_record_shape, recommendation_for.
  cbn [UserIssue.userId UserIssue.insight AIInsight.userId AIInsight.sqlFix
       AIInsight.affectedColumns AIInsight.priority].
  split; [|auto]. split; [reflexivity|]. split; [reflexivity|].
  exists (m :: ms). split; [reflexivity|]. split; [discriminate|reflexivity].
Qed.

Lemma extract_as_flat_map analysis :
  AIAnalyzer.extractUserSpecificIssues analysis
  = match find AIAnalyzer.is_id_column (DataAnalysisResult.columns analysis) with
    | None => []
    | Some idColumn =>
        flat_map (per_record (ColumnStats.name idColumn))
                 (DataAnalysisResult.dataPreview analysis)
    end.
Proof.
  unfold AIAnalyzer.extractUserSpecificIssues.
  destruct (find _ _) as [idColumn|]; [|reflexivity].
  destruct (DataAnalysisResult.dataPreview analysis) as [|row rows] eqn:E; [reflexivity|].
  cbn [List.length Nat.eqb]. rewrite scan_rows_fold. reflexivity.
Qed.

(** The per-record insights of an analysed dataset concern its first five
    rows only: there are at most five of them, at most one for a row, each
    High or Medium with the id of its row, the missing fields of that row
    and no SQL; the id column is never among the missing fields. *)
Theorem per_record_insights_bounded
        (Date_parse : string -> number) (first : record) (rest : list record)
        (fileName : string) :
  exists r,
    DataAnalyzer.analyzeData Date_parse (first :: rest) fileName = Return r
    /\ (List.length (AIAnalyzer.extractUserSpecificIssues r)
        <= Nat.min 5 (DataAnalysisResult.totalRows r))%nat
    /\ Forall per_record_shape (AIAnalyzer.extractUserSpecificIssues r)
    /\ forall u, In u (AIAnalyzer.extractUserSpecificIssues r) ->
         exists idColumn row,
           find AIAnalyzer.is_id_column (DataAnalysisResult.columns r) = Some idColumn
           /\ In row (firstn 5 (first :: rest))
           /\ UserIssue.userId u = get row (ColumnStats.name idColumn)
           /\ AIInsight.affectedColumns (UserIssue.insight u)
              = Some (missing_fields (ColumnStats.name idColumn) row)
           /\ ~ In (ColumnStats.name idColumn)
                   (missing_fields (ColumnStats.name idColumn) row).
Proof.
  rewrite analyzeData_cons. eexists. split; [reflexivity|].
  set (r := DataAnalysisResult.Build _ _ _ _ _ _ _ _ _ _ _).
  rewrite (extract_as_flat_map r).
  change (DataAnalysisResult.dataPreview r) with (firstn 5 (first :: rest)).
  change (DataAnalysisResult.totalRows r) with (List.length (first :: rest)).
  destruct (find AIAnalyzer.is_id_column (DataAnalysisResult.columns r)) as [idColumn|].
  - split; [|split].
    + rewrite <- length_firstn. apply flat_map_length_le. intros row. apply per_record_length.
    + apply Forall_forall. intros u Hu. apply in_flat_map in Hu as (row & _ & Hu).
      apply (per_record_has_shape _ _ _ Hu).
    + intros u Hu. apply in_flat_map in Hu as (row & Hrow & Hu).
      destruct (per_record_has_shape _ _ _ Hu) as (_ & Hid & Hm).
      exists idColumn, row. repeat split; auto.
      unfold missing_fields. intros Hin. apply filter_In in Hin as [_ Hin].
      rewrite String.eqb_refl in Hin. discriminate.
  - split; [cbn; lia|]. split; [constructor|intros u []].
Qed.

End PerRecordBounds.

(* ------------------------------------------------------------------ *)
(** *** File extensions *)

Section Extensions.
Local Open Scope string_scope.

Lemma lower_char_dot c : Ascii.eqb (lower_char c) "." = Ascii.eqb c ".".
Proof. destruct c as [[] [] [] [] [] [] [] []]; reflexivity. Qed.

Lemma split_nonempty sep s : Pages.split sep s <> [].
Proof.
  destruct s as [|c r]; cbn [Pages.split]; [discriminate|].
  destruct (Ascii.eqb c sep); [discriminate|].
  destruct (Pages.split sep r); discriminate.
Qed.

Lemma pop_cons x l : l <> [] -> Pages.pop (x :: l) = Pages.pop l.
Proof. destruct l; [congruence|reflexivity]. Qed.

Lemma pop_map (f : string -> string) l :
  Pages.pop (map f l) = option_map f (Pages.pop l).
Proof.
  induction l as [|x r IH]; [reflexivity|].
  destruct r as [|y r']; [reflexivity|].
  change (map f (x :: y :: r')) with (f x :: map f (y :: r')).
  rewrite pop_cons by discriminate. rewrite IH. reflexivity.
Qed.

Lemma split_toLowerCase s :
  Pages.split "." (toLowerCase s) = map toLowerCase (Pages.split "." s).
Proof.
  induction s as [|c r IH]; [reflexivity|].
  cbn [toLowerCase Pages.split]. rewrite lower_char_dot.
  destruct (Ascii.eqb c "."); [cbn [map]; rewrite IH; reflexivity|].
  rewrite IH. destruct (Pages.split "." r); reflexivity.
Qed.

Lemma extension_of_lower name :
  Pages.extension_of name = Pages.pop (Pages.split "." (toLowerCase name)).
Proof. unfold Pages.extension_of. rewrite split_toLowerCase, pop_map. reflexivity. Qed.

Lemma has_char_cons c d r :
  has_char c (String d r) = Ascii.eqb c d || has_char c r.
Proof. reflexivity. Qed.

Lemma split_single s : has_char "." s = false <-> Pages.split "." s = [s].
Proof.
  induction s as [|c r IH]; [cbn; tauto|].
  rewrite has_char_cons. cbn [Pages.split]. rewrite (Ascii.eqb_sym "."%char c).
  destruct (Ascii.eqb c ".") eqn:E; cbn [orb].
  - split; [discriminate|]. intros H. injection H as H _. discriminate.
  - rewrite IH. destruct (Pages.split "." r) as [|seg segs] eqn:Es.
    + exfalso. exact (split_nonempty _ _ Es).
    + split.
      * intros H. injection H as -> ->. reflexivity.
      * intros H. injection H as -> ->. reflexivity.
Qed.

Lemma split_one s seg : Pages.split "." s = [seg] -> has_char "." s = false.
Proof.
  revert seg. induction s as [|d t IH]; intros seg Es; [reflexivity|].
  rewrite has_char_cons, (Ascii.eqb_sym "."%char d). cbn [Pages.split] in Es.
  destruct (Ascii.eqb d ".").
  - injection Es as _ Es. exfalso. exact (split_nonempty _ _ Es).
  - cbn [orb]. destruct (Pages.split "." t) as [|sg sgs] eqn:Et.
    + exfalso. exact (split_nonempty _ _ Et).
    + injection Es as _ ->. apply (IH sg). reflexivity.
Qed.

Lemma endsWith_has_dot s w : endsWith s (String "." w) = true -> has_char "." s = true.
Proof.
  induction s as [|c r IH]; cbn [endsWith]; [cbn; discriminate|].
  intros H. rewrite has_char_cons. apply orb_true_iff in H as [H|H].
  - apply String.eqb_eq in H. injection H as -> _. reflexivity.
  - rewrite (IH H). apply orb_true_r.
Qed.

Lemma pop_split_dot_free s w :
  Pages.pop (Pages.split "." s) = Some w -> has_char "." w = false.
Proof.
  revert w. induction s as [|c r IH]; intros w.
  - cbn. intros H. injection H as <-. reflexivity.
  - cbn [Pages.split]. destruct (Ascii.eqb c ".") eqn:E.
    + rewrite pop_cons by apply split_nonempty. apply IH.
    + destruct (Pages.split "." r) as [|seg segs] eqn:Es.
      * exfalso. exact (split_nonempty _ _ Es).
      * destruct segs as [|y l].
        -- cbn [Pages.pop]. intros H. injection H as <-.
           rewrite has_char_cons, (Ascii.eqb_sym "."%char c), E. cbn [orb].
           apply IH. reflexivity.
        -- rewrite pop_cons by discriminate. intros H. apply IH.
           rewrite pop_cons by discriminate. exact H.
Qed.

(** The last segment is [w] when the name ends with a dot and the dot-free
    text [w]. *)
Lemma pop_split_suffix s w :
  has_char "." w = false -> endsWith s (String "." w) = true ->
  Pages.pop (Pages.split "." s) = Some w.
Proof.
  intros Hw. induction s as [|c r IH]; cbn [endsWith]; [cbn; discriminate|].
  intros H. apply orb_true_iff in H as [H|H].
  - apply String.eqb_eq in H. injection H as -> ->. cbn [Pages.split].
    rewrite Ascii.eqb_refl, pop_cons by apply split_nonempty.
    rewrite (proj1 (split_single w) Hw). reflexivity.
  - specialize (IH H). cbn [Pages.split]. destruct (Ascii.eqb c ".").
    + rewrite pop_cons by apply split_nonempty. exact IH.
    + destruct (Pages.split "." r) as [|seg segs] eqn:Es.
      * exfalso. exact (split_nonempty _ _ Es).
      * destruct segs as [|y l].
        -- exfalso. apply split_one in Es.
           rewrite (endsWith_has_dot _ _ H) in Es. discriminate.
        -- rewrite pop_cons by discriminate. rewrite pop_cons in IH by discriminate. exact IH.
Qed.

(** The last segment of a name is the whole name or follows its last dot. *)
Lemma pop_split_inv s w :
  Pages.pop (Pages.split "." s) = Some w ->
  s = w \/ endsWith s (String "." w) = true.
Proof.
  revert w. induction s as [|c r IH]; intros w.
  - cbn. intros H. injection H as <-. auto.
  - cbn [Pages.split]. destruct (Ascii.eqb c ".") eqn:E.
    + rewrite pop_cons by apply split_nonempty. intros H. right.
      apply Ascii.eqb_eq in E. subst c. cbn [endsWith].
      destruct (IH w H) as [->|Hr].
      * rewrite String.eqb_refl. reflexivity.
      * rewrite Hr. apply orb_true_r.
    + destruct (Pages.split "." r) as [|seg segs] eqn:Es.
      * exfalso. exact (split_nonempty _ _ Es).
      * destruct segs as [|y l].
        -- cbn [Pages.pop]. intros H. injection H as <-. left.
           pose proof (split_one _ _ Es) as Hr.
           apply split_single in Hr. congruence.
        -- rewrite pop_cons by discriminate. intros H. right. cbn [endsWith].
           destruct (IH w) as [->|Hr].
           ++ rewrite pop_cons by discriminate. exact H.
           ++ exfalso. pose proof (pop_split_dot_free w w) as P. rewrite Es in P.
              rewrite pop_cons in P by discriminate. specialize (P H).
              apply split_single in P. congruence.
           ++ rewrite Hr. apply orb_true_r.
Qed.

(** The upload form and the analysis page agree on the extension: a name
    the form accepts as CSV goes to [analyzeCSV], one it accepts as JSON to
    [analyzeJSON]; and a name the form rejects is unsupported on the page
    too, unless it is, up to case, the bare word csv or json. *)
Theorem upload_and_dispatch_agree
        (analyzeCSV analyzeJSON : string -> string -> outcome DataAnalysisResult.t)
        (decodedData name : string) :
  (endsWith (toLowerCase name) ".csv" = true ->
   Pages.analyzeFile analyzeCSV analyzeJSON decodedData name = analyzeCSV decodedData name)
  /\ (endsWith (toLowerCase name) ".json" = true ->
      Pages.analyzeFile analyzeCSV analyzeJSON decodedData name = analyzeJSON decodedData name)
  /\ (Pages.hasValidExtension name = false ->
      toLowerCase name <> "csv" -> toLowerCase name <> "json" ->
      Pages.analyzeFile analyzeCSV analyzeJSON decodedData name
      = Throw "Unsupported file format").
Proof.
  unfold Pages.analyzeFile. rewrite extension_of_lower. split; [|split].
  - intros H. rewrite (pop_split_suffix _ "csv" eq_refl H). reflexivity.
  - intros H. rewrite (pop_split_suffix _ "json" eq_refl H). reflexivity.
  - unfold Pages.hasValidExtension, Pages.ALLOWED_TYPES. cbn [existsb].
    rewrite orb_false_r. intros H N1 N2. apply orb_false_iff in H as [H1 H2].
    destruct (Pages.pop (Pages.split "." (toLowerCase name))) as [ext|] eqn:E; [|reflexivity].
    destruct (String.eqb ext "csv") eqn:E1.
    + apply String.eqb_eq in E1. subst ext. apply pop_split_inv in E as [E|E]; congruence.
    + destruct (String.eqb ext "json") eqn:E2; [|reflexivity].
      apply String.eqb_eq in E2. subst ext. apply pop_split_inv in E as [E|E]; congruence.
Qed.

End Extensions.

(* ------------------------------------------------------------------ *)
(** *** The JSON entry point and the extreme datasets *)

Section EntryAndEdges.
Local Open Scope string_scope.

Lemma prefix_append p e : prefix p (p ++ e) = true.
Proof.
  induction p as [|c r IH]; cbn [append prefix].
  - destruct e; reflexivity.
  - destruct (ascii_dec c c); [exact IH|congruence].
Qed.

(** [analyzeJSON] reports every failure as a JSON parsing error: the
    message of the parser, and the message of the empty-dataset guard for
    an empty array, come back behind the same prefix; on every other
    document it returns the analysis of the rows. *)
Theorem analyzeJSON_errors
        (Date_parse : string -> number)
        (JSON_parse : string -> outcome DataAnalyzerJSON.document)
        (jsonContent fileName : string) :
  (forall e, JSON_parse jsonContent = Throw e ->
     DataAnalyzerJSON.analyzeJSON Date_parse JSON_parse jsonContent fileName
     = Throw ("JSON parsing error: " ++ e))
  /\ (JSON_parse jsonContent = Return (DataAnalyzerJSON.Rows []) ->
      DataAnalyzerJSON.analyzeJSON Date_parse JSON_parse jsonContent fileName
      = Throw "JSON parsing error: No data found in file")
  /\ (forall message,
        DataAnalyzerJSON.analyzeJSON Date_parse JSON_parse jsonContent fileName
        = Throw message ->
        prefix "JSON parsing error: " message = true
        /\ (JSON_parse jsonContent = Return (DataAnalyzerJSON.Rows [])
            \/ throws (JSON_parse jsonContent)))
  /\ (forall first rest,
        JSON_parse jsonContent = Return (DataAnalyzerJSON.Rows (first :: rest)) ->
        exists r,
          DataAnalyzerJSON.analyzeJSON Date_parse JSON_parse jsonContent fileName = Return r
          /\ DataAnalyzer.analyzeData Date_parse (first :: rest) fileName = Return r).
Proof.
  unfold DataAnalyzerJSON.analyzeJSON. split; [|split; [|split]].
  - intros e ->. reflexivity.
  - intros ->. reflexivity.
  - destruct (JSON_parse jsonContent) as [[[|first rest]|row]|e]; cbn [bind try_catch DataAnalyzerJSON.dataArray_of].
    + intros message H. injection H as <-. split; [exact (prefix_append "JSON parsing error: " _)|auto].
    + rewrite analyzeData_cons. cbn. discriminate.
    + rewrite analyzeData_cons. cbn. discriminate.
    + intros message H. injection H as <-. split; [exact (prefix_append "JSON parsing error: " _)|right; exact I].
  - intros first rest ->. cbn [bind DataAnalyzerJSON.dataArray_of].
    rewrite analyzeData_cons. cbn [try_catch]. eexists. split; reflexivity.
Qed.

Lemma percentage_none n :
  (0 < n)%nat -> (Z.of_nat n < 2 ^ 32)%Z -> DataAnalyzer.percentage 0 n = of_Z 0.
Proof.
  intros Hn Hb. rewrite percentage_exact; try lia.
  - unfold round_half_up_div. f_equal. apply Z.div_small. lia.
  - unfold is_tie. intros T.
    assert (E : ((2 * (100 * Z.of_nat 0) + Z.of_nat n) mod (2 * Z.of_nat n) = Z.of_nat n)%Z).
    { apply Z.mod_small. lia. }
    lia.
Qed.

Lemma percentage_all n :
  (0 < n)%nat -> (Z.of_nat n < 2 ^ 32)%Z -> DataAnalyzer.percentage n n = of_Z 100.
Proof.
  intros Hn Hb. rewrite percentage_exact; try lia.
  - unfold round_half_up_div. f_equal. symmetry.
    apply Z.div_unique with (r := Z.of_nat n); lia.
  - unfold is_tie. intros T.
    assert (E : ((2 * (100 * Z.of_nat n) + Z.of_nat n) mod (2 * Z.of_nat n) = Z.of_nat n)%Z).
    { symmetry. apply Z.mod_unique with (q := 100%Z); lia. }
    lia.
Qed.

Lemma filter_all {A} (f : A -> bool) l : (forall x, In x l -> f x = true) -> filter f l = l.
Proof.
  induction l as [|x r IH]; intros H; cbn [filter]; [reflexivity|].
  rewrite (H x (or_introl eq_refl)), IH; [reflexivity|]. intros y Hy. apply H. right. exact Hy.
Qed.

Lemma filter_none {A} (f : A -> bool) l : (forall x, In x l -> f x = false) -> filter f l = [].
Proof.
  induction l as [|x r IH]; intros H; cbn [filter]; [reflexivity|].
  rewrite (H x (or_introl eq_refl)). apply IH. intros y Hy. apply H. right. exact Hy.
Qed.

(** A column without a missing value. *)
Lemma analyzeColumn_complete (Date_parse : string -> number) name values :
  values <> [] -> array_length_ok values ->
  (forall v, In v values -> non_missing v = true) ->
  complete_column (DataAnalyzer.analyzeColumn Date_parse name values).
Proof.
  intros Hne Hl H. unfold complete_column, DataAnalyzer.analyzeColumn.
  cbn [ColumnStats.nullCount ColumnStats.nullPercentage].
  assert (E : filter is_missing values = []).
  { apply filter_none. intros v Hv. rewrite missing_complement, (H v Hv). reflexivity. }
  rewrite E. cbn [List.length]. split; [reflexivity|].
  apply percentage_none; [destruct values; [congruence|cbn; lia]|exact Hl].
Qed.

(** A column with nothing but missing values. *)
Lemma analyzeColumn_blank (Date_parse : string -> number) name values :
  values <> [] -> array_length_ok values ->
  (forall v, In v values -> is_missing v = true) ->
  blank_column (DataAnalyzer.analyzeColumn Date_parse name values).
Proof.
  intros Hne Hl H.
  assert (Em : filter is_missing values = values) by (apply filter_all; exact H).
  assert (En : filter non_missing values = []).
  { apply filter_none. intros v Hv. pose proof (missing_complement v) as C.
    rewrite (H v Hv) in C. destruct (non_missing v); [discriminate|reflexivity]. }
  assert (Hn : (0 < List.length values)%nat) by (destruct values; [congruence|cbn; lia]).
  assert (Et : DataAnalyzer.inferDataType Date_parse values = Text).
  { unfold DataAnalyzer.inferDataType. rewrite En. reflexivity. }
  unfold blank_column, DataAnalyzer.analyzeColumn.
  cbn [ColumnStats.type ColumnStats.nullCount ColumnStats.totalRows
       ColumnStats.nullPercentage ColumnStats.uniqueCount ColumnStats.uniquePercentage
       ColumnStats.sampleValues ColumnStats.issues].
  rewrite Em, En, Et. cbn [Set_of fold_left List.length slice0 firstn].
  rewrite percentage_all, percentage_none by assumption.
  repeat split.
  rewrite detectIssues_shape.
  unfold missing_issue. rewrite Em, percentage_all by assumption.
  rewrite (duplicateCount_int values Hl), En.
  cbn [is_numeric_type DataType_eqb orb andb Set_of fold_left List.length Z.of_nat Z.sub
       Z.opp Z.add].
  rewrite ltb_int. cbn [Z.ltb Z.compare app].
  destruct (0 <? List.length values)%nat eqn:E0; [reflexivity|].
  apply Nat.ltb_ge in E0. lia.
Qed.

Lemma dataset_columns_cells (Date_parse : string -> number) (p : raw -> bool)
      (P : ColumnStats.t -> Prop) first rest :
  every_cell p (first :: rest) ->
  (forall name values, List.length values = S (List.length rest) ->
                       (forall v, In v values -> p v = true) ->
                       P (DataAnalyzer.analyzeColumn Date_parse name values)) ->
  Forall P (dataset_columns Date_parse (first :: rest)).
Proof.
  intros Hc HP. unfold dataset_columns. apply Forall_map, Forall_forall. intros k Hk.
  apply HP.
  - unfold column_values. rewrite length_map. reflexivity.
  - intros v Hv. unfold column_values in Hv. apply in_map_iff in Hv as (row & <- & Hrow).
    apply (Hc row k Hrow Hk).
Qed.

Lemma sum_rates_const (z : Z) stats :
  Forall (fun c => ColumnStats.nullPercentage c = of_Z z) stats ->
  sum_rates stats = (z * Z.of_nat (List.length stats))%Z.
Proof.
  induction 1 as [|c l Hc _ IH]; cbn [sum_rates List.length]; [lia|].
  rewrite Hc, to_Z_of_Z, IH. lia.
Qed.

Lemma count_all {A} (f : A -> bool) l :
  Forall (fun x => f x = true) l -> count f l = Z.of_nat (List.length l).
Proof.
  intros H. unfold count. rewrite filter_all; [reflexivity|].
  apply Forall_forall. exact H.
Qed.

(** A dataset without a missing cell is 100 per cent complete: every
    column counts no missing value and a missing percentage of 0. *)
Theorem complete_dataset
        (Date_parse : string -> number) (first : record) (rest : list record)
        (fileName : string) :
  Object_keys first <> [] -> array_length_ok (Object_keys first) ->
  array_length_ok (first :: rest) ->
  every_cell non_missing (first :: rest) ->
  exists r,
    DataAnalyzer.analyzeData Date_parse (first :: rest) fileName = Return r
    /\ DataAnalysisResult.completeness r = of_Z 100
    /\ Forall complete_column (DataAnalysisResult.columns r).
Proof.
  intros Hne Hl Hd Hc. rewrite analyzeData_cons. eexists. split; [reflexivity|].
  cbn [DataAnalysisResult.completeness DataAnalysisResult.columns].
  set (stats := dataset_columns Date_parse (first :: rest)).
  assert (Hlen : List.length stats = List.length (Object_keys first))
    by apply dataset_columns_length.
  assert (Hok : array_length_ok stats) by (unfold array_length_ok in *; rewrite Hlen; exact Hl).
  assert (Hne' : stats <> []).
  { intros E. rewrite E in Hlen. destruct (Object_keys first); [congruence|discriminate]. }
  assert (Hcols : Forall complete_column stats).
  { apply (dataset_columns_cells Date_parse non_missing complete_column first rest Hc).
    intros name values Hv Hp. apply analyzeColumn_complete; [| |exact Hp].
    - destruct values; [discriminate|discriminate].
    - unfold array_length_ok in *. rewrite Hv. exact Hd. }
  split; [|exact Hcols].
  pose proof (dataset_rate_ok Date_parse (first :: rest)) as Hrate. fold stats in Hrate.
  rewrite (calculateCompleteness_closed stats Hne' Hok Hrate).
  rewrite (sum_rates_const 0 stats).
  - assert (Hpos : (0 < Z.of_nat (List.length stats))%Z).
    { destruct stats; [congruence | cbn [List.length]; lia]. }
    unfold round_half_up_div. f_equal. symmetry.
    apply Z.div_unique with (r := Z.of_nat (List.length stats)); lia.
  - eapply Forall_impl; [|exact Hcols]. intros c [_ E]. exact E.
Qed.

(** Two rows of two present values. *)
Lemma complete_dataset_witness :
  exists r,
    DataAnalyzer.analyzeData IsoHost.Date_parse
      [[("id", VNum (of_Z 1)); ("city", VStr "-")];
       [("id", VNum (of_Z 2)); ("city", VStr "Rome")]] "cities.json" = Return r
    /\ DataAnalysisResult.completeness r = of_Z 100
    /\ Forall complete_column (DataAnalysisResult.columns r).
Proof.
  apply (complete_dataset IsoHost.Date_parse
           [("id", VNum (of_Z 1)); ("city", VStr "-")]
           [[("id", VNum (of_Z 2)); ("city", VStr "Rome")]] "cities.json").
  - discriminate.
  - unfold array_length_ok. cbn. lia.
  - unfold array_length_ok. cbn. lia.
  - intros row k [<-|[<-|[]]] [<-|[<-|[]]]; reflexivity.
Defined.

(** A dataset with nothing but missing cells: every column is text, 100
    per cent missing, with the one issue of its missing values; the
    completeness is 0, the accuracy 100, and consistency and validity lose
    10 for every column. *)
Theorem blank_dataset
        (Date_parse : string -> number) (first : record) (rest : list record)
        (fileName : string) :
  Object_keys first <> [] -> array_length_ok (Object_keys first) ->
  array_length_ok (first :: rest) ->
  every_cell is_missing (first :: rest) ->
  exists r,
    DataAnalyzer.analyzeData Date_parse (first :: rest) fileName = Return r
    /\ Forall blank_column (DataAnalysisResult.columns r)
    /\ DataAnalysisResult.completeness r = of_Z 0
    /\ DataAnalysisResult.consistency r
       = of_Z (Z.max 0 (100 - 10 * Z.of_nat (DataAnalysisResult.totalColumns r)))
    /\ DataAnalysisResult.accuracy r = of_Z 100
    /\ DataAnalysisResult.validity r
       = of_Z (Z.max 0 (100 - 10 * Z.of_nat (DataAnalysisResult.totalColumns r))).
Proof.
  intros Hne Hl Hd Hc. rewrite analyzeData_cons. eexists. split; [reflexivity|].
  cbn [DataAnalysisResult.completeness DataAnalysisResult.columns
       DataAnalysisResult.consistency DataAnalysisResult.accuracy
       DataAnalysisResult.validity DataAnalysisResult.totalColumns].
  set (stats := dataset_columns Date_parse (first :: rest)).
  assert (Hlen : List.length stats = List.length (Object_keys first))
    by apply dataset_columns_length.
  rewrite <- Hlen.
  assert (Hok : array_length_ok stats) by (unfold array_length_ok in *; rewrite Hlen; exact Hl).
  assert (Hne' : stats <> []).
  { intros E. rewrite E in Hlen. destruct (Object_keys first); [congruence|discriminate]. }
  assert (Hpos : (0 < Z.of_nat (List.length stats))%Z).
  { destruct stats; [congruence | cbn [List.length]; lia]. }
  assert (Hcols : Forall blank_column stats).
  { apply (dataset_columns_cells Date_parse is_missing blank_column first rest Hc).
    intros name values Hv Hp. apply analyzeColumn_blank; [| |exact Hp].
    - destruct values; [discriminate|discriminate].
    - unfold array_length_ok in *. rewrite Hv. exact Hd. }
  pose proof (dataset_rate_ok Date_parse (first :: rest)) as Hrate. fold stats in Hrate.
  pose proof (dataset_few_issues Date_parse (first :: rest)) as Hfew. fold stats in Hfew.
  split; [exact Hcols|]. split; [|split; [|split]].
  - rewrite (calculateCompleteness_closed stats Hne' Hok Hrate).
    rewrite (sum_rates_const 100 stats).
    + unfold round_half_up_div. f_equal. apply Z.div_small. lia.
    + eapply Forall_impl; [|exact Hcols]. intros c (_ & _ & E & _). exact E.
  - rewrite (calculateConsistency_closed stats Hok).
    rewrite (count_all is_text), (count_all has_issues).
    + f_equal. lia.
    + eapply Forall_impl; [|exact Hcols]. intros c (_ & _ & _ & _ & _ & _ & E).
      unfold has_issues. rewrite E. reflexivity.
    + eapply Forall_impl; [|exact Hcols]. intros c (E & _).
      unfold is_text. rewrite E. reflexivity.
  - rewrite (calculateAccuracy_closed stats Hok Hfew).
    assert (E : total_non_numeric stats = 0%Z).
    { clear - Hcols. induction Hcols as [|c l Hc _ IH]; cbn [total_non_numeric]; [reflexivity|].
      rewrite IH. destruct Hc as (_ & _ & _ & _ & _ & _ & E).
      unfold non_numeric_issues, count. rewrite E. cbn [filter].
      rewrite no_hyphen_not_non_numeric; [reflexivity|].
      rewrite has_hyphen_app.
      rewrite (digit_string_no_hyphen _ (digits_of_nat_digit_string _)). reflexivity. }
    rewrite E. reflexivity.
  - rewrite (calculateValidity_closed stats Hok).
    rewrite (count_all low_unique_text).
    + reflexivity.
    + eapply Forall_impl; [|exact Hcols]. intros c (E & _ & _ & _ & E' & _).
      unfold low_unique_text. rewrite E, E'. reflexivity.
Qed.

(** Two rows of empty strings and nulls. *)
Lemma blank_dataset_witness :
  exists r,
    DataAnalyzer.analyzeData IsoHost.Date_parse
      [[("a", VStr ""); ("b", VNull)]; [("a", VNull)]] "blank.json" = Return r
    /\ Forall blank_column (DataAnalysisResult.columns r)
    /\ DataAnalysisResult.completeness r = of_Z 0
    /\ DataAnalysisResult.consistency r
       = of_Z (Z.max 0 (100 - 10 * Z.of_nat (DataAnalysisResult.totalColumns r)))
    /\ DataAnalysisResult.accuracy r = of_Z 100
    /\ DataAnalysisResult.validity r
       = of_Z (Z.max 0 (100 - 10 * Z.of_nat (DataAnalysisResult.totalColumns r))).
Proof.
  apply (blank_dataset IsoHost.Date_parse
           [("a", VStr ""); ("b", VNull)] [[("a", VNull)]] "blank.json").
  - discriminate.
  - unfold array_length_ok. cbn. lia.
  - unfold array_length_ok. cbn. lia.
  - intros row k [<-|[<-|[]]] [<-|[<-|[]]]; reflexivity.
Defined.

Lemma analyzeColumn_single (Date_parse : string -> number) name v :
  single_value_column (DataAnalyzer.analyzeColumn Date_parse name [v]).
Proof.
  unfold single_value_column, DataAnalyzer.analyzeColumn.
  cbn [ColumnStats.type ColumnStats.nullCount ColumnStats.totalRows
       ColumnStats.nullPercentage ColumnStats.uniqueCount ColumnStats.uniquePercentage
       List.length].
  split; [reflexivity|].
  assert (P0 : DataAnalyzer.percentage 0 1 = of_Z 0) by (apply percentage_none; cbn; lia).
  assert (P1 : DataAnalyzer.percentage 1 1 = of_Z 100) by (apply percentage_all; cbn; lia).
  pose proof (missing_complement v) as C. cbn [filter].
  destruct (is_missing v) eqn:Em.
  - left. destruct (non_missing v) eqn:En; [discriminate|].
    cbn [List.length Set_of fold_left].
    split; [reflexivity|]. split; [exact P1|]. split; [reflexivity|]. split; [exact P0|].
    unfold DataAnalyzer.inferDataType. cbn [filter]. rewrite En. reflexivity.
  - right. destruct (non_missing v) eqn:En; [|discriminate].
    change (Set_of [v]) with [v]. cbn [List.length].
    split; [reflexivity|]. split; [exact P0|]. split; [reflexivity|]. exact P1.
Qed.

(** A JSON document that is a single object is analysed as a dataset of
    one row: the preview is that object, the columns are its keys, and
    every column is either 100 per cent missing and text, or present with
    one distinct value. *)
Theorem analyzeJSON_single_object
        (Date_parse : string -> number)
        (JSON_parse : string -> outcome DataAnalyzerJSON.document)
        (jsonContent fileName : string) (row : record) :
  JSON_parse jsonContent = Return (DataAnalyzerJSON.Single row) ->
  exists r,
    DataAnalyzerJSON.analyzeJSON Date_parse JSON_parse jsonContent fileName = Return r
    /\ DataAnalysisResult.totalRows r = 1%nat
    /\ DataAnalysisResult.dataPreview r = [row]
    /\ map ColumnStats.name (DataAnalysisResult.columns r) = Object_keys row
    /\ Forall single_value_column (DataAnalysisResult.columns r).
Proof.
  intros H. unfold DataAnalyzerJSON.analyzeJSON. rewrite H.
  cbn [bind DataAnalyzerJSON.dataArray_of]. rewrite analyzeData_cons. cbn [try_catch].
  eexists. split; [reflexivity|].
  cbn [DataAnalysisResult.totalRows DataAnalysisResult.dataPreview
       DataAnalysisResult.columns List.length].
  split; [reflexivity|]. split; [reflexivity|]. split.
  - unfold dataset_columns. rewrite map_map. cbn [DataAnalyzer.analyzeColumn ColumnStats.name].
    apply map_id.
  - unfold dataset_columns. apply Forall_map, Forall_forall. intros k _.
    apply analyzeColumn_single.
Qed.

(** One object with a name and an empty e-mail address. *)
Lemma analyzeJSON_single_object_witness :
  exists r,
    DataAnalyzerJSON.analyzeJSON IsoHost.Date_parse
      (JSON_reads "{}" (DataAnalyzerJSON.Single [("name", VStr "Ann"); ("email", VStr "")]))
      "{}" "one.json" = Return r
    /\ DataAnalysisResult.totalRows r = 1%nat
    /\ DataAnalysisResult.dataPreview r = [[("name", VStr "Ann"); ("email", VStr "")]]
    /\ map ColumnStats.name (DataAnalysisResult.columns r)
       = Object_keys [("name", VStr "Ann"); ("email", VStr "")]
    /\ Forall single_value_column (DataAnalysisResult.columns r).
Proof.
  apply (analyzeJSON_single_object IsoHost.Date_parse
           (JSON_reads "{}" (DataAnalyzerJSON.Single [("name", VStr "Ann"); ("email", VStr "")]))
           "{}" "one.json" [("name", VStr "Ann"); ("email", VStr "")]).
  reflexivity.
Defined.

End EntryAndEdges.

(* ------------------------------------------------------------------ *)
(** *** The placeholder for a missing field *)

Section Placeholders.
Local Open Scope string_scope.

Lemma get_present row k : get row k <> VUndefined -> In k (Object_keys row).
Proof.
  induction row as [|[k' v] r IH]; cbn [get Object_keys map fst]; [congruence|].
  destruct (String.eqb k' k) eqn:E.
  - intros _. left. apply String.eqb_eq. exact E.
  - intros H. right. apply IH. exact H.
Qed.

(** The placeholder "-" is a missing field for the per-record insights
    but a present value for the column statistics: a field holding it in
    one of the first five rows is listed in the insight of that row, while
    a column holding nothing else counts no missing value. *)
Theorem hyphen_missing_per_record_only
        (Date_parse : string -> number) (first : record) (rest : list record)
        (fileName : string) (idColumn : ColumnStats.t) (k : string) :
  find AIAnalyzer.is_id_column (dataset_columns Date_parse (first :: rest)) = Some idColumn ->
  In k (Object_keys first) -> k <> ColumnStats.name idColumn ->
  array_length_ok (first :: rest) ->
  (forall row, In row (first :: rest) -> get row k = VStr "-") ->
  exists r,
    DataAnalyzer.analyzeData Date_parse (first :: rest) fileName = Return r
    /\ (forall c, In c (DataAnalysisResult.columns r) -> ColumnStats.name c = k ->
                  complete_column c)
    /\ (forall row, In row (DataAnalysisResult.dataPreview r) ->
                    flags_field r (ColumnStats.name idColumn) row k).
Proof.
  intros Hid Hk Hne Hl Hv. rewrite analyzeData_cons. eexists. split; [reflexivity|].
  set (r := DataAnalysisResult.Build _ _ _ _ _ _ _ _ _ _ _).
  split.
  - cbn [DataAnalysisResult.columns r]. unfold dataset_columns.
    intros c Hc Hn. apply in_map_iff in Hc as (k' & <- & Hk').
    cbn [DataAnalyzer.analyzeColumn ColumnStats.name] in Hn. subst k'.
    apply analyzeColumn_complete.
    + discriminate.
    + unfold array_length_ok, column_values in *. rewrite length_map. exact Hl.
    + intros v Hin. unfold column_values in Hin. apply in_map_iff in Hin as (row & <- & Hrow).
      rewrite (Hv row Hrow). reflexivity.
  - intros row Hrow. unfold flags_field. rewrite (extract_as_flat_map r).
    change (DataAnalysisResult.columns r) with (dataset_columns Date_parse (first :: rest)).
    rewrite Hid.
    assert (Hin : In row (first :: rest)).
    { change (DataAnalysisResult.dataPreview r) with (firstn 5 (first :: rest)) in Hrow.
      eapply In_firstn; exact Hrow. }
    assert (Hm : In k (missing_fields (ColumnStats.name idColumn) row)).
    { unfold missing_fields. apply filter_In. split.
      - apply get_present. rewrite (Hv row Hin). discriminate.
      - rewrite (Hv row Hin). cbn [AIAnalyzer.is_missing_marker].
        destruct (String.eqb k (ColumnStats.name idColumn)) eqn:E.
        + apply String.eqb_eq in E. contradiction.
        + reflexivity. }
    exists (recommendation_for (ColumnStats.name idColumn) row
              (missing_fields (ColumnStats.name idColumn) row)),
           (missing_fields (ColumnStats.name idColumn) row).
    split; [|split; [reflexivity|split; [reflexivity|exact Hm]]].
    apply in_flat_map. exists row. split; [exact Hrow|].
    unfold per_record.
    destruct (missing_fields (ColumnStats.name idColumn) row) eqn:E; [destruct Hm|].
    left. reflexivity.
Qed.

(** Two rows with an id and a dash for the city. *)
Lemma hyphen_missing_per_record_only_witness :
  exists r,
    DataAnalyzer.analyzeData IsoHost.Date_parse
      [[("id", VNum (of_Z 1)); ("city", VStr "-")];
       [("id", VNum (of_Z 2)); ("city", VStr "-")]] "cities.json" = Return r
    /\ (forall c, In c (DataAnalysisResult.columns r) -> ColumnStats.name c = "city" ->
                  complete_column c)
    /\ (forall row, In row (DataAnalysisResult.dataPreview r) ->
                    flags_field r "id" row "city").
Proof.
  apply (hyphen_missing_per_record_only IsoHost.Date_parse
           [("id", VNum (of_Z 1)); ("city", VStr "-")]
           [[("id", VNum (of_Z 2)); ("city", VStr "-")]] "cities.json"
           (DataAnalyzer.analyzeColumn IsoHost.Date_parse "id"
              [VNum (of_Z 1); VNum (of_Z 2)]) "city").
  - reflexivity.
  - right. left. reflexivity.
  - discriminate.
  - unfold array_length_ok. cbn. lia.
  - intros row [<-|[<-|[]]]; reflexivity.
Defined.

End Placeholders.

(* ------------------------------------------------------------------ *)
(** *** The pages: upload, lists and charts *)

Section PagesFacts.
Local Open Scope string_scope.

(** A file the upload form lets through is within the size limit, is
    valid JSON when its name ends in .json, and has a name for which the
    analysis page chooses the analyzer of its extension, whatever the
    decoded content: the page never answers "Unsupported file format" for
    it. *)
Theorem accepted_upload_is_analysed
        (JSON_valid : string -> bool)
        (analyzeCSV analyzeJSON : string -> string -> outcome DataAnalysisResult.t)
        (name fileContent fileContent' name' : string) (size : Z) :
  Pages.handleFile JSON_valid name size fileContent = Pages.Redirected fileContent' name' ->
  fileContent' = fileContent /\ name' = name
  /\ (size <= Pages.MAX_FILE_SIZE)%Z
  /\ ((endsWith (toLowerCase name) ".csv" = true
       /\ forall decodedData,
            Pages.analyzeFile analyzeCSV analyzeJSON decodedData name'
            = analyzeCSV decodedData name)
      \/ (endsWith (toLowerCase name) ".json" = true
          /\ JSON_valid fileContent = true
          /\ forall decodedData,
               Pages.analyzeFile analyzeCSV analyzeJSON decodedData name'
               = analyzeJSON decodedData name)).
Proof.
  unfold Pages.handleFile.
  destruct (Pages.hasValidExtension name) eqn:Ev; cbn [negb]; [|discriminate].
  destruct (Z.ltb_spec Pages.MAX_FILE_SIZE size) as [Hs|Hs]; [discriminate|].
  destruct (endsWith (toLowerCase name) ".json") eqn:Ej; cbn [andb].
  - destruct (JSON_valid fileContent) eqn:Ejv; cbn [negb]; [|discriminate].
    intros H. injection H as <- <-. repeat split; auto.
    right. split; [reflexivity|]. split; [reflexivity|]. intros decodedData.
    unfold Pages.analyzeFile. rewrite extension_of_lower.
    rewrite (pop_split_suffix _ "json" eq_refl Ej). reflexivity.
  - intros H. injection H as <- <-. repeat split; auto.
    left. unfold Pages.hasValidExtension, Pages.ALLOWED_TYPES in Ev. cbn [existsb] in Ev.
    rewrite Ej in Ev. cbn [orb] in Ev. rewrite orb_false_r in Ev. split; [exact Ev|].
    intros decodedData.
    unfold Pages.analyzeFile. rewrite extension_of_lower.
    rewrite (pop_split_suffix _ "csv" eq_refl Ev). reflexivity.
Qed.

(** A small CSV file with an upper-case extension. *)
Lemma accepted_upload_is_analysed_witness :
  "a,b" = "a,b" /\ "Sales.CSV" = "Sales.CSV"
  /\ (3 <= Pages.MAX_FILE_SIZE)%Z
  /\ ((endsWith (toLowerCase "Sales.CSV") ".csv" = true
       /\ forall decodedData,
            Pages.analyzeFile (fun _ _ => Throw "csv") (fun _ _ => Throw "json")
                              decodedData "Sales.CSV"
            = Throw "csv")
      \/ (endsWith (toLowerCase "Sales.CSV") ".json" = true
          /\ JSON_accepts_all "a,b" = true
          /\ forall decodedData,
               Pages.analyzeFile (fun _ _ => Throw "csv") (fun _ _ => Throw "json")
                                 decodedData "Sales.CSV"
               = Throw "json")).
Proof.
  apply (accepted_upload_is_analysed JSON_accepts_all
           (fun _ _ => Throw "csv") (fun _ _ => Throw "json")
           "Sales.CSV" "a,b" "a,b" "Sales.CSV" 3).
  reflexivity.
Defined.

(** *** Sorting *)

Lemma sort_insert_perm {A} (cmp : A -> A -> Z) x l :
  Permutation (Pages.sort_insert cmp x l) (x :: l).
Proof.
  induction l as [|y r IH]; cbn [Pages.sort_insert]; [reflexivity|].
  destruct (cmp x y <=? 0)%Z; [reflexivity|].
  eapply perm_trans; [apply perm_skip; exact IH|apply perm_swap].
Qed.

Lemma Array_sort_perm {A} (cmp : A -> A -> Z) l : Permutation (Pages.Array_sort cmp l) l.
Proof.
  induction l as [|x r IH]; cbn [Pages.Array_sort fold_right]; [constructor|].
  eapply perm_trans; [apply sort_insert_perm|]. apply perm_skip. exact IH.
Qed.

Lemma sort_insert_sorted {A} (key : A -> Z) x l :
  StronglySorted (fun a b => (key a <= key b)%Z) l ->
  StronglySorted (fun a b => (key a <= key b)%Z)
                 (Pages.sort_insert (fun a b => (key a - key b)%Z) x l).
Proof.
  induction 1 as [|y r Hr IH Hy]; cbn [Pages.sort_insert].
  - repeat constructor.
  - destruct (Z.leb_spec (key x - key y) 0) as [Hle|Hgt].
    + constructor; [constructor; assumption|].
      constructor; [lia|]. eapply Forall_impl; [|exact Hy]. intros; cbn in *; lia.
    + constructor; [exact IH|].
      eapply Permutation_Forall; [apply Permutation_sym, sort_insert_perm|].
      constructor; [lia|exact Hy].
Qed.

Lemma Array_sort_sorted {A} (key : A -> Z) l :
  StronglySorted (fun a b => (key a <= key b)%Z)
                 (Pages.Array_sort (fun a b => (key a - key b)%Z) l).
Proof.
  induction l as [|x r IH]; cbn [Pages.Array_sort fold_right]; [constructor|].
  apply sort_insert_sorted. exact IH.
Qed.

(** Elements with the same key keep their order. *)
Lemma sort_insert_stable {A} (key : A -> Z) (p : A -> bool) x l :
  (forall a b, p a = true -> p b = true -> key a = key b) ->
  filter p (Pages.sort_insert (fun a b => (key a - key b)%Z) x l) = filter p (x :: l).
Proof.
  intros Hp. induction l as [|y r IH]; cbn [Pages.sort_insert]; [reflexivity|].
  destruct (Z.leb_spec (key x - key y) 0) as [Hle|Hgt]; [reflexivity|].
  cbn [filter] in *. destruct (p y) eqn:Ey.
  - destruct (p x) eqn:Ex.
    + specialize (Hp x y Ex Ey). lia.
    + rewrite IH. reflexivity.
  - exact IH.
Qed.

Lemma Array_sort_stable {A} (key : A -> Z) (p : A -> bool) l :
  (forall a b, p a = true -> p b = true -> key a = key b) ->
  filter p (Pages.Array_sort (fun a b => (key a - key b)%Z) l) = filter p l.
Proof.
  intros Hp. induction l as [|x r IH]; cbn [Pages.Array_sort fold_right]; [reflexivity|].
  rewrite (sort_insert_stable key p x _ Hp). cbn [filter].
  fold (Pages.Array_sort (fun a b => (key a - key b)%Z) r). rewrite IH. reflexivity.
Qed.

Lemma Array_sort_ext {A} (cmp cmp' : A -> A -> Z) l :
  (forall a b, cmp a b = cmp' a b) -> Pages.Array_sort cmp l = Pages.Array_sort cmp' l.
Proof.
  intros H. induction l as [|x r IH]; cbn [Pages.Array_sort fold_right]; [reflexivity|].
  fold (Pages.Array_sort cmp r). fold (Pages.Array_sort cmp' r). rewrite IH.
  generalize (Pages.Array_sort cmp' r) as s. intros s.
  induction s as [|y t IHt]; cbn [Pages.sort_insert]; [reflexivity|].
  rewrite H, IHt. reflexivity.
Qed.

Lemma sorted_by_priority l :
  StronglySorted (fun a b => (Pages.priorityOrder (AIInsight.priority a)
                              <= Pages.priorityOrder (AIInsight.priority b))%Z) l ->
  l = (of_priority High l ++ of_priority Medium l ++ of_priority Low l)%list.
Proof.
  induction 1 as [|x r Hr IH Hx]; [reflexivity|].
  unfold of_priority in *. cbn [filter].
  destruct (AIInsight.priority x) eqn:Ex; cbn [Pages.priorityOrder] in Hx.
  - cbn [app]. rewrite <- IH. reflexivity.
  - assert (E : filter (fun i => match AIInsight.priority i with High => true | _ => false end) r
                = []).
    { apply filter_none. intros y Hy. rewrite Forall_forall in Hx. specialize (Hx y Hy).
      destruct (AIInsight.priority y); cbn in Hx; [lia|reflexivity|reflexivity]. }
    rewrite E in *. cbn [app] in *. rewrite <- IH. reflexivity.
  - assert (E : filter (fun i => match AIInsight.priority i with High => true | _ => false end) r
                = []).
    { apply filter_none. intros y Hy. rewrite Forall_forall in Hx. specialize (Hx y Hy).
      destruct (AIInsight.priority y); cbn in Hx; [lia|reflexivity|reflexivity]. }
    assert (E' : filter (fun i => match AIInsight.priority i with Medium => true | _ => false end) r
                 = []).
    { apply filter_none. intros y Hy. rewrite Forall_forall in Hx. specialize (Hx y Hy).
      destruct (AIInsight.priority y); cbn in Hx; [reflexivity|lia|reflexivity]. }
    rewrite E, E' in *. cbn [app] in *. rewrite <- IH. reflexivity.
Qed.

Lemma sort_by_priority l :
  Pages.Array_sort Pages.byPriority l
  = (of_priority High l ++ of_priority Medium l ++ of_priority Low l)%list.
Proof.
  pose proof (Array_sort_sorted (fun i => Pages.priorityOrder (AIInsight.priority i)) l) as S.
  change (fun a b => (Pages.priorityOrder (AIInsight.priority a)
                      - Pages.priorityOrder (AIInsight.priority b))%Z)
    with Pages.byPriority in S.
  rewrite (sorted_by_priority _ S) at 1. unfold of_priority.
  rewrite !(Array_sort_stable (fun i => Pages.priorityOrder (AIInsight.priority i))).
  - reflexivity.
  - intros a b Ha Hb. destruct (AIInsight.priority a), (AIInsight.priority b);
      try discriminate; reflexivity.
  - intros a b Ha Hb. destruct (AIInsight.priority a), (AIInsight.priority b);
      try discriminate; reflexivity.
  - intros a b Ha Hb. destruct (AIInsight.priority a), (AIInsight.priority b);
      try discriminate; reflexivity.
Qed.

(** The analysis page lists every insight once: the High ones first, then
    the Medium ones, then the Low ones, each group in the order in which
    [generateInsights] returned them. *)
Theorem listedInsights_order (insights : list AIInsight.t) :
  Pages.listedInsights insights
  = (of_priority High insights ++ of_priority Medium insights
     ++ of_priority Low insights)%list
  /\ Permutation (Pages.listedInsights insights) insights.
Proof.
  unfold Pages.listedInsights. split; [apply sort_by_priority|apply Array_sort_perm].
Qed.

(** The dashboard shows the first five insights only, sorted by priority;
    as the per-record insights come first, five of them leave no room for
    any insight of the service or any default insight. *)
Theorem dashboard_shows_first_five
        (chat_completions_create : string -> outcome ChatCompletion.t)
        (JSON_parse : string -> outcome (list AIInsight.t))
        (analysis : DataAnalysisResult.t) :
  (5 <= List.length (AIAnalyzer.extractUserSpecificIssues analysis))%nat ->
  exists insights,
    AIAnalyzer.generateInsights chat_completions_create JSON_parse analysis = Return insights
    /\ Pages.dashboardRecommendations insights
       = Pages.listedInsights
           (firstn 5 (map UserIssue.insight (AIAnalyzer.extractUserSpecificIssues analysis)))
    /\ List.length (Pages.dashboardRecommendations insights) = 5%nat
    /\ forall i, In i (Pages.dashboardRecommendations insights) ->
                 In i (map UserIssue.insight (AIAnalyzer.extractUserSpecificIssues analysis)).
Proof.
  intros H5. rewrite generateInsights_cases. eexists. split; [reflexivity|].
  unfold Pages.dashboardRecommendations, Pages.listedInsights, slice0.
  set (user := map UserIssue.insight (AIAnalyzer.extractUserSpecificIssues analysis)).
  assert (Hu : (5 <= List.length user)%nat) by (unfold user; rewrite length_map; exact H5).
  assert (E : firstn 5 (user ++ answer_or_default chat_completions_create JSON_parse analysis)
              = firstn 5 user).
  { rewrite firstn_app. replace (5 - List.length user)%nat with 0%nat by lia.
    cbn [firstn]. apply app_nil_r. }
  rewrite E. split; [reflexivity|]. split.
  - rewrite (Permutation_length (Array_sort_perm _ _)), length_firstn. lia.
  - intros i Hi. eapply Permutation_in in Hi; [|apply Array_sort_perm].
    eapply In_firstn. exact Hi.
Qed.

(** Five records without a name, and a service that is down. *)
Lemma dashboard_shows_first_five_witness :
  exists insights,
    AIAnalyzer.generateInsights service_down JSON_parse_strict five_unnamed_analysis
    = Return insights
    /\ Pages.dashboardRecommendations insights
       = Pages.listedInsights
           (firstn 5 (map UserIssue.insight
                          (AIAnalyzer.extractUserSpecificIssues five_unnamed_analysis)))
    /\ List.length (Pages.dashboardRecommendations insights) = 5%nat
    /\ forall i, In i (Pages.dashboardRecommendations insights) ->
                 In i (map UserIssue.insight
                           (AIAnalyzer.extractUserSpecificIssues five_unnamed_analysis)).
Proof.
  apply (dashboard_shows_first_five service_down JSON_parse_strict five_unnamed_analysis).
  vm_compute. apply le_n.
Defined.

(** *** The charts of the dashboard *)

Lemma StronglySorted_app_inv {A} (R : A -> A -> Prop) l1 l2 :
  StronglySorted R (l1 ++ l2) ->
  StronglySorted R l1 /\ forall a b, In a l1 -> In b l2 -> R a b.
Proof.
  induction l1 as [|x r IH]; cbn [app]; intros H.
  - split; [constructor|intros a b []].
  - inversion H as [|? ? Hs Hx]; subst. destruct (IH Hs) as [S1 S2]. split.
    + constructor; [exact S1|]. rewrite Forall_forall in *. intros y Hy. apply Hx.
      apply in_or_app. auto.
    + intros a b [<-|Ha] Hb.
      * rewrite Forall_forall in Hx. apply Hx. apply in_or_app. auto.
      * apply S2; assumption.
Qed.

(** The bar chart of missing values shows ten columns, or all of them
    when they are fewer, by falling number of missing values: no column
    left out has more missing values than a column shown. *)
Theorem top10Columns_spec (columns : list ColumnStats.t) :
  List.length (Pages.top10Columns columns) = Nat.min 10 (List.length columns)
  /\ StronglySorted (fun a b => (ColumnStats.nullCount b <= ColumnStats.nullCount a)%nat)
                    (Pages.top10Columns columns)
  /\ exists others,
       Permutation (Pages.top10Columns columns ++ others) columns
       /\ forall a b, In a (Pages.top10Columns columns) -> In b others ->
                      (ColumnStats.nullCount b <= ColumnStats.nullCount a)%nat.
Proof.
  unfold Pages.top10Columns, slice0.
  set (cmp := fun a b : ColumnStats.t =>
                (Z.of_nat (ColumnStats.nullCount b) - Z.of_nat (ColumnStats.nullCount a))%Z).
  set (key := fun c : ColumnStats.t => (- Z.of_nat (ColumnStats.nullCount c))%Z).
  assert (E : Pages.Array_sort cmp columns
              = Pages.Array_sort (fun a b => (key a - key b)%Z) columns).
  { apply Array_sort_ext. intros a b. unfold cmp, key. lia. }
  rewrite E. set (sorted := Pages.Array_sort (fun a b => (key a - key b)%Z) columns).
  pose proof (Array_sort_perm (fun a b => (key a - key b)%Z) columns) as P. fold sorted in P.
  pose proof (Array_sort_sorted key columns) as S. fold sorted in S.
  assert (S' : StronglySorted
                 (fun a b => (ColumnStats.nullCount b <= ColumnStats.nullCount a)%nat) sorted).
  { clear - S. induction S as [|x r Hr IH Hx]; constructor; [exact IH|].
    eapply Forall_impl; [|exact Hx]. intros y Hy. unfold key in Hy. lia. }
  rewrite <- (firstn_skipn 10 sorted) in S'.
  destruct (StronglySorted_app_inv _ _ _ S') as [S1 S2].
  split; [rewrite length_firstn, (Permutation_length P); reflexivity|].
  split; [exact S1|].
  exists (skipn 10 sorted). split; [rewrite firstn_skipn; exact P|exact S2].
Qed.

Lemma bump_count_same key acc : count_of key (Pages.bump key acc) = S (count_of key acc).
Proof.
  induction acc as [|[k n] r IH]; cbn [Pages.bump count_of].
  - rewrite String.eqb_refl. reflexivity.
  - destruct (String.eqb k key) eqn:E; cbn [count_of]; rewrite E; [reflexivity|exact IH].
Qed.

Lemma bump_count_other key key' acc :
  key <> key' -> count_of key' (Pages.bump key acc) = count_of key' acc.
Proof.
  intros Hne. induction acc as [|[k n] r IH]; cbn [Pages.bump count_of].
  - destruct (String.eqb key key') eqn:E; [apply String.eqb_eq in E; contradiction|reflexivity].
  - destruct (String.eqb k key) eqn:E; cbn [count_of].
    + apply String.eqb_eq in E. subst k.
      destruct (String.eqb key key') eqn:E'; [apply String.eqb_eq in E'; contradiction|reflexivity].
    + destruct (String.eqb k key'); [reflexivity|exact IH].
Qed.

Lemma bump_keys key acc :
  (~ In key (map fst acc) -> map fst (Pages.bump key acc) = (map fst acc ++ [key])%list)
  /\ (In key (map fst acc) -> map fst (Pages.bump key acc) = map fst acc).
Proof.
  induction acc as [|[k n] r [IH1 IH2]]; cbn [Pages.bump map fst app].
  - split; [reflexivity|intros []].
  - destruct (String.eqb k key) eqn:E.
    + apply String.eqb_eq in E. subst k. split.
      * intros H. exfalso. apply H. left. reflexivity.
      * reflexivity.
    + cbn [map fst]. split.
      * intros Hn. rewrite IH1; [reflexivity|]. intros H. apply Hn. right. exact H.
      * intros [H|H]; [subst k; rewrite String.eqb_refl in E; discriminate|].
        rewrite IH2 by exact H. reflexivity.
Qed.

Lemma bump_positive key acc :
  Forall (fun kn => (1 <= snd kn)%nat) acc ->
  Forall (fun kn => (1 <= snd kn)%nat) (Pages.bump key acc).
Proof.
  induction 1 as [|[k n] r Hk Hr IH]; cbn [Pages.bump].
  - repeat constructor.
  - cbn [snd] in Hk. destruct (String.eqb k key); constructor; cbn [snd]; auto; lia.
Qed.

Lemma bump_sum key acc :
  list_sum (map snd (Pages.bump key acc)) = S (list_sum (map snd acc)).
Proof.
  induction acc as [|[k n] r IH]; cbn [Pages.bump map snd list_sum fold_right]; [reflexivity|].
  destruct (String.eqb k key); cbn [map snd list_sum fold_right].
  - lia.
  - fold (list_sum (map snd (Pages.bump key r))). rewrite IH.
    fold (list_sum (map snd r)). lia.
Qed.

Lemma DataType_name_inj t t' : DataType_name t = DataType_name t' -> t = t'.
Proof. destruct t, t'; cbn; intros H; try reflexivity; discriminate H. Qed.

Lemma typeCounts_fold columns : forall acc,
  let tc := fold_left (fun acc col => Pages.bump (DataType_name (ColumnStats.type col)) acc)
                      columns acc in
  (NoDup (map fst acc) -> NoDup (map fst tc))
  /\ (incl (map fst acc) type_names -> incl (map fst tc) type_names)
  /\ (Forall (fun kn => (1 <= snd kn)%nat) acc -> Forall (fun kn => (1 <= snd kn)%nat) tc)
  /\ (forall t, count_of (DataType_name t) tc
                = (count_of (DataType_name t) acc
                   + List.length (filter (fun c => DataType_eqb (ColumnStats.type c) t) columns))%nat)
  /\ list_sum (map snd tc) = (list_sum (map snd acc) + List.length columns)%nat.
Proof.
  induction columns as [|c r IH]; intros acc; cbn [fold_left].
  - cbn. repeat split; auto.
  - destruct (IH (Pages.bump (DataType_name (ColumnStats.type c)) acc)) as (I1 & I2 & I3 & I4 & I5).
    destruct (bump_keys (DataType_name (ColumnStats.type c)) acc) as [K1 K2].
    split; [|split; [|split; [|split]]].
    + intros Hn. apply I1.
      destruct (in_dec string_dec (DataType_name (ColumnStats.type c)) (map fst acc)) as [Hin|Hin].
      * rewrite K2 by exact Hin. exact Hn.
      * rewrite K1 by exact Hin. apply NoDup_app; [exact Hn|repeat constructor; intros []|].
        intros x Hx [<-|[]]. contradiction.
    + intros Hi. apply I2.
      destruct (in_dec string_dec (DataType_name (ColumnStats.type c)) (map fst acc)) as [Hin|Hin].
      * rewrite K2 by exact Hin. exact Hi.
      * rewrite K1 by exact Hin. apply incl_app; [exact Hi|].
        intros x [<-|[]]. unfold type_names.
        destruct (ColumnStats.type c); cbn; auto 6.
    + intros Hp. apply I3. apply bump_positive. exact Hp.
    + intros t. rewrite I4. cbn [filter].
      destruct (DataType_eqb (ColumnStats.type c) t) eqn:E.
      * assert (ColumnStats.type c = t) by (destruct (ColumnStats.type c), t; try discriminate; reflexivity).
        subst t. rewrite bump_count_same. cbn [List.length]. lia.
      * rewrite bump_count_other; [reflexivity|].
        intros H. apply DataType_name_inj in H. rewrite H in E.
        destruct t; discriminate.
    + rewrite I5, bump_sum. cbn [List.length]. lia.
Qed.

(** The pie chart of the column types has one slice for every type that
    occurs, in the order of first occurrence: no type twice, at most five
    slices, none empty, the slice of a type counting its columns, and the
    slices together counting every column. *)
Theorem typeCounts_spec (columns : list ColumnStats.t) :
  NoDup (map fst (Pages.typeCounts columns))
  /\ (List.length (Pages.typeCounts columns) <= 5)%nat
  /\ Forall (fun kn => (1 <= snd kn)%nat) (Pages.typeCounts columns)
  /\ (forall t, count_of (DataType_name t) (Pages.typeCounts columns)
                = List.length (filter (fun c => DataType_eqb (ColumnStats.type c) t) columns))
  /\ list_sum (map snd (Pages.typeCounts columns)) = List.length columns.
Proof.
  unfold Pages.typeCounts.
  destruct (typeCounts_fold columns []) as (I1 & I2 & I3 & I4 & I5).
  assert (Hn : NoDup (map fst (fold_left
            (fun acc col => Pages.bump (DataType_name (ColumnStats.type col)) acc) columns [])))
    by (apply I1; constructor).
  split; [exact Hn|]. split; [|split; [apply I3; constructor|split; [exact I4|exact I5]]].
  rewrite <- (length_map fst).
  change 5%nat with (List.length type_names).
  apply NoDup_incl_length; [exact Hn|]. apply I2. intros x [].
Qed.

End PagesFacts.
